(** * Weather-risk analysis front end: the analysis, fallback and export code

    A shallow embedding of the TypeScript code that produces, scores and
    exports weather-risk analysis results:

    - [Earth3DGlobe.tsx]: [analyzeWeatherRisk],
      [calculateWeatherProbabilitiesLocal], [calculateComfortIndex];
    - [WeatherAnalysisPanel.tsx]: [calculateComfortIndex] and the panel;
    - the index page: [handleAnalyze] and its simulated fallback analysis;
    - the dashboard: [handleExportCSV];
    - [Map2D.tsx]: [analyzeWeatherRisk].

    Conventions of the embedding.  A JavaScript [number] that is finite is
    a rational ([Q]).  Where a result depends on how doubles are rounded
    (the two comfort figures and the wind direction) the arithmetic is
    that of IEEE 754 doubles, module [Binary64]: every operation rounds
    its exact result to the nearest double, and a number may be not a
    number or infinite.  Elsewhere the arithmetic is exact, and what the
    code computes in doubles follows it up to the rounding error of a
    double.  [Math.random()], [fetch],
    the clock and the console are the environment: the draws, the
    replies and the current time are given from outside, the calls are
    counted and logged in an explicit world that every asynchronous
    function threads through.  A thrown exception or a rejected promise
    is the [Throw] outcome.  Rendering, downloads and the React scheduler
    are left out: a state setter takes effect at once. *)

From Stdlib Require Import ZArith QArith Qabs Qminmax Qround Qreduction Qpower.
From Stdlib Require Import List Permutation String Ascii DecimalString Bool.
From Stdlib Require Import Lia Lqa.
Import ListNotations.

Set Implicit Arguments.

(** ** JavaScript values the code relies on *)

Module JS.

Definition Math_min (a b : Q) : Q := Qmin a b.
Definition Math_max (a b : Q) : Q := Qmax a b.
Definition Math_abs (a : Q) : Q := Qabs a.

(** [Math.round]: the nearest integer, halves going up. *)
Definition Math_round (x : Q) : Q := inject_Z (Qfloor (x + (1 # 2))).

(** [s.includes(sub)]. *)
Fixpoint includes (sub s : string) : bool :=
  if String.prefix sub s then true
  else match s with
       | EmptyString => false
       | String _ rest => includes sub rest
       end.

(** What a [throw] or a rejected promise carries. *)
Inductive exn : Type :=
  | Error (msg : string)
  | HttpError (msg : string) (status : Z)
  | RangeError
  | Rejected (reason : string).

Inductive outcome (A : Type) : Type :=
  | Normal (a : A)
  | Throw (e : exn).
Arguments Throw {A} e.

(** *** Dates

    A [Date] holds a time value, milliseconds since the epoch in UTC, or is
    invalid.  The constructor clips time values outside +-8.64e15. *)

Inductive Date : Type :=
  | InvalidDate
  | DateOf (t : Z).

Definition maxTime : Z := 8640000000000000.
Definition msPerDay : Z := 24 * 60 * 60 * 1000.

Definition new_Date (t : option Z) : Date :=
  match t with
  | Some t => if (Z.abs t <=? maxTime)%Z then DateOf t else InvalidDate
  | None => InvalidDate
  end.

Definition getTime (d : Date) : option Z :=
  match d with
  | InvalidDate => None
  | DateOf t => Some t
  end.

(** [d.getTime() + ms], which is not a number when [d] is invalid. *)
Definition time_plus (d : Date) (ms : Z) : option Z :=
  match getTime d with
  | Some t => Some (t + ms)%Z
  | None => None
  end.

(** A calendar date, the value that the text [YYYY-MM-DD] denotes. *)
Record IsoDate : Type := mkIsoDate { year : Z; month : Z; day : Z }.

(** The proleptic Gregorian date of a day number (days since 1970-01-01),
    as the language's [YearFromTime], [MonthFromTime] and [DateFromTime]
    give it. *)
Definition civil_from_days (z : Z) : IsoDate :=
  let z' := (z + 719468)%Z in
  let era := (z' / 146097)%Z in
  let doe := (z' mod 146097)%Z in
  let yoe := ((doe - doe / 1460 + doe / 36524 - doe / 146096) / 365)%Z in
  let doy := (doe - (365 * yoe + yoe / 4 - yoe / 100))%Z in
  let mp := ((5 * doy + 2) / 153)%Z in
  let d := (doy - (153 * mp + 2) / 5 + 1)%Z in
  let m := (if mp <? 10 then mp + 3 else mp - 9)%Z in
  let y := (yoe + era * 400)%Z in
  mkIsoDate (if m <=? 2 then y + 1 else y)%Z m d.

(** The day number of a calendar date, the inverse direction. *)
Definition days_from_civil (c : IsoDate) : Z :=
  let y := (if month c <=? 2 then year c - 1 else year c)%Z in
  let era := (y / 400)%Z in
  let yoe := (y mod 400)%Z in
  let mp := (if month c >? 2 then month c - 3 else month c + 9)%Z in
  let doy := ((153 * mp + 2) / 5 + day c - 1)%Z in
  let doe := (yoe * 365 + yoe / 4 - yoe / 100 + doy)%Z in
  (era * 146097 + doe - 719468)%Z.

Definition utcDay (t : Z) : Z := (t / msPerDay)%Z.

(** [d.toISOString().split('T')[0]]: the UTC calendar date; [toISOString]
    throws a [RangeError] on an invalid date. *)
Definition toISODate (d : Date) : outcome IsoDate :=
  match d with
  | InvalidDate => Throw RangeError
  | DateOf t => Normal (civil_from_days (utcDay t))
  end.

(** [d.getMonth()]: the month, from 0, in local time; [tza t] is the offset
    of local time from UTC at [t], in milliseconds.  Not a number for an
    invalid date. *)
Definition getMonth (tza : Z -> Z) (d : Date) : option Z :=
  match d with
  | InvalidDate => None
  | DateOf t => Some (month (civil_from_days (utcDay (t + tza t))) - 1)%Z
  end.

(** Comparisons with a possibly-NaN left operand: false on NaN. *)
Definition num_ge (a : option Z) (b : Z) : bool :=
  match a with Some a => (b <=? a)%Z | None => false end.
Definition num_le (a : option Z) (b : Z) : bool :=
  match a with Some a => (a <=? b)%Z | None => false end.

Definition Q_lt (a b : Q) : bool := negb (Qle_bool b a).
Definition Q_gt (a b : Q) : bool := negb (Qle_bool a b).

End JS.

(** ** JavaScript numbers in double precision

    Where the result of a computation depends on how a double is rounded,
    the code is modelled on IEEE 754 binary64 numbers: a number is not a
    number, an infinity, or a finite value, which is a rational; every
    arithmetic operation takes the exact result and rounds it to the
    nearest double, ties to the even significand.  The sign of a zero is
    not kept: the modelled code never divides by a computed zero and
    prints no zero. *)

Module Binary64.
Local Open Scope Q_scope.

Inductive number : Type :=
  | NaN
  | Infinity (negative : bool)
  | Finite (q : Q).

(** [2 ^ e]. *)
Definition pow2 (e : Z) : Q := 2 ^ e.

(** The exponent of a rational that is not zero: [2 ^ ilog2 q <= |q| <
    2 ^ (ilog2 q + 1)]. *)
Definition ilog2 (q : Q) : Z :=
  let d := (Z.log2 (Z.abs (Qnum q)) - Z.log2 (Zpos (Qden q)))%Z in
  if Qle_bool (pow2 d) (Qabs q) then d else (d - 1)%Z.

(** The nearest integer, a tie going to the even one. *)
Definition nearest_even (x : Q) : Z :=
  let f := Qfloor x in
  match Qcompare (x - inject_Z f) (1 # 2) with
  | Lt => f
  | Gt => (f + 1)%Z
  | Eq => if Z.even f then f else (f + 1)%Z
  end.

Definition negative_Q (q : Q) : bool := negb (Qle_bool 0 q).

(** The exponent of the last place of the double nearest to [q]: 53
    significant bits, and no place below [2 ^ -1074]. *)
Definition last_place (q : Q) : Z := Z.max (ilog2 q - 52) (-1074).

(** The nearest multiple of the last place. *)
Definition rounded (q : Q) : Q :=
  inject_Z (nearest_even (q / pow2 (last_place q))) * pow2 (last_place q).

(** The double nearest to a rational; beyond the largest double it is an
    infinity. *)
Definition round64 (q : Q) : number :=
  if Qeq_bool q 0 then Finite 0
  else if Qle_bool (pow2 1024) (Qabs (rounded q))
       then Infinity (negative_Q q)
       else Finite (Qred (rounded q)).

(** The unit of the error bounds: a value up to 65536 is rounded with an
    error of at most [2 ^ -37]. *)
Definition unit : Q := 1 # 137438953472.

(** A decimal literal of the source. *)
Definition literal (q : Q) : number := round64 q.

Definition opp (a : number) : number :=
  match a with
  | NaN => NaN
  | Infinity s => Infinity (negb s)
  | Finite q => Finite (- q)
  end.

Definition add (a b : number) : number :=
  match a, b with
  | NaN, _ | _, NaN => NaN
  | Infinity s, Infinity s' => if Bool.eqb s s' then Infinity s else NaN
  | Infinity s, Finite _ => Infinity s
  | Finite _, Infinity s => Infinity s
  | Finite x, Finite y => round64 (x + y)
  end.

Definition sub (a b : number) : number := add a (opp b).

Definition mul (a b : number) : number :=
  match a, b with
  | NaN, _ | _, NaN => NaN
  | Infinity s, Infinity s' => Infinity (xorb s s')
  | Infinity s, Finite y | Finite y, Infinity s =>
      if Qeq_bool y 0 then NaN else Infinity (xorb s (negative_Q y))
  | Finite x, Finite y => round64 (x * y)
  end.

Definition div (a b : number) : number :=
  match a, b with
  | NaN, _ | _, NaN => NaN
  | Infinity _, Infinity _ => NaN
  | Infinity s, Finite y => Infinity (xorb s (negative_Q y))
  | Finite _, Infinity _ => Finite 0
  | Finite x, Finite y =>
      if Qeq_bool y 0
      then if Qeq_bool x 0 then NaN else Infinity (negative_Q x)
      else round64 (x / y)
  end.

(** [a <= b]: false when an operand is not a number. *)
Definition leb (a b : number) : bool :=
  match a, b with
  | NaN, _ | _, NaN => false
  | Infinity true, _ => true
  | _, Infinity false => true
  | Infinity false, _ => false
  | _, Infinity true => false
  | Finite x, Finite y => Qle_bool x y
  end.

(** [Math.min] and [Math.max]: not a number when an argument is not. *)
Definition Math_min (a b : number) : number :=
  match a, b with
  | NaN, _ | _, NaN => NaN
  | _, _ => if leb a b then a else b
  end.

Definition Math_max (a b : number) : number :=
  match a, b with
  | NaN, _ | _, NaN => NaN
  | _, _ => if leb a b then b else a
  end.

(** [Math.round]: the nearest integer, halves going up; the result is
    exact. *)
Definition Math_round (a : number) : number :=
  match a with
  | Finite q => Finite (inject_Z (Qfloor (q + (1 # 2))))
  | _ => a
  end.

(** [a % b]: the remainder has the sign of [a] and is exact. *)
Definition rem (a b : number) : number :=
  match a, b with
  | NaN, _ | _, NaN => NaN
  | Infinity _, _ => NaN
  | Finite x, Infinity _ => Finite x
  | Finite x, Finite y =>
      if Qeq_bool y 0 then NaN
      else
        let quotient := x / y in
        let truncated :=
          if Qle_bool 0 quotient then Qfloor quotient
          else Qceiling quotient in
        Finite (Qred (x - inject_Z truncated * y))
  end.

(** [array[a]]: an element only at an index that is a whole number from
    zero on. *)
Definition index {A : Type} (array : list A) (a : number) : option A :=
  match a with
  | Finite q =>
      if Qeq_bool q (inject_Z (Qfloor q)) && (0 <=? Qfloor q)%Z
      then nth_error array (Z.to_nat (Qfloor q))
      else None
  | _ => None
  end.

(** A whole number as a double (exact below [2 ^ 53]). *)
Definition of_Z (n : Z) : number := round64 (inject_Z n).

End Binary64.

(** ** The world the asynchronous code runs in *)

Module Effects.
Import JS.

Section World.

(** [Req] is the JSON body of a request, [Data] the JSON a reply parses
    to, [St] the React state of the component that runs. *)
Variables Req Data St : Type.

Record Response : Type := mkResponse {
  ok : bool;
  status : Z;
  json : outcome Data          (* [await response.json()] *)
}.

Record World : Type := mkWorld {
  requests : list (string * Req);   (* every [fetch] made: URL and body *)
  random_calls : nat;               (* how many [Math.random()] so far *)
  console : list string;            (* [console.error] and [console.log] *)
  state : St
}.

Definition M (A : Type) : Type := World -> outcome A * World.

Definition ret {A} (a : A) : M A := fun w => (Normal a, w).

Definition bind {A B} (m : M A) (k : A -> M B) : M B :=
  fun w => match m w with
           | (Normal a, w') => k a w'
           | (Throw e, w') => (Throw e, w')
           end.

Definition throw {A} (e : exn) : M A := fun w => (Throw e, w).

(** An outcome computed without effects, such as [toISOString]. *)
Definition lift {A} (o : outcome A) : M A := fun w => (o, w).

(** [try { body } catch (e) { handler }]. *)
Definition try_catch {A} (body : M A) (handler : exn -> M A) : M A :=
  fun w => match body w with
           | (Normal a, w') => (Normal a, w')
           | (Throw e, w') => handler e w'
           end.

(** [try { body } catch (e) { handler } finally { fin }]: [fin] runs on
    every exit, and an exception of its own replaces the outcome. *)
Definition try_catch_finally {A} (body : M A) (handler : exn -> M A)
    (fin : M unit) : M A :=
  fun w => let (o, w1) := try_catch body handler w in
           match fin w1 with
           | (Normal _, w2) => (o, w2)
           | (Throw e, w2) => (Throw e, w2)
           end.

Definition get_state : M St := fun w => (Normal (state w), w).

Definition set_state (f : St -> St) : M unit :=
  fun w => (Normal tt,
            mkWorld (requests w) (random_calls w) (console w) (f (state w))).

Definition console_log (line : string) : M unit :=
  fun w => (Normal tt,
            mkWorld (requests w) (random_calls w) (console w ++ [line])
                    (state w)).

(** [Math.random()]: the next draw of the run. *)
Definition Math_random (draws : nat -> Q) : M Q :=
  fun w => (Normal (draws (random_calls w)),
            mkWorld (requests w) (S (random_calls w)) (console w) (state w)).

(** [await fetch(url, { method: 'POST', body })]: the request is logged,
    the network decides the outcome. *)
Definition fetch (network : string -> Req -> outcome Response)
    (url : string) (body : Req) : M Response :=
  fun w => (network url body,
            mkWorld (requests w ++ [(url, body)]) (random_calls w)
                    (console w) (state w)).

End World.

Arguments ret {Req St A} a.
Arguments bind {Req St A B} m k.
Arguments throw {Req St A} e.
Arguments lift {Req St A} o.
Arguments try_catch {Req St A} body handler.
Arguments try_catch_finally {Req St A} body handler fin.
Arguments get_state {Req St}.
Arguments set_state {Req St} f.
Arguments console_log {Req St} line.
Arguments Math_random {Req St} draws.
Arguments fetch {Req Data St} network url body.
Arguments mkWorld {Req St} requests random_calls console state.
Arguments requests {Req St} w.
Arguments random_calls {Req St} w.
Arguments console {Req St} w.
Arguments state {Req St} w.

Notation "x <- m ;; k" := (bind m (fun x => k))
  (at level 61, m at next level, right associativity).
Notation "m ;;; k" := (bind m (fun _ => k))
  (at level 61, right associativity).

End Effects.

(** ** Shapes shared by the components *)

Module Types.
Import JS.

Inductive Trend : Type := increasing | decreasing | stable.

Inductive Recommendation : Type := Better | Monitor | Risky.

Record LatLng : Type := mkLatLng { lat : Q; lng : Q }.

(** A date as text: [toISOString().split('T')[0]] or a full
    [toISOString()]. *)
Inductive DateText : Type :=
  | IsoDay (d : IsoDate)
  | IsoInstant (t : Z).

Record WeatherProbability : Type := mkWeatherProbability {
  condition : string;
  probability : Q;
  threshold : string;
  trend : Trend;
  confidence : Q;
  historical_mean : Q;
  trend_slope : Q;
  p_value : Q
}.

Record AlternativeDate : Type := mkAlternativeDate {
  date : IsoDate;
  alt_comfort_index : Q;
  offset_days : Z;
  recommendation : Recommendation
}.

(** The [metadata] object; a key that an object literal leaves out is
    [None]. *)
Record Metadata : Type := mkMetadata {
  datasets_used : list string;
  years_analyzed : option string;
  analysis_date : option DateText;
  confidence_level : option string;
  data_window : option string;
  note : option string
}.

Record WeatherAnalysisResponse : Type := mkWeatherAnalysisResponse {
  location : LatLng;
  event_date : IsoDate;
  comfort_index : Q;
  probabilities : list WeatherProbability;
  alternative_dates : list AlternativeDate;
  metadata : Metadata
}.

(** The JSON body posted to [/analyze]; a key that is left out or set to
    [undefined] is [None]. *)
Record ThresholdsBody : Type := mkThresholdsBody {
  hot_temp : Q;
  cold_temp : Q;
  precipitation : Q;
  wind_speed : Q;
  air_quality : option Q
}.

Record AnalyzeRequest : Type := mkAnalyzeRequest {
  latitude : Q;
  longitude : Q;
  req_event_date : IsoDate;
  thresholds : ThresholdsBody;
  is_current_date : option bool;
  area_radius_km : option Q;
  polygon : option (list LatLng)
}.

(** A selected location: coordinates and, when known, a name. *)
Record Place : Type := mkPlace {
  place_lat : Q;
  place_lng : Q;
  name : option string
}.

(** A string is falsy exactly when it is empty. *)
Definition truthy (s : string) : bool :=
  match s with EmptyString => false | _ => true end.

(** [location.name || default]. *)
Definition name_or (n : option string) (default : string) : string :=
  match n with
  | Some n => if truthy n then n else default
  | None => default
  end.

End Types.

(** ** Earth3DGlobe.tsx *)

Module Earth3DGlobe.
Import JS Effects Types.
Local Open Scope Q_scope.
Local Open Scope string_scope.

Record WeatherThresholds : Type := mkWeatherThresholds {
  hotTemp : Q;
  coldTemp : Q;
  precipitation : Q;
  windSpeed : Q;
  comfortIndex : Q
}.

Record WeatherProbability : Type := mkWeatherProbability {
  condition : string;
  probability : Q;
  threshold : string;
  trend : Trend;
  confidence : Q
}.

(** What [analyzeWeatherRisk] resolves to. *)
Record Analysis : Type := mkAnalysis {
  probabilities : list WeatherProbability;
  result_comfortIndex : Q;
  alternatives : list AlternativeDate;
  metadata : Metadata
}.

(** The reply of the backend as this file reads it. *)
Record BackendData : Type := mkBackendData {
  data_probabilities : list WeatherProbability;
  data_comfort_index : Q;
  data_alternative_dates : list AlternativeDate;
  data_metadata : Metadata
}.

(** React state of the globe that the analysis writes. *)
Record GlobeState : Type := mkGlobeState {
  weatherProbabilities : list WeatherProbability;
  showAnalysis : bool
}.

Section Environment.

(** [BACKEND_URL], the conversion of a number to text in a template
    string, the local time zone, and the network. *)
Variable BACKEND_URL : string.
Variable numberToString : Q -> string.
Variable LocalTZA : Z -> Z.
Variable network :
  string -> AnalyzeRequest -> outcome (Response BackendData).

(** Fallback local calculation (simplified). *)
Definition calculateWeatherProbabilitiesLocal (location : LatLng)
    (date : Date) (thresholds : WeatherThresholds)
  : list WeatherProbability :=
  let month := getMonth LocalTZA date in
  let lat := Math_abs (Types.lat location) in
  [ {| condition := "Very Hot";
       probability :=
         Math_min 90 (Math_max 5
           ((30 - lat) * 2
            + (if num_ge month 5 && num_le month 8 then 30 else 0)));
       threshold := ">" ++ numberToString (hotTemp thresholds) ++ "°C";
       trend := if Q_lt lat 30 then increasing else stable;
       confidence := 0.85 |};
    {| condition := "Very Cold";
       probability :=
         Math_min 90 (Math_max 5
           (lat * 1.5
            + (if num_ge month 11 || num_le month 2 then 40 else 0)));
       threshold := "<" ++ numberToString (coldTemp thresholds) ++ "°C";
       trend := if Q_gt lat 40 then increasing else stable;
       confidence := 0.78 |};
    {| condition := "Heavy Rain";
       probability :=
         Math_min 85 (Math_max 10
           (25 + (if num_ge month 6 && num_le month 9 then 35 else 0)
            + (if Q_lt lat 10 then 20 else 0)));
       threshold := ">" ++ numberToString (precipitation thresholds) ++ "mm";
       trend := increasing;
       confidence := 0.72 |};
    {| condition := "Strong Wind";
       probability :=
         Math_min 75 (Math_max 8
           (15 + (if Q_gt lat 40 then 25 else 0)
            + (if num_ge month 10 || num_le month 3 then 20 else 0)));
       threshold := ">" ++ numberToString (windSpeed thresholds) ++ "m/s";
       trend := stable;
       confidence := 0.65 |} ].

(** The weight table of [calculateComfortIndex] with its weights as the
    decimals that the source writes; a condition that is not a key has no
    entry.  (Names that every object inherits are left to [InDoubles].) *)
Definition weights (c : string) : option Q :=
  if c =? "Very Hot" then Some 0.3
  else if c =? "Very Cold" then Some 0.3
  else if c =? "Heavy Rain" then Some 0.25
  else if c =? "Strong Wind" then Some 0.15
  else None.

(** [weights[c] || 0.1]: a missing or zero weight becomes 0.1. *)
Definition weight_of (c : string) : Q :=
  match weights c with
  | Some w => if Qeq_bool w 0 then 0.1 else w
  | None => 0.1
  end.

(** Weighted comfort index (100 = perfect, 0 = terrible), in exact
    arithmetic; [InDoubles.calculateComfortIndex] is the function in
    doubles. *)
Definition calculateComfortIndex (probabilities : list WeatherProbability)
  : Q :=
  let discomfort :=
    fold_left
      (fun discomfort prob =>
         let weight := weight_of (condition prob) in
         discomfort + (probability prob / 100) * weight)
      probabilities 0 in
  Math_round (Math_max 0 (Math_min 100 ((1 - discomfort) * 100))).

Definition analyze_body (location : LatLng) (event_date : IsoDate)
    (thresholds : WeatherThresholds) : AnalyzeRequest :=
  {| latitude := Types.lat location;
     longitude := Types.lng location;
     req_event_date := event_date;
     Types.thresholds :=
       {| hot_temp := hotTemp thresholds;
          cold_temp := coldTemp thresholds;
          Types.precipitation := precipitation thresholds;
          wind_speed := windSpeed thresholds;
          air_quality := None |};
     is_current_date := None;
     area_radius_km := None;
     polygon := None |}.

(** The object returned from the [catch] block. *)
Definition fallback (location : LatLng) (date : Date)
    (thresholds : WeatherThresholds) : Analysis :=
  {| probabilities :=
       calculateWeatherProbabilitiesLocal location date thresholds;
     result_comfortIndex := 65;
     alternatives := [];
     metadata :=
       {| datasets_used := ["Fallback simulation"];
          years_analyzed := None;
          analysis_date := None;
          confidence_level := None;
          data_window := None;
          note := Some "Backend unavailable, using local simulation" |} |}.

Definition analyzeWeatherRisk {St : Type} (location : LatLng) (date : Date)
    (thresholds : WeatherThresholds) : M AnalyzeRequest St Analysis :=
  try_catch
    ((if truthy BACKEND_URL then ret tt
      else throw (Error "No backend configured")) ;;;
     event_date <- lift (toISODate date) ;;
     response <- fetch network (BACKEND_URL ++ "/analyze")
                   (analyze_body location event_date thresholds) ;;
     (if ok response then ret tt
      else throw (HttpError "Backend API error: " (status response))) ;;;
     data <- lift (json response) ;;
     ret {| probabilities := data_probabilities data;
            result_comfortIndex := data_comfort_index data;
            alternatives := data_alternative_dates data;
            metadata := data_metadata data |})
    (fun error =>
       console_log "Failed to fetch weather analysis from backend:" ;;;
       ret (fallback location date thresholds)).

(** The effect that runs when the location, the date or the thresholds
    change. *)
Definition analyzeWeather (selectedLocation : option LatLng)
    (eventDate : Date) (weatherThresholds : WeatherThresholds)
  : M AnalyzeRequest GlobeState unit :=
  match selectedLocation with
  | Some selectedLocation =>
      try_catch
        (result <- analyzeWeatherRisk selectedLocation eventDate
                     weatherThresholds ;;
         set_state (fun s =>
           mkGlobeState (probabilities result) (showAnalysis s)) ;;;
         set_state (fun s => mkGlobeState (weatherProbabilities s) true))
        (fun error =>
           console_log "Weather analysis failed:" ;;;
           let probabilities :=
             calculateWeatherProbabilitiesLocal selectedLocation eventDate
               weatherThresholds in
           set_state (fun s =>
             mkGlobeState probabilities (showAnalysis s)) ;;;
           set_state (fun s => mkGlobeState (weatherProbabilities s) true))
  | None =>
      set_state (fun s => mkGlobeState (weatherProbabilities s) false)
  end.

(** One row of [exportWeatherData]: the columns that carry the analysis
    and its attribution. *)
Record ExportRow : Type := mkExportRow {
  Condition : string;
  Threshold : string;
  Probability : Q;
  ComfortIndex : Q;
  Dataset : string;
  YearsAnalyzed : string
}.

Definition exportWeatherData_rows
    (weatherProbabilities : list WeatherProbability) : list ExportRow :=
  let comfortIndex := calculateComfortIndex weatherProbabilities in
  map (fun prob =>
         {| Condition := condition prob;
            Threshold := threshold prob;
            Probability := probability prob / 100;
            ComfortIndex := comfortIndex;
            Dataset := "MERRA-2, GPM IMERG (Simulated)";
            YearsAnalyzed := "1990-2024" |})
      weatherProbabilities.

End Environment.

End Earth3DGlobe.

(** ** WeatherAnalysisPanel.tsx

    The comfort figure is computed in doubles ([Binary64]): a
    probability of the list is the finite number that the entry holds. *)

Module WeatherAnalysisPanel.
Import JS Types.
Local Open Scope Q_scope.
Local Open Scope string_scope.

(** [probabilities] may be missing ([None]): the function tests
    [!probabilities] first. *)
Definition calculateComfortIndex
    (probabilities : option (list WeatherProbability)) : Binary64.number :=
  match probabilities with
  | None => Binary64.Finite 0
  | Some [] => Binary64.Finite 0
  | Some probabilities =>
      (* Calculate comfort based on probability of adverse conditions *)
      let totalRisk :=
        fold_left
          (fun sum prob =>
             let riskFactor :=
               Binary64.div (Binary64.Finite (probability prob))
                            (Binary64.Finite 100) in
             Binary64.add sum riskFactor)
          probabilities (Binary64.Finite 0) in
      (* Convert to comfort percentage (inverse of risk) *)
      let maxRisk := Binary64.of_Z (Z.of_nat (List.length probabilities)) in
      let comfortPercentage :=
        Binary64.Math_max (Binary64.Finite 0)
          (Binary64.Math_min (Binary64.Finite 100)
             (Binary64.sub (Binary64.Finite 100)
                (Binary64.mul (Binary64.div totalRisk maxRisk)
                              (Binary64.Finite 100)))) in
      Binary64.Math_round comfortPercentage
  end.

(** What the panel renders of the comfort index; the probability cards
    show [weatherProbabilities] as they are. *)
Record View : Type := mkView {
  live_badge : bool;            (* "Live - Today's Data" *)
  comfort_shown : Binary64.number;     (* the figure before "%" *)
  comfort_bar_class : string;
  comfort_bar_width : Binary64.number;
  cards : list WeatherProbability
}.

Definition IsoDate_eqb (a b : IsoDate) : bool :=
  ((year a =? year b) && (month a =? month b) && (day a =? day b))%Z.

(** The component; [None] is the [null] it returns when there is nothing
    to show.  [now] is the clock read by [new Date()]. *)
Definition WeatherAnalysisPanel (now : Z)
    (weatherProbabilities : option (list WeatherProbability))
    (comfortIndex : Q) (isVisible : bool) (eventDate : option IsoDate)
  : option View :=
  match weatherProbabilities with
  | None => None
  | Some [] => None
  | Some shown =>
      if negb isVisible then None
      else
        let calculatedComfortIndex :=
          calculateComfortIndex weatherProbabilities in
        let isToday :=
          match eventDate with
          | Some d => IsoDate_eqb d (civil_from_days (utcDay now))
          | None => false
          end in
        Some {| live_badge := isToday;
                comfort_shown := calculatedComfortIndex;
                comfort_bar_class :=
                  if Binary64.leb (Binary64.Finite 70) calculatedComfortIndex
                  then "bg-green-500"
                  else if Binary64.leb (Binary64.Finite 40)
                            calculatedComfortIndex
                       then "bg-yellow-500" else "bg-red-500";
                comfort_bar_width := calculatedComfortIndex;
                cards := shown |}
  end.

End WeatherAnalysisPanel.

(** ** The index page: [handleAnalyze] *)

Module Index.
Import JS Effects Types.
Local Open Scope Q_scope.
Local Open Scope string_scope.

Record Setting : Type := mkSetting { enabled : bool; value : Q }.

(** The thresholds object of the selector; the page reads it through
    optional chaining, so a key may be missing. *)
Record Thresholds : Type := mkThresholds {
  temperature : option Setting;
  precipitation : option Setting;
  wind : option Setting;
  humidity : option Setting;
  air_quality : option Setting
}.

Record Toast : Type := mkToast {
  title : string;
  description : string;
  variant : option string
}.

Record PageState : Type := mkPageState {
  analysisData : option WeatherAnalysisResponse;
  showResults : bool;
  isAnalyzing : bool;
  toasts : list Toast
}.

Definition setIsAnalyzing (b : bool) (s : PageState) : PageState :=
  mkPageState (analysisData s) (showResults s) b (toasts s).
(** [setAnalysisData(d)]; [None] is [null]. *)
Definition setAnalysisData (d : option WeatherAnalysisResponse)
    (s : PageState) : PageState :=
  mkPageState d (showResults s) (isAnalyzing s) (toasts s).
Definition setShowResults (b : bool) (s : PageState) : PageState :=
  mkPageState (analysisData s) b (isAnalyzing s) (toasts s).
Definition toast (t : Toast) (s : PageState) : PageState :=
  mkPageState (analysisData s) (showResults s) (isAnalyzing s)
              (toasts s ++ [t]).

(** [t?.enabled ? t.value : fallback]. *)
Definition enabled_or (t : option Setting) (default : Q) : Q :=
  match t with
  | Some t => if enabled t then value t else default
  | None => default
  end.

Section Environment.

Variable BACKEND_URL : string.          (* [VITE_BACKEND_URL || ''] *)
Variable now : Z.                        (* the clock of [new Date()] *)
Variable draws : nat -> Q.               (* what [Math.random()] returns *)
(** The body of a reply is stored as it parses, so it may be [null]
    ([None]). *)
Variable network :
  string -> AnalyzeRequest ->
  outcome (Response (option WeatherAnalysisResponse)).

Definition today : IsoDate := civil_from_days (utcDay now).

Definition requestData (selectedLocation : Place) (eventDate : IsoDate)
    (thresholds : Thresholds) : AnalyzeRequest :=
  let isToday := WeatherAnalysisPanel.IsoDate_eqb eventDate today in
  {| latitude := place_lat selectedLocation;
     longitude := place_lng selectedLocation;
     req_event_date := eventDate;
     Types.thresholds :=
       {| hot_temp := enabled_or (temperature thresholds) 32.0;
          cold_temp := 0.0;
          Types.precipitation := enabled_or (precipitation thresholds) 5.0;
          wind_speed := enabled_or (wind thresholds) 15.0;
          Types.air_quality :=
            Some (enabled_or (air_quality thresholds) 25.0) |};
     is_current_date := Some isToday;
     area_radius_km := None;
     polygon := None |}.

(** The object literal of the simulated analysis in the [catch] block,
    given what its effectful subexpressions evaluated to: the three dates
    and the six draws. *)
Definition fallbackAnalysis_object (selectedLocation : Place)
    (event_date : IsoDate)
    (r_comfort r_temperature r_precipitation r_wind : Q)
    (date1 : IsoDate) (r_alt1 : Q) (date2 : IsoDate) (r_alt2 : Q)
  : WeatherAnalysisResponse :=
  {| location :=
       {| lat := place_lat selectedLocation;
          lng := place_lng selectedLocation |};
     event_date := event_date;
     comfort_index := Math_round (60 + r_comfort * 30);
     probabilities :=
       [ {| condition := "Temperature";
            probability := Math_round (20 + r_temperature * 30);
            threshold := ">32¬∞C";
            trend := stable;
            confidence := 0.7;
            historical_mean := 28;
            trend_slope := 0.1;
            p_value := 0.05 |};
         {| condition := "Precipitation";
            probability := Math_round (10 + r_precipitation * 40);
            threshold := ">5mm";
            trend := stable;
            confidence := 0.6;
            historical_mean := 3;
            trend_slope := 0.2;
            p_value := 0.03 |};
         {| condition := "Wind Speed";
            probability := Math_round (5 + r_wind * 25);
            threshold := ">15m/s";
            trend := stable;
            confidence := 0.8;
            historical_mean := 8;
            trend_slope := - 0.1;
            p_value := 0.08 |} ];
     alternative_dates :=
       [ {| date := date1;
            alt_comfort_index := Math_round (70 + r_alt1 * 20);
            offset_days := 1;
            recommendation := Better |};
         {| date := date2;
            alt_comfort_index := Math_round (65 + r_alt2 * 25);
            offset_days := 2;
            recommendation := Monitor |} ];
     metadata :=
       {| datasets_used := ["Fallback simulation"];
          years_analyzed := Some "2020-2024";
          analysis_date := Some (IsoDay today);
          confidence_level := Some "Medium";
          data_window := Some "Fallback mode - Backend unavailable";
          note := None |} |}.

(** The literal is evaluated key by key, in source order: each
    [toISOString] may throw, each [Math.random()] takes the next draw. *)
Definition fallbackAnalysis (selectedLocation : Place) (selectedDate : Date)
  : M AnalyzeRequest PageState WeatherAnalysisResponse :=
  event_date <- lift (toISODate selectedDate) ;;
  r_comfort <- Math_random draws ;;
  r_temperature <- Math_random draws ;;
  r_precipitation <- Math_random draws ;;
  r_wind <- Math_random draws ;;
  date1 <- lift (toISODate
                   (new_Date (time_plus selectedDate (24 * 60 * 60 * 1000)))) ;;
  r_alt1 <- Math_random draws ;;
  date2 <- lift (toISODate
                   (new_Date
                      (time_plus selectedDate (2 * 24 * 60 * 60 * 1000)))) ;;
  r_alt2 <- Math_random draws ;;
  ret (fallbackAnalysis_object selectedLocation event_date
         r_comfort r_temperature r_precipitation r_wind
         date1 r_alt1 date2 r_alt2).

Definition handleAnalyze (selectedLocation : option Place)
    (selectedDate : Date) (thresholds : option Thresholds)
  : M AnalyzeRequest PageState unit :=
  match selectedLocation, thresholds with
  | Some selectedLocation, Some thresholds =>
      set_state (setIsAnalyzing true) ;;;
      try_catch_finally
        (eventDate <- lift (toISODate selectedDate) ;;
         console_log "Sending weather analysis request:" ;;;
         response <- fetch network (BACKEND_URL ++ "/analyze")
                       (requestData selectedLocation eventDate thresholds) ;;
         (if ok response then ret tt
          else throw (HttpError "HTTP error! status: " (status response))) ;;;
         data <- lift (json response) ;;
         console_log "Received weather analysis:" ;;;
         set_state (setAnalysisData data) ;;;
         set_state (setShowResults true) ;;;
         set_state (toast
           {| title := "Analysis Complete!";
              description :=
                "Weather risk analysis completed for "
                ++ name_or (name selectedLocation) "your location" ++ ".";
              variant := None |}))
        (fun error =>
           console_log "Failed to fetch weather analysis:" ;;;
           fallbackAnalysis <- fallbackAnalysis selectedLocation selectedDate ;;
           set_state (setAnalysisData (Some fallbackAnalysis)) ;;;
           set_state (setShowResults true) ;;;
           set_state (toast
             {| title := "Analysis Complete (Fallback Mode)";
                description :=
                  "Weather analysis completed using simulated data for "
                  ++ name_or (name selectedLocation) "your location" ++ ".";
                variant := None |}))
        (set_state (setIsAnalyzing false))
  | _, _ =>
      set_state (toast
        {| title := "Missing Information";
           description :=
             "Please select a location, date, and set your thresholds.";
           variant := Some "destructive" |})
  end.

End Environment.

End Index.

(** ** The dashboard: [handleExportCSV] *)

Module WeatherDashboard.
Import JS Types.
Local Open Scope Q_scope.
Local Open Scope string_scope.

Record Metric : Type := mkMetric {
  value : Q;
  metric_probability : Q;
  metric_trend : Q
}.

Record WeatherData : Type := mkWeatherData {
  temperature : Metric;
  precipitation : Metric;
  wind : Metric;
  humidity : Metric;
  comfortScore : Q;
  alternativeDates : list string
}.

(** Simulated data for demo. *)
Definition demoData : WeatherData :=
  {| temperature := mkMetric 32 22 0.3;
     precipitation := mkMetric 5 35 0.5;
     wind := mkMetric 15 12 (- 0.1);
     humidity := mkMetric 70 45 0.2;
     comfortScore := 72;
     alternativeDates := ["July 2"; "July 8"; "July 15"] |}.

(** One line of the CSV, column by column; the line itself is the columns
    joined by commas, the numbers printed with [toFixed]. *)
Record CsvRow : Type := mkCsvRow {
  Location : string;
  Latitude : Q;
  Longitude : Q;
  Date_ : IsoDate;
  WindowDays : Z;
  Variable_ : string;
  Threshold : string;
  Probability : Q;
  Units : string;
  YearsUsed : option string;
  Dataset : string;
  TrendSlope : Q;
  TrendPValue : Q;
  Confidence : Q;
  HistoricalMean : Q;
  Recommendation_ : string
}.

Record Csv : Type := mkCsv {
  rows : list CsvRow;
  alternative_rows : option (list AlternativeDate)
}.

Section Environment.

Variable now : Z.

Definition defaultMetadata : Metadata :=
  {| datasets_used := ["MERRA-2"; "GPM IMERG"];
     years_analyzed := Some "1990-2024";
     analysis_date := Some (IsoInstant now);
     confidence_level := Some "85%";
     data_window := Some "±7 days";
     note := None |}.

Definition defaultProbabilities (weatherData : WeatherData)
  : list WeatherProbability :=
  [ mkWeatherProbability "Very Hot"
      (metric_probability (temperature weatherData))
      ">32°C" increasing 0.85 28.3 0.025 0.04;
    mkWeatherProbability "Heavy Rain"
      (metric_probability (precipitation weatherData))
      ">5mm" stable 0.72 3.2 0.005 0.25;
    mkWeatherProbability "Strong Wind"
      (metric_probability (wind weatherData))
      ">15m/s" stable 0.65 8.5 (- 0.001) 0.30;
    mkWeatherProbability "High Humidity"
      (metric_probability (humidity weatherData))
      ">70%" increasing 0.78 65.2 0.02 0.06 ].

(** The [dataset] chosen for a row, from the condition's name alone. *)
Definition row_dataset (prob : WeatherProbability) : string :=
  if includes "Rain" (condition prob)
     || includes "Precipitation" (condition prob)
  then "GPM IMERG" else "MERRA-2".

Definition row_units (prob : WeatherProbability) : string :=
  if includes "°C" (threshold prob) then "degC"
  else if includes "mm" (threshold prob) then "mm/day"
  else if includes "m/s" (threshold prob) then "m/s"
  else "percent".

Definition row_recommendation (prob : WeatherProbability) : string :=
  if Q_lt (probability prob) 20 then "Low Risk"
  else if Q_lt (probability prob) 40 then "Moderate Risk"
  else "High Risk".

Definition handleExportCSV (location : Place) (date : Date)
    (data : option WeatherData)
    (analysisData : option WeatherAnalysisResponse) : outcome Csv :=
  let weatherData := match data with Some d => d | None => demoData end in
  let metadata :=
    match analysisData with
    | Some a => Types.metadata a
    | None => defaultMetadata
    end in
  let probabilities :=
    match analysisData with
    | Some a => Types.probabilities a
    | None => defaultProbabilities weatherData
    end in
  let locationName := name_or (name location) "Selected Location" in
  match toISODate date with
  | Throw e => Throw e
  | Normal eventDate =>
      Normal
        {| rows :=
             map (fun prob =>
                    {| Location := locationName;
                       Latitude := place_lat location;
                       Longitude := place_lng location;
                       Date_ := eventDate;
                       WindowDays := 7;
                       Variable_ := condition prob;
                       Threshold := threshold prob;
                       Probability := probability prob;
                       Units := row_units prob;
                       YearsUsed := years_analyzed metadata;
                       Dataset := row_dataset prob;
                       TrendSlope := trend_slope prob;
                       TrendPValue := p_value prob;
                       Confidence := confidence prob;
                       HistoricalMean := historical_mean prob;
                       Recommendation_ := row_recommendation prob |})
                 probabilities;
           alternative_rows :=
             match analysisData with
             | Some a => Some (alternative_dates a)
             | None => None
             end |}
  end.

End Environment.

(** The date on a chip of the row "Alternative Dates with Better
    Conditions": the date of an alternative of the analysis, or a text of
    the dashboard's own data. *)
Inductive ChipDate : Type :=
  | AnalysisDate (d : IsoDate)
  | DemoText (s : string).

Record Chip : Type := mkChip {
  chip_date : ChipDate;
  chip_comfort_index : Q;
  chip_offset_days : Z;
  chip_recommendation : Recommendation
}.

(** [analysisData?.alternative_dates ||
    weatherData.alternativeDates.map(date => ({ date, comfort_index:
    Math.floor(Math.random() * 30) + 70, offset_days: 0, recommendation:
    'Better' }))]: entry [i] of the second list takes draw [calls + i]. *)
Definition alternative_chips (data : option WeatherData)
    (analysisData : option WeatherAnalysisResponse)
    (draws : nat -> Q) (calls : nat) : list Chip :=
  let weatherData := match data with Some d => d | None => demoData end in
  match analysisData with
  | Some a =>
      map (fun alt =>
             {| chip_date := AnalysisDate (date alt);
                chip_comfort_index := alt_comfort_index alt;
                chip_offset_days := offset_days alt;
                chip_recommendation := recommendation alt |})
          (alternative_dates a)
  | None =>
      map (fun entry =>
             {| chip_date := DemoText (snd entry);
                chip_comfort_index :=
                  inject_Z (Qfloor (draws (calls + fst entry)%nat * 30))
                  + 70;
                chip_offset_days := 0;
                chip_recommendation := Better |})
          (combine (seq 0 (List.length (alternativeDates weatherData)))
                   (alternativeDates weatherData))
  end.

End WeatherDashboard.

(** ** Map2D.tsx *)

Module Map2D.
Import JS Effects Types.
Local Open Scope Q_scope.
Local Open Scope string_scope.

Record WeatherProbability : Type := mkWeatherProbability {
  condition : string;
  probability : Q;
  threshold : string;
  trend : Trend;
  confidence : option Q
}.

(** The reply as this file reads it: only [data.probabilities], which may
    be missing. *)
Record BackendData : Type := mkBackendData {
  data_probabilities : option (list WeatherProbability)
}.

Record MapState : Type := mkMapState {
  weatherProbabilities : list WeatherProbability;
  showAnalysis : bool;
  isAnalyzing : bool;
  areaRadiusKm : Q
}.

Definition setIsAnalyzing (b : bool) (s : MapState) : MapState :=
  mkMapState (weatherProbabilities s) (showAnalysis s) b (areaRadiusKm s).
Definition setWeatherProbabilities (l : list WeatherProbability)
    (s : MapState) : MapState :=
  mkMapState l (showAnalysis s) (isAnalyzing s) (areaRadiusKm s).
Definition setShowAnalysis (b : bool) (s : MapState) : MapState :=
  mkMapState (weatherProbabilities s) b (isAnalyzing s) (areaRadiusKm s).

Definition weatherThresholds : ThresholdsBody :=
  {| hot_temp := 32; cold_temp := 0; precipitation := 5; wind_speed := 15;
     air_quality := None |}.

(** [a || b] on numbers, [a] possibly [undefined]: zero is falsy. *)
Definition num_or (a : option Q) (b : Q) : Q :=
  match a with
  | Some a => if Qeq_bool a 0 then b else a
  | None => b
  end.

(** [(polygon && polygon.length >= 3) ? polygon.map(...) : undefined]. *)
Definition polygon_field (polygon : option (list LatLng))
  : option (list LatLng) :=
  match polygon with
  | Some polygon =>
      if (3 <=? List.length polygon)%nat
      then Some (map (fun p => {| lat := lat p; lng := lng p |}) polygon)
      else None
  | None => None
  end.

Section Environment.

Variable BACKEND_URL : string.
Variable draws : nat -> Q.
Variable network :
  string -> AnalyzeRequest -> outcome (Response BackendData).

Definition analyze_body (lat lng : Q) (event_date : IsoDate)
    (radiusKm : option Q) (areaRadiusKm : Q)
    (polygon : option (list LatLng)) : AnalyzeRequest :=
  {| latitude := lat;
     longitude := lng;
     req_event_date := event_date;
     thresholds := weatherThresholds;
     is_current_date := None;
     area_radius_km := Some (num_or radiusKm (num_or (Some areaRadiusKm) 0));
     Types.polygon := polygon_field polygon |}.

(** Fallback to simulated data when backend is unavailable: the array
    literal, given the three draws. *)
Definition fallback_rows (r_temperature r_precipitation r_wind : Q)
  : list WeatherProbability :=
  [ {| condition := "Temperature";
       probability := r_temperature * 30 + 20;
       threshold := ">32¬∞C";
       trend := stable;
       confidence := Some 0.7 |};
    {| condition := "Precipitation";
       probability := r_precipitation * 40 + 10;
       threshold := ">5mm";
       trend := stable;
       confidence := Some 0.6 |};
    {| condition := "Wind Speed";
       probability := r_wind * 25 + 5;
       threshold := ">15m/s";
       trend := stable;
       confidence := Some 0.8 |} ].

Definition fallbackProbabilities
  : M AnalyzeRequest MapState (list WeatherProbability) :=
  r_temperature <- Math_random draws ;;
  r_precipitation <- Math_random draws ;;
  r_wind <- Math_random draws ;;
  ret (fallback_rows r_temperature r_precipitation r_wind).

Definition analyzeWeatherRisk (lat lng : Q) (date : Date)
    (radiusKm : option Q) (polygon : option (list LatLng))
  : M AnalyzeRequest MapState unit :=
  try_catch_finally
    (set_state (setIsAnalyzing true) ;;;
     (if truthy BACKEND_URL then ret tt
      else throw (Error "No backend configured")) ;;;
     event_date <- lift (toISODate date) ;;
     s <- get_state ;;
     res <- fetch network (BACKEND_URL ++ "/analyze")
              (analyze_body lat lng event_date radiusKm (areaRadiusKm s)
                 polygon) ;;
     (if ok res then ret tt
      else throw (HttpError "Backend error " (status res))) ;;;
     data <- lift (json res) ;;
     set_state (setWeatherProbabilities
                  (match data_probabilities data with
                   | Some l => l
                   | None => []
                   end)) ;;;
     set_state (setShowAnalysis true))
    (fun e =>
       console_log "2D analysis error:" ;;;
       fallbackProbabilities <- fallbackProbabilities ;;
       set_state (setWeatherProbabilities fallbackProbabilities) ;;;
       set_state (setShowAnalysis true) ;;;
       console_log "Using fallback weather analysis data")
    (set_state (setIsAnalyzing false)).

End Environment.

End Map2D.

(** ** Earth3DGlobe.tsx: [calculateComfortIndex] in double precision

    The function as it runs: the weights are the doubles nearest to the
    decimals of the table, every operation rounds, and a condition may be
    any string. *)

Module InDoubles.
Import Binary64.
Local Open Scope string_scope.

(** What [weights[c]] finds: the number under an own key, a function or an
    object under a name that every object inherits, or nothing. *)
Inductive Lookup : Type :=
  | Own (weight : number)
  | Inherited
  | Undefined.

(** The properties of [Object.prototype]. *)
Definition inherited_names : list string :=
  [ "constructor"; "hasOwnProperty"; "isPrototypeOf";
    "propertyIsEnumerable"; "toLocaleString"; "toString"; "valueOf";
    "__proto__"; "__defineGetter__"; "__defineSetter__";
    "__lookupGetter__"; "__lookupSetter__" ].

Definition weights (c : string) : Lookup :=
  if c =? "Very Hot" then Own (literal 0.3)
  else if c =? "Very Cold" then Own (literal 0.3)
  else if c =? "Heavy Rain" then Own (literal 0.25)
  else if c =? "Strong Wind" then Own (literal 0.15)
  else if existsb (String.eqb c) inherited_names then Inherited
  else Undefined.

(** [weights[c] || 0.1] as the factor of a product: zero and what is not
    a number are falsy; a function or an object is truthy and is not a
    number when multiplied. *)
Definition weight_of (c : string) : number :=
  match weights c with
  | Own (Finite w) => if Qeq_bool w 0 then literal 0.1 else Finite w
  | Own NaN => literal 0.1
  | Own (Infinity s) => Infinity s
  | Inherited => NaN
  | Undefined => literal 0.1
  end.

(** Weighted comfort index (100 = perfect, 0 = terrible). *)
Definition calculateComfortIndex
    (probabilities : list Earth3DGlobe.WeatherProbability) : number :=
  let discomfort :=
    fold_left
      (fun discomfort prob =>
         let weight := weight_of (Earth3DGlobe.condition prob) in
         add discomfort
           (mul (div (Finite (Earth3DGlobe.probability prob)) (Finite 100))
                weight))
      probabilities (Finite 0) in
  Math_round
    (Math_max (Finite 0)
       (Math_min (Finite 100)
          (mul (sub (Finite 1) discomfort) (Finite 100)))).

End InDoubles.

(** ** The specification's wording, kept apart from the code *)

Module Spec.
Import JS Effects Types.
Local Open Scope Q_scope.

Definition percent (q : Q) : Prop := 0 <= q <= 100.

Definition clamp (x : Q) : Q := Qmax 0 (Qmin 100 x).

Definition Qsum (l : list Q) : Q := fold_right Qplus 0 l.

Definition mean (l : list Q) : Q :=
  Qsum l / inject_Z (Z.of_nat (List.length l)).

(** The comfort formula alone: round(100 x (1 - sum of weight x
    probability/100)), clamped to [0,100], for a given weight of each
    entry. *)
Definition comfort_formula (weight : Earth3DGlobe.WeatherProbability -> Q)
    (stats : list Earth3DGlobe.WeatherProbability) : Q :=
  clamp (Math_round
           (100 * (1 - Qsum (map (fun s =>
                                    weight s
                                    * (Earth3DGlobe.probability s / 100))
                                 stats)))).

(** ComfortScorer as the specification words it: the table's weights are
    re-normalised to sum to 1.0 over the variables present. *)
Definition total_weight (stats : list Earth3DGlobe.WeatherProbability) : Q :=
  Qsum (map (fun s => Earth3DGlobe.weight_of (Earth3DGlobe.condition s))
            stats).

Definition score (stats : list Earth3DGlobe.WeatherProbability) : Q :=
  comfort_formula
    (fun s => Earth3DGlobe.weight_of (Earth3DGlobe.condition s)
              / total_weight stats)
    stats.

(** The keys of the weight table. *)
Definition named_conditions : list string :=
  ["Very Hot"; "Very Cold"; "Heavy Rain"; "Strong Wind"]%string.

(** The panel's figure in the claim's words: round of 100 minus the mean,
    clamped, and 0 without entries. *)
Definition equal_weight_comfort
    (probabilities : option (list WeatherProbability)) : Q :=
  match probabilities with
  | None => 0
  | Some [] => 0
  | Some l => clamp (Math_round (100 - mean (map probability l)))
  end.

(** AlternativeDateSearch as the specification words it: [Better] above
    the baseline by more than the margin, [Risky] below it by more than the
    margin, [Monitor] otherwise. *)
Definition classify (margin baseline candidate : Q) : Recommendation :=
  if Q_gt candidate (baseline + margin) then Better
  else if Q_lt candidate (baseline - margin) then Risky
  else Monitor.


(** A date whose day and the two days after it are within the range a
    [Date] can hold. *)
Definition date_in_range (d : Date) : Prop :=
  match d with
  | DateOf t => (- maxTime <= t <= maxTime - 2 * msPerDay)%Z
  | InvalidDate => False
  end.

(** The four conditions of the local calculation. *)
Inductive Variable_ : Type := Hot | Cold | Rain | Wind.




(** [Math.random()] returns a number in [0,1). *)
Definition unit_draws (draws : nat -> Q) : Prop :=
  forall n, 0 <= draws n < 1.

(** No real data is reachable: every request fails, with a network error,
    a status that is not ok, or a body that does not parse. *)
Definition unreachable {Req Data : Type}
    (network : string -> Req -> outcome (Response Data)) : Prop :=
  forall url body,
    match network url body with
    | Throw _ => True
    | Normal r => ok r = false \/ exists e, json r = Throw e
    end.

(** A run that rejects the request before any request is sent. *)
Definition rejected_before_io {Req St A : Type} (w0 : World Req St)
    (run : outcome A * World Req St) : Prop :=
  (exists e, fst run = Throw e) /\ requests (snd run) = requests w0.

(** Every row of an export names a dataset that the analysis lists. *)
Definition attribution_matches (a : WeatherAnalysisResponse)
    (csv : WeatherDashboard.Csv) : Prop :=
  Forall (fun row => In (WeatherDashboard.Dataset row)
                        (datasets_used (metadata a)))
         (WeatherDashboard.rows csv).


(** *** Exact values against doubles *)

(** A label of its own: not a name that every object inherits. *)
Definition own_label (c : string) : Prop :=
  ~ In c InDoubles.inherited_names.

(** A finite double. *)
Definition finite_double (q : Q) : Prop := Qabs q < Binary64.pow2 1024.

(** The weighted comfort before it is clamped and rounded. *)
Definition weighted_comfort (stats : list Earth3DGlobe.WeatherProbability)
  : Q :=
  100 * (1 - Qsum (map (fun s =>
                          Earth3DGlobe.weight_of (Earth3DGlobe.condition s)
                          * (Earth3DGlobe.probability s / 100))
                       stats)).

(** How far the double-precision results may be from the exact ones
    before rounding, for lists of up to 1024 percentages. *)
Definition margin : Q := 1 # 262144.

(** [y] is at least [margin] away from the nearest tie of [Math.round]. *)
Definition away_from_tie (y : Q) : Prop :=
  let part := y + (1 # 2) - inject_Z (Qfloor (y + (1 # 2))) in
  margin <= part /\ part < 1 - margin.

(** What a request delivers: the parsed body of a reply with an ok
    status, and nothing when the request is rejected, the status is not
    ok or the body does not parse. *)
Definition delivered {Req Data : Type}
    (network : string -> Req -> outcome (Response Data))
    (url : string) (body : Req) : option Data :=
  match network url body with
  | Normal response =>
      if ok response
      then match json response with
           | Normal data => Some data
           | Throw _ => None
           end
      else None
  | Throw _ => None
  end.

(** What the request of the globe, of the index page and of the 2D map
    delivers.  The globe and the map send no request without a backend
    address or with an invalid date. *)
Definition globe_delivered (BACKEND_URL : string)
    (network : string -> AnalyzeRequest
               -> outcome (Response Earth3DGlobe.BackendData))
    (location : LatLng) (date : Date)
    (thresholds : Earth3DGlobe.WeatherThresholds)
  : option Earth3DGlobe.BackendData :=
  if truthy BACKEND_URL
  then match toISODate date with
       | Normal event_date =>
           delivered network (BACKEND_URL ++ "/analyze")
             (Earth3DGlobe.analyze_body location event_date thresholds)
       | Throw _ => None
       end
  else None.

Definition page_delivered (BACKEND_URL : string) (now : Z)
    (network : string -> AnalyzeRequest
               -> outcome (Response (option WeatherAnalysisResponse)))
    (place : Place) (date : Date) (thresholds : Index.Thresholds)
  : option (option WeatherAnalysisResponse) :=
  match toISODate date with
  | Normal event_date =>
      delivered network (BACKEND_URL ++ "/analyze")
        (Index.requestData now place event_date thresholds)
  | Throw _ => None
  end.

Definition map_delivered (BACKEND_URL : string)
    (network : string -> AnalyzeRequest
               -> outcome (Response Map2D.BackendData))
    (lat lng : Q) (date : Date) (radiusKm : option Q)
    (polygon : option (list LatLng)) (areaRadiusKm : Q)
  : option Map2D.BackendData :=
  if truthy BACKEND_URL
  then match toISODate date with
       | Normal event_date =>
           delivered network (BACKEND_URL ++ "/analyze")
             (Map2D.analyze_body lat lng event_date radiusKm areaRadiusKm
                polygon)
       | Throw _ => None
       end
  else None.

End Spec.

(** ** Concrete inputs and environments used by the examples *)

Module Examples.
Import JS Effects Types.
Local Open Scope Q_scope.

(** New Delhi, 4 July 2025 (midnight UTC), the default thresholds. *)
Definition new_delhi : LatLng := {| lat := 28.61; lng := 77.21 |}.

Definition new_delhi_place : Place :=
  {| place_lat := 28.61; place_lng := 77.21;
     name := Some "New Delhi"%string |}.

Definition july_4_2025 : Date := DateOf (20273 * msPerDay).

Definition globe_thresholds : Earth3DGlobe.WeatherThresholds :=
  {| Earth3DGlobe.hotTemp := 32;
     Earth3DGlobe.coldTemp := 0;
     Earth3DGlobe.precipitation := 5;
     Earth3DGlobe.windSpeed := 15;
     Earth3DGlobe.comfortIndex := 70 |}.

(** Every cutoff further in its adverse direction: heat, rain and wind
    higher, cold lower. *)
Definition globe_thresholds_stricter : Earth3DGlobe.WeatherThresholds :=
  {| Earth3DGlobe.hotTemp := 40;
     Earth3DGlobe.coldTemp := - 5;
     Earth3DGlobe.precipitation := 20;
     Earth3DGlobe.windSpeed := 25;
     Earth3DGlobe.comfortIndex := 70 |}.

Definition selector_thresholds : Index.Thresholds :=
  {| Index.temperature := Some (Index.mkSetting true 32);
     Index.precipitation := Some (Index.mkSetting true 5);
     Index.wind := Some (Index.mkSetting false 15);
     Index.humidity := Some (Index.mkSetting false 70);
     Index.air_quality := Some (Index.mkSetting false 25) |}.

(** The text of a whole number; the thresholds of the examples are whole. *)
Definition wholeToString (q : Q) : string :=
  NilZero.string_of_int (Z.to_int (Qfloor q)).

(** A host on UTC. *)
Definition utc : Z -> Z := fun _ => 0%Z.

(** No backend answers: every [fetch] rejects. *)
Definition offline {Data : Type}
  : string -> AnalyzeRequest -> outcome (Response Data) :=
  fun _ _ => Throw (Rejected "Failed to fetch").

(** A backend that answers every request with [data]. *)
Definition serving {Data : Type} (data : Data)
  : string -> AnalyzeRequest -> outcome (Response Data) :=
  fun _ _ => Normal {| ok := true; status := 200; json := Normal data |}.

Definition backend_url : string := "https://api.example.org".

(** Two sequences of draws: always 0, and always 1/2. *)
Definition draws_low : nat -> Q := fun _ => 0.
Definition draws_half : nat -> Q := fun _ => 1 # 2.


(** The simulated analysis of the index page for New Delhi on 4 July 2025,
    built on 1 January 1970 from six draws. *)
Definition simulated (draws : nat -> Q) : WeatherAnalysisResponse :=
  Index.fallbackAnalysis_object 0 new_delhi_place
    (mkIsoDate 2025 7 4)
    (draws 0%nat) (draws 1%nat) (draws 2%nat) (draws 3%nat)
    (mkIsoDate 2025 7 5) (draws 4%nat)
    (mkIsoDate 2025 7 6) (draws 5%nat).

Definition fresh_page : World AnalyzeRequest Index.PageState :=
  mkWorld [] 0 []
    {| Index.analysisData := None; Index.showResults := false;
       Index.isAnalyzing := false; Index.toasts := [] |}.

Definition fresh_map : World AnalyzeRequest Map2D.MapState :=
  mkWorld [] 0 []
    {| Map2D.weatherProbabilities := []; Map2D.showAnalysis := false;
       Map2D.isAnalyzing := false; Map2D.areaRadiusKm := 0 |}.

Definition fresh_globe : World AnalyzeRequest unit := mkWorld [] 0 [] tt.

(** Two points only: not a polygon. *)
Definition two_points : list LatLng :=
  [ {| lat := 28.60; lng := 77.20 |}; {| lat := 28.62; lng := 77.22 |} ].

Definition triangle : list LatLng :=
  [ {| lat := 28.60; lng := 77.20 |}; {| lat := 28.62; lng := 77.22 |};
    {| lat := 28.60; lng := 77.24 |} ].

(** One entry, "Very Hot" at 100 %. *)
Definition only_very_hot : list Earth3DGlobe.WeatherProbability :=
  [ {| Earth3DGlobe.condition := "Very Hot";
       Earth3DGlobe.probability := 100;
       Earth3DGlobe.threshold := ">32°C";
       Earth3DGlobe.trend := increasing;
       Earth3DGlobe.confidence := 0.85 |} ].

(** A globe entry with a condition and a probability. *)
Definition globe_entry (condition : string) (probability : Q)
  : Earth3DGlobe.WeatherProbability :=
  {| Earth3DGlobe.condition := condition;
     Earth3DGlobe.probability := probability;
     Earth3DGlobe.threshold := "";
     Earth3DGlobe.trend := stable;
     Earth3DGlobe.confidence := 0.8 |}.

(** "Very Hot" at 5 % and "Heavy Rain" at 80 %: the exact weighted
    comfort is 78.5. *)
Definition hot_and_rain : list Earth3DGlobe.WeatherProbability :=
  [ globe_entry "Very Hot" 5; globe_entry "Heavy Rain" 80 ].

(** "Very Hot" at 20 % and "Heavy Rain" at 40 %: away from a tie. *)
Definition mild_day : list Earth3DGlobe.WeatherProbability :=
  [ globe_entry "Very Hot" 20; globe_entry "Heavy Rain" 40 ].

(** A condition named like a property that every object inherits. *)
Definition inherited_label : list Earth3DGlobe.WeatherProbability :=
  [ globe_entry "constructor" 50 ].

(** An entry of an analysis with a condition and a probability. *)
Definition entry (condition : string) (probability : Q)
  : WeatherProbability :=
  mkWeatherProbability condition probability "" stable 0.8 0 0 0.05.

(** Four probabilities whose mean is exactly 60.5. *)
Definition mean_at_tie : list WeatherProbability :=
  [ entry "Very Hot" 0; entry "Very Cold" 56;
    entry "Heavy Rain" 93; entry "Strong Wind" 93 ].

(** Two probabilities whose mean is 30. *)
Definition calm_day : list WeatherProbability :=
  [ entry "Heavy Rain" 20; entry "Strong Wind" 40 ].

Definition reply_metadata : Metadata :=
  {| datasets_used := ["NASA POWER"%string];
     years_analyzed := Some "1990-2024"%string;
     analysis_date := None;
     confidence_level := Some "High"%string;
     data_window := None;
     note := None |}.

(** A reply with a probability of 150 and a comfort index of 120. *)
Definition reply_out_of_range : WeatherAnalysisResponse :=
  {| location := new_delhi;
     event_date := mkIsoDate 2025 7 4;
     comfort_index := 120;
     probabilities := [ entry "Very Hot" 150 ];
     alternative_dates := [];
     metadata := reply_metadata |}.

(** A reply that lists the event date itself among the alternatives. *)
Definition reply_same_day : WeatherAnalysisResponse :=
  {| location := new_delhi;
     event_date := mkIsoDate 2025 7 4;
     comfort_index := 60;
     probabilities := [ entry "Very Hot" 40 ];
     alternative_dates :=
       [ {| date := mkIsoDate 2025 7 4;
            alt_comfort_index := 60;
            offset_days := 0;
            recommendation := Monitor |} ];
     metadata := reply_metadata |}.

(** The same two replies as the globe reads them. *)
Definition globe_reply_out_of_range : Earth3DGlobe.BackendData :=
  {| Earth3DGlobe.data_probabilities := [ globe_entry "Very Hot" 150 ];
     Earth3DGlobe.data_comfort_index := 120;
     Earth3DGlobe.data_alternative_dates := [];
     Earth3DGlobe.data_metadata := reply_metadata |}.

Definition globe_reply_same_day : Earth3DGlobe.BackendData :=
  {| Earth3DGlobe.data_probabilities := [ globe_entry "Very Hot" 40 ];
     Earth3DGlobe.data_comfort_index := 60;
     Earth3DGlobe.data_alternative_dates :=
       alternative_dates reply_same_day;
     Earth3DGlobe.data_metadata := reply_metadata |}.

End Examples.

(** * The code around the analysis

    The components that feed and display the analysis: the weather hook
    [useAutoWeather] with its two services, the two recommendation cards,
    the threshold selector, the labels of the globe, the clicks on the
    flat maps, the controls and the search box of the 2D map with the
    coordinate formats it prints and reads, the data source banner, the
    dashboard's verdict and JSON export, the wind direction of the
    current weather widget and the decade chart of the trend analysis.

    Further conventions.  A key of a JSON reply that should hold a number
    may hold [null] or be left out.  A string is its UTF-8 bytes, so the
    degree sign is the two or five bytes that the source file holds.
    The geocoding calls of the search box, the clock, the printing of
    numbers in URLs and the credentials of the weather service are given
    from outside.  The wind direction is computed in doubles
    ([Binary64]); the other arithmetic of this part is exact, so a
    product such as 3 x 0.95 is 2.85 here and 2.8499999999999996 in a
    double. *)

(** ** JSON numbers *)

Module Json.
Import JS.
Local Open Scope Q_scope.

(** A key that an API documents as a number: the number, [null], or left
    out ([undefined]). *)
Inductive num : Type :=
  | Num (q : Q)
  | Null
  | Missing.

(** The number that arithmetic and the relational operators see: [null]
    counts as 0, [undefined] is not a number ([None]). *)
Definition toNumber (v : num) : option Q :=
  match v with
  | Num q => Some q
  | Null => Some 0
  | Missing => None
  end.

(** [typeof v === 'number' ? v : null]. *)
Definition number_or_null (v : num) : option Q :=
  match v with
  | Num q => Some q
  | _ => None
  end.

(** [v ?? d]. *)
Definition nullish (v : option Q) (d : Q) : Q :=
  match v with
  | Some q => q
  | None => d
  end.

(** [v || 0] on a JSON number. *)
Definition or_zero (v : num) : Q :=
  match v with
  | Num q => q
  | _ => 0
  end.

(** Comparisons with an operand that may be not-a-number: false then. *)
Definition lt (a : option Q) (b : Q) : bool :=
  match a with Some a => Q_lt a b | None => false end.
Definition gt (a : option Q) (b : Q) : bool :=
  match a with Some a => Q_gt a b | None => false end.
Definition le (a : option Q) (b : Q) : bool :=
  match a with Some a => Qle_bool a b | None => false end.
Definition ge (a : option Q) (b : Q) : bool :=
  match a with Some a => Qle_bool b a | None => false end.

(** [a <= b] on two [Date]s: their time values are compared, and an
    invalid date is not a number. *)
Definition date_le (a b : Date) : bool :=
  match getTime a, getTime b with
  | Some a, Some b => (a <=? b)%Z
  | _, _ => false
  end.

End Json.

(** ** The weather hook: [useAutoWeather]

    [WEATHER_API.getCurrentWeather] asks Meteomatics until a cutoff date
    and Open-Meteo otherwise; [determineWeatherType] turns the answer
    into one of five weather types. *)

Module AutoWeather.
Import JS Effects Types Json.
Local Open Scope Q_scope.
Local Open Scope string_scope.

Inductive WeatherType : Type := clear | cloudy | rainy | stormy | snowy.

Record WeatherData : Type := mkWeatherData {
  weather_main : string;
  weather_description : string;
  precipitation : Q;
  temperature : option Q;      (* not a number when the reply lacks it *)
  wind_speed : option Q
}.

(** One entry of the [data] array of a Meteomatics reply: [parameter]
    when it is a string, and [coordinates?.[0]?.dates?.[0]?.value]. *)
Record MeteomaticsEntry : Type := mkMeteomaticsEntry {
  parameter : option string;
  value : num
}.

(** The [current] and [hourly] objects of an Open-Meteo reply.  An entry
    of [hourly.time] is the [Date] that its text parses to. *)
Record Current : Type := mkCurrent {
  weather_code : num;
  current_precipitation : num;
  temperature_2m : num;
  wind_speed_10m : num;
  cloud_cover : num
}.

Record Hourly : Type := mkHourly {
  hourly_precipitation : option (list num);
  time : option (list Date)
}.

(** A reply as the code reads it: every key may be missing. *)
Record WeatherJson : Type := mkWeatherJson {
  data : option (list MeteomaticsEntry);
  current : option Current;
  hourly : option Hourly
}.

Record Mapped : Type := mkMapped { main : string; desc : string }.

Record HookState : Type := mkHookState {
  weatherType : WeatherType;
  isLoading : bool;
  error : option string;
  lastUpdate : option Z
}.

Definition setWeatherType (t : WeatherType) (s : HookState) : HookState :=
  mkHookState t (isLoading s) (error s) (lastUpdate s).
Definition setIsLoading (b : bool) (s : HookState) : HookState :=
  mkHookState (weatherType s) b (error s) (lastUpdate s).
Definition setError (e : option string) (s : HookState) : HookState :=
  mkHookState (weatherType s) (isLoading s) e (lastUpdate s).
Definition setLastUpdate (t : Z) (s : HookState) : HookState :=
  mkHookState (weatherType s) (isLoading s) (error s) (Some t).

(** [new Date('2025-10-12T23:59:59Z')]. *)
Definition cutoff : Date :=
  DateOf (days_from_civil (mkIsoDate 2025 10 12) * msPerDay
          + ((23 * 60 + 59) * 60 + 59) * 1000).

(** [s.split(sep)[0]]: the text before the first [sep]. *)
Fixpoint before (sep : Ascii.ascii) (s : string) : string :=
  match s with
  | EmptyString => EmptyString
  | String c rest =>
      if Ascii.eqb c sep then EmptyString else String c (before sep rest)
  end.

Definition getValue (mm : WeatherJson) (param : string) : option Q :=
  match data mm with
  | Some entries =>
      match find (fun d => match parameter d with
                           | Some p => String.prefix param p
                           | None => false
                           end) entries with
      | Some entry => number_or_null (value entry)
      | None => None
      end
  | None => None
  end.

Definition mapSymbolToWeather (sym tempC precip : option Q) : Mapped :=
  let heuristic :=
    let t := nullish tempC 20 in
    let p := nullish precip 0 in
    if Qle_bool 7 p then {| main := "Rain"; desc := "Heavy rain" |}
    else if Q_gt p 0.2 && Qle_bool t 2
         then {| main := "Snow"; desc := "Snow" |}
    else if Q_gt p 0.2 then {| main := "Rain"; desc := "Rain" |}
    else {| main := "Clear"; desc := "Clear sky" |} in
  match sym with
  | Some sym =>
      let s := Math_round sym in
      if Qeq_bool s 1 then {| main := "Clear"; desc := "Clear sky" |}
      else if Qeq_bool s 2 then {| main := "Clear"; desc := "Mostly sunny" |}
      else if Qeq_bool s 3 then {| main := "Clouds"; desc := "Partly cloudy" |}
      else if Qeq_bool s 4 then {| main := "Clouds"; desc := "Cloudy" |}
      else if Qeq_bool s 5 then {| main := "Clouds"; desc := "Overcast" |}
      else if Qeq_bool s 6 then {| main := "Rain"; desc := "Light rain" |}
      else if Qeq_bool s 7 then {| main := "Rain"; desc := "Rain" |}
      else if Qeq_bool s 8 then {| main := "Rain"; desc := "Heavy rain" |}
      else if Qeq_bool s 9 then {| main := "Rain"; desc := "Rain showers" |}
      else if Qeq_bool s 10 then {| main := "Snow"; desc := "Snow" |}
      else if Qeq_bool s 11
           then {| main := "Thunderstorm"; desc := "Thunderstorm" |}
      else if Qeq_bool s 12 then {| main := "Fog"; desc := "Fog" |}
      else heuristic
  | None => heuristic
  end.

(** [mapOM], which closes over the current value of [mapped]. *)
Definition mapOM (mapped : Mapped) (c : option Q) : Mapped :=
  match c with
  | Some c =>
      if Qeq_bool c 0 then {| main := "Clear"; desc := "Clear sky" |}
      else if Qle_bool c 3 then {| main := "Clouds"; desc := "Partly cloudy" |}
      else if Qle_bool c 48 then {| main := "Fog"; desc := "Fog" |}
      else if Qle_bool c 67 then {| main := "Rain"; desc := "Rain" |}
      else if Qle_bool c 77 then {| main := "Snow"; desc := "Snow" |}
      else if Qle_bool c 82 then {| main := "Rain"; desc := "Heavy rain" |}
      else if Qle_bool c 99
           then {| main := "Thunderstorm"; desc := "Thunderstorm" |}
      else mapped
  | None => mapped
  end.

(** The cross-check with Open-Meteo, once its reply [om] is parsed: what
    [mapped] is after the two assignments. *)
Definition crossCheck (mapped : Mapped) (om : WeatherJson) : Mapped :=
  let code :=
    match current om with Some c => weather_code c | None => Missing end in
  let omPrecip :=
    match current om with
    | Some c => or_zero (current_precipitation c)    (* [?? 0] *)
    | None => 0
    end in
  let omMapped := mapOM mapped (number_or_null code) in
  let mapped :=
    if (main mapped =? "Clear") && negb (main omMapped =? "Clear")
    then omMapped else mapped in
  if Q_gt omPrecip 0.2 && (main mapped =? "Clear")
  then {| main := "Rain"; desc := "Rain" |}
  else mapped.

(** Map weather codes to descriptions.  The argument is
    [current.weather_code] as it comes. *)
Definition getWeatherDescription (code : num) : Mapped :=
  let c := toNumber code in
  if match code with Num q => Qeq_bool q 0 | _ => false end
  then {| main := "Clear"; desc := "Clear sky" |}
  else if le c 3 then {| main := "Clouds"; desc := "Partly cloudy" |}
  else if le c 48 then {| main := "Fog"; desc := "Foggy" |}
  else if le c 67 then {| main := "Rain"; desc := "Rainy" |}
  else if le c 77 then {| main := "Snow"; desc := "Snowy" |}
  else if le c 82 then {| main := "Rain"; desc := "Heavy rain" |}
  else if le c 99 then {| main := "Thunderstorm"; desc := "Thunderstorm" |}
  else {| main := "Unknown"; desc := "Unknown conditions" |}.

(** Function to determine weather type based on weather data *)
Definition determineWeatherType (weatherData : WeatherData) : WeatherType :=
  let weather_main := weather_main weatherData in
  let precipitation := precipitation weatherData in
  let wind_speed := wind_speed weatherData in
  let temperature := temperature weatherData in
  (* Thunderstorm conditions *)
  if (weather_main =? "Thunderstorm")
     || (Q_gt precipitation 5 && gt wind_speed 15) then stormy
  (* Snow conditions *)
  else if (weather_main =? "Snow")
          || (lt temperature 2 && Q_gt precipitation 0) then snowy
  (* Rain conditions *)
  else if (weather_main =? "Rain") || Q_gt precipitation 1 then rainy
  (* Cloudy conditions *)
  else if (weather_main =? "Clouds") || (weather_main =? "Fog") then cloudy
  (* Clear conditions (default) *)
  else clear.

Section Environment.

(** The clock of [new Date()], the credentials (the environment's or the
    literals of the source), the conversions to text that the URLs use,
    [btoa], and the network; a request is its URL and its
    [Authorization] header. *)
Variable now : Z.
Variable username password : string.
Variable numberToString : Q -> string.
Variable toISOString : Z -> string.
Variable btoa : string -> string.
Variable network :
  string -> option string -> outcome (Response WeatherJson).

(** Calculate recent precipitation (last 3 hours) *)
Definition recentPrecipitation (hourly : option Hourly) : Q :=
  match hourly with
  | Some hourly =>
      match hourly_precipitation hourly, time hourly with
      | Some precipitation, Some time =>
          let now := DateOf now in
          let threeHoursAgo :=
            new_Date (time_plus now (- (3 * 60 * 60 * 1000))) in
          fold_left
            (fun recentPrecipitation i =>
               let hourTime := nth i time InvalidDate in
               if date_le threeHoursAgo hourTime && date_le hourTime now
               then recentPrecipitation
                    + or_zero (nth i precipitation Missing)
               else recentPrecipitation)
            (seq 0 (List.length time)) 0
      | _, _ => 0
      end
  | None => 0
  end.

(** What [getCurrentWeather] makes of an Open-Meteo forecast reply; reading
    a key of a missing [current] throws. *)
Definition openMeteoWeather (data : WeatherJson) : outcome WeatherData :=
  let recentPrecipitation := recentPrecipitation (hourly data) in
  match current data with
  | None => Throw (Error "Cannot read properties of undefined")
  | Some current =>
      let weather := getWeatherDescription (weather_code current) in
      (* Prefer immediate precipitation for "is it raining now" *)
      let currentPrecip := or_zero (current_precipitation current) in
      let mainNow :=
        (* If mapped as rain but virtually no precip now and in last 3h,
           downgrade to clouds/clear *)
        if (main weather =? "Rain") && Q_lt currentPrecip 0.2
           && Q_lt recentPrecipitation 0.2
        then match cloud_cover current with
             | Num cloud => if Qle_bool 60 cloud then "Clouds" else "Clear"
             | _ => "Clear"
             end
        else main weather in
      Normal
        {| weather_main := mainNow;
           weather_description := desc weather;
           precipitation :=
             Math_round (Math_max currentPrecip recentPrecipitation * 10)
             / 10;
           temperature :=
             option_map Math_round (toNumber (temperature_2m current));
           wind_speed :=
             option_map (fun v => Math_round (v * 10) / 10)
                        (toNumber (wind_speed_10m current)) |}
  end.

Definition meteomaticsUrl (lat lon : Q) : string :=
  let isoNow := before "."%char (toISOString now) ++ "Z" in
  let params :=
    String.concat ","
      [ "t_2m:C"; "wind_speed_10m:ms"; "relative_humidity_2m:p";
        "precip_1h:mm"; "weather_symbol_1h:idx" ] in
  "https://api.meteomatics.com/" ++ isoNow ++ "/" ++ params ++ "/"
  ++ numberToString lat ++ "," ++ numberToString lon ++ "/json".

Definition crossCheckUrl (lat lon : Q) : string :=
  "https://api.open-meteo.com/v1/forecast?latitude=" ++ numberToString lat
  ++ "&longitude=" ++ numberToString lon
  ++ "&current=weather_code,precipitation&timezone=auto".

Definition forecastUrl (lat lon : Q) : string :=
  "https://api.open-meteo.com/v1/forecast?latitude=" ++ numberToString lat
  ++ "&longitude=" ++ numberToString lon
  ++ "&current=temperature_2m,relative_humidity_2m,apparent_temperature,"
  ++ "precipitation,weather_code,wind_speed_10m,wind_direction_10m,"
  ++ "surface_pressure&hourly=precipitation&timezone=auto&past_days=1".

Definition tryMeteomatics {St : Type} (lat lon : Q)
  : M (option string) St (option WeatherData) :=
  if negb (truthy username) || negb (truthy password) then ret None
  else
    let auth := btoa (username ++ ":" ++ password) in
    resp <- fetch network (meteomaticsUrl lat lon)
              (Some ("Basic " ++ auth)) ;;
    if negb (ok resp) then
      if (status resp =? 400)%Z then ret None
      else throw (HttpError "Meteomatics error: " (status resp))
    else
      mm <- lift (json resp) ;;
      let temperature := getValue mm "t_2m" in
      let windSpeed := getValue mm "wind_speed_10m" in
      let precip1h := getValue mm "precip_1h" in
      let symbol := getValue mm "weather_symbol_1h" in
      let mapped := mapSymbolToWeather symbol temperature precip1h in
      (* Cross-check with Open-Meteo to reduce false 'Clear' *)
      mapped <- try_catch
                  (omResp <- fetch network (crossCheckUrl lat lon) None ;;
                   if ok omResp then
                     om <- lift (json omResp) ;;
                     ret (crossCheck mapped om)
                   else ret mapped)
                  (fun _ => ret mapped) ;;
      ret (Some
             {| weather_main := main mapped;
                weather_description := desc mapped;
                precipitation := Math_round (nullish precip1h 0 * 10) / 10;
                temperature := Some (Math_round (nullish temperature 20));
                wind_speed :=
                  Some (Math_round (nullish windSpeed 2 * 10) / 10) |}).

Definition getCurrentWeather {St : Type} (lat lon : Q)
  : M (option string) St (option WeatherData) :=
  try_catch
    (dataFromMeteomatics <-
       (if date_le (DateOf now) cutoff then
          try_catch (tryMeteomatics lat lon)
            (fun e =>
               console_log
                 "Meteomatics request failed, will fallback to Open-Meteo" ;;;
               ret None)
        else ret None) ;;
     match dataFromMeteomatics with
     | Some dataFromMeteomatics => ret (Some dataFromMeteomatics)
     | None =>
         response <- fetch network (forecastUrl lat lon) None ;;
         (if ok response then ret tt
          else throw (HttpError "Weather API error: " (status response))) ;;;
         data <- lift (json response) ;;
         weatherData <- lift (openMeteoWeather data) ;;
         ret (Some weatherData)
     end)
    (fun error =>
       console_log "Failed to fetch real weather data:" ;;;
       ret None).

Definition fetchWeather (location : Place)
  : M (option string) HookState unit :=
  set_state (setIsLoading true) ;;;
  set_state (setError None) ;;;
  try_catch_finally
    (weatherData <- getCurrentWeather (place_lat location)
                      (place_lng location) ;;
     match weatherData with
     | Some weatherData =>
         let newWeatherType := determineWeatherType weatherData in
         set_state (setWeatherType newWeatherType) ;;;
         set_state (setLastUpdate now) ;;;
         console_log "Auto weather update:"
     | None =>
         (* Fallback to clear weather if API fails *)
         set_state (setWeatherType clear) ;;;
         set_state (setError (Some "Failed to fetch weather data"))
     end)
    (fun err =>
       console_log "Weather fetch error:" ;;;
       set_state (setError (Some "Failed to fetch weather data")) ;;;
       set_state (setWeatherType clear))
    (set_state (setIsLoading false)).

(** The effect of the hook, run when [location] changes (the timer that
    repeats [fetchWeather] every ten minutes is left out). *)
Definition useAutoWeather (location : option Place)
  : M (option string) HookState unit :=
  match location with
  | None => set_state (setWeatherType clear)
  | Some location => fetchWeather location
  end.

End Environment.

End AutoWeather.

(** ** The two recommendation cards

    [WeatherAnalysis.tsx] (the card of the results view) and
    [SimpleWeatherAnalysis.tsx] (the card of the selection view). *)

Module WeatherAnalysis.
Import JS.
Local Open Scope Q_scope.
Local Open Scope string_scope.

(** The [icon] of the source is a React node and is left out. *)
Record WeatherRecommendation : Type := mkWeatherRecommendation {
  canGoOut : bool;
  recommendation : string;
  color : string;
  details : list string;
  precautions : list string
}.

(** [getWeatherRecommendation] reads the props [weatherType] and
    [temperature]. *)
Definition getWeatherRecommendation (weatherType : string) (temperature : Q)
  : WeatherRecommendation :=
  if weatherType =? "clear" then
    {| canGoOut := true;
       recommendation := "Perfect weather for outdoor activities!";
       color := "bg-green-500";
       details :=
         [ "Clear skies and good visibility";
           "Ideal for walking, cycling, or outdoor events";
           "Great for photography and sightseeing" ];
       precautions :=
         [ "Apply sunscreen if spending extended time outside";
           "Stay hydrated in warm weather";
           "Wear appropriate clothing for the temperature" ] |}
  else if weatherType =? "cloudy" then
    {| canGoOut := true;
       recommendation := "Good weather for outdoor activities";
       color := "bg-blue-500";
       details :=
         [ "Overcast skies but no precipitation";
           "Comfortable for most outdoor activities";
           "Good lighting for photography" ];
       precautions :=
         [ "Bring a light jacket in case of temperature drop";
           "Monitor weather for potential rain";
           "Check if activities require clear skies" ] |}
  else if weatherType =? "rainy" then
    {| canGoOut := false;
       recommendation := "Not recommended for outdoor activities";
       color := "bg-orange-500";
       details :=
         [ "Wet conditions and reduced visibility";
           "Slippery surfaces and potential flooding";
           "Uncomfortable for most outdoor activities" ];
       precautions :=
         [ "Stay indoors if possible";
           "If you must go out, wear waterproof clothing";
           "Avoid driving unless necessary";
           "Be cautious of slippery surfaces" ] |}
  else if weatherType =? "stormy" then
    {| canGoOut := false;
       recommendation := "Stay indoors - dangerous conditions";
       color := "bg-red-500";
       details :=
         [ "Severe weather with lightning risk";
           "Strong winds and heavy precipitation";
           "Dangerous for all outdoor activities" ];
       precautions :=
         [ "Stay indoors and away from windows";
           "Avoid using electrical appliances";
           "Postpone all outdoor activities";
           "Have emergency supplies ready" ] |}
  else if weatherType =? "snowy" then
    {| canGoOut := Q_gt temperature (-5);
       recommendation :=
         if Q_gt temperature (-5)
         then "Caution advised for outdoor activities"
         else "Stay indoors - too cold";
       color := if Q_gt temperature (-5) then "bg-yellow-500"
                else "bg-red-500";
       details :=
         if Q_gt temperature (-5) then
           [ "Snowy conditions with cold temperatures";
             "Limited outdoor activities possible";
             "Good for winter sports if properly equipped" ]
         else
           [ "Extremely cold temperatures";
             "Risk of frostbite and hypothermia";
             "Dangerous for outdoor activities" ];
       precautions :=
         [ "Dress in warm, layered clothing";
           "Wear non-slip footwear";
           "Limit time outdoors";
           "Watch for signs of cold stress" ] |}
  else
    {| canGoOut := true;
       recommendation := "Weather conditions are acceptable";
       color := "bg-green-500";
       details := [ "Standard weather conditions" ];
       precautions := [ "Check local weather updates" ] |}.

(** What the card shows: the badge, the recommendation and the four
    figures; [None] is the "Weather type not provided" card. *)
Record View : Type := mkView {
  badge : string;
  shown : WeatherRecommendation;
  temperature_shown : Q;
  windSpeed_shown : Q;
  visibility_shown : Q;
  precipitation_shown : Q
}.

(** The component; a prop that is left out takes its default. *)
Definition WeatherAnalysis (weatherType : string)
    (temperature windSpeed visibility precipitation : option Q)
  : option View :=
  let temperature := Json.nullish temperature 25 in
  let windSpeed := Json.nullish windSpeed 10 in
  let visibility := Json.nullish visibility 10 in
  let precipitation := Json.nullish precipitation 0 in
  let recommendation := getWeatherRecommendation weatherType temperature in
  if negb (Types.truthy weatherType) then None
  else
    Some {| badge := if canGoOut recommendation then "GO OUT" else "STAY IN";
            shown := recommendation;
            temperature_shown := temperature;
            windSpeed_shown := windSpeed;
            visibility_shown := visibility;
            precipitation_shown := precipitation |}.

End WeatherAnalysis.

Module SimpleWeatherAnalysis.
Local Open Scope string_scope.

Record Recommendation : Type := mkRecommendation {
  canGoOut : bool;
  message : string;
  bgColor : string;
  textColor : string
}.

Definition getRecommendation (weatherType : string) : Recommendation :=
  if weatherType =? "rainy" then
    {| canGoOut := false;
       message := "❌ STAY IN - Not safe to go out in heavy rain";
       bgColor := "bg-red-100";
       textColor := "text-red-800" |}
  else if weatherType =? "stormy" then
    {| canGoOut := false;
       message := "❌ STAY IN - Dangerous storm conditions";
       bgColor := "bg-red-100";
       textColor := "text-red-800" |}
  else if weatherType =? "snowy" then
    {| canGoOut := false;
       message := "⚠️ CAUTION - Cold and snowy conditions";
       bgColor := "bg-yellow-100";
       textColor := "text-yellow-800" |}
  else if weatherType =? "cloudy" then
    {| canGoOut := true;
       message := "✅ GO OUT - Good weather for outdoor activities";
       bgColor := "bg-blue-100";
       textColor := "text-blue-800" |}
  else
    {| canGoOut := true;
       message := "✅ GO OUT - Perfect weather for outdoor activities!";
       bgColor := "bg-green-100";
       textColor := "text-green-800" |}.

End SimpleWeatherAnalysis.

(** ** The index page around the analysis

    The weather type of the hook as the text that the page passes to the
    cards, and the two places where the page renders them. *)

Module IndexCards.
Import JS.
Local Open Scope Q_scope.
Local Open Scope string_scope.

Definition text (weatherType : AutoWeather.WeatherType) : string :=
  match weatherType with
  | AutoWeather.clear => "clear"
  | AutoWeather.cloudy => "cloudy"
  | AutoWeather.rainy => "rainy"
  | AutoWeather.stormy => "stormy"
  | AutoWeather.snowy => "snowy"
  end.

(** [<SimpleWeatherAnalysis weatherType={weatherType} />], on the selection
    view. *)
Definition quick_card (weatherType : AutoWeather.WeatherType)
  : SimpleWeatherAnalysis.Recommendation :=
  SimpleWeatherAnalysis.getRecommendation (text weatherType).

(** [<WeatherAnalysis weatherType={weatherType} temperature={25}
    windSpeed={10} visibility={10}
    precipitation={weatherType === 'rainy' ? 5 : 0} />], on the results
    view. *)
Definition results_card (weatherType : AutoWeather.WeatherType)
  : option WeatherAnalysis.View :=
  WeatherAnalysis.WeatherAnalysis (text weatherType) (Some 25) (Some 10)
    (Some 10)
    (Some (if text weatherType =? "rainy" then 5 else 0)).

End IndexCards.

(** ** The threshold selector: [DateThresholdSelector]

    The selector keeps its own thresholds and hands every new value to the
    page through [onThresholdsChange]; the page starts without
    thresholds. *)

Module DateThresholdSelector.
Import JS Types.
Local Open Scope Q_scope.

Inductive Key : Type :=
  | temperature | precipitation | wind | humidity | air_quality.

(** The [field] and [value] arguments of [handleThresholdChange] as its
    two callers pass them: the switch sets [enabled], the slider sets
    [value]. *)
Inductive Change : Type :=
  | enabled (checked : bool)
  | value (v : Q).

Record Thresholds : Type := mkThresholds {
  of_temperature : Index.Setting;
  of_precipitation : Index.Setting;
  of_wind : Index.Setting;
  of_humidity : Index.Setting;
  of_air_quality : Index.Setting
}.

(** The initial state of the selector. *)
Definition initialThresholds : Thresholds :=
  {| of_temperature := Index.mkSetting true 32;
     of_precipitation := Index.mkSetting true 5;
     of_wind := Index.mkSetting false 15;
     of_humidity := Index.mkSetting false 70;
     of_air_quality := Index.mkSetting false 25 |}.

(** [thresholds[type]]. *)
Definition get (thresholds : Thresholds) (type : Key) : Index.Setting :=
  match type with
  | temperature => of_temperature thresholds
  | precipitation => of_precipitation thresholds
  | wind => of_wind thresholds
  | humidity => of_humidity thresholds
  | air_quality => of_air_quality thresholds
  end.

(** [{ ...thresholds[type], [field]: value }]. *)
Definition change_setting (setting : Index.Setting) (change : Change)
  : Index.Setting :=
  match change with
  | enabled checked => Index.mkSetting checked (Index.value setting)
  | value v => Index.mkSetting (Index.enabled setting) v
  end.

(** [newThresholds] of [handleThresholdChange]. *)
Definition newThresholds (thresholds : Thresholds) (type : Key)
    (change : Change) : Thresholds :=
  let setting := change_setting (get thresholds type) change in
  match type with
  | temperature =>
      mkThresholds setting (of_precipitation thresholds)
        (of_wind thresholds) (of_humidity thresholds)
        (of_air_quality thresholds)
  | precipitation =>
      mkThresholds (of_temperature thresholds) setting
        (of_wind thresholds) (of_humidity thresholds)
        (of_air_quality thresholds)
  | wind =>
      mkThresholds (of_temperature thresholds)
        (of_precipitation thresholds) setting (of_humidity thresholds)
        (of_air_quality thresholds)
  | humidity =>
      mkThresholds (of_temperature thresholds)
        (of_precipitation thresholds) (of_wind thresholds) setting
        (of_air_quality thresholds)
  | air_quality =>
      mkThresholds (of_temperature thresholds)
        (of_precipitation thresholds) (of_wind thresholds)
        (of_humidity thresholds) setting
  end.

(** The object as the page reads it: every key is there. *)
Definition as_read_by_page (thresholds : Thresholds) : Index.Thresholds :=
  {| Index.temperature := Some (of_temperature thresholds);
     Index.precipitation := Some (of_precipitation thresholds);
     Index.wind := Some (of_wind thresholds);
     Index.humidity := Some (of_humidity thresholds);
     Index.air_quality := Some (of_air_quality thresholds) |}.

(** The state of the selector and the [thresholds] state of the page,
    which [onThresholdsChange={setThresholds}] writes. *)
Record State : Type := mkState {
  thresholds : Thresholds;
  page_thresholds : option Index.Thresholds
}.

(** [useState(...)] in the selector, [useState<any>(null)] in the page. *)
Definition initial : State :=
  {| thresholds := initialThresholds; page_thresholds := None |}.

Definition handleThresholdChange (type : Key) (change : Change)
    (s : State) : State :=
  let newThresholds := newThresholds (thresholds s) type change in
  {| thresholds := newThresholds;                       (* setThresholds *)
     page_thresholds := Some (as_read_by_page newThresholds) |}.

(** The state after a sequence of uses of the switches and sliders. *)
Definition after (changes : list (Key * Change)) : State :=
  fold_left (fun s c => handleThresholdChange (fst c) (snd c) s)
            changes initial.

End DateThresholdSelector.

(** ** The labels of the globe: [GEOGRAPHIC_DATA] and
    [getVisibleLocations] *)

Module Earth.
Import JS.
Local Open Scope Q_scope.
Local Open Scope string_scope.

Record Location : Type := mkLocation {
  name : string;
  lat : Q;
  lng : Q;
  minZoom : Q
}.

Definition continents : list Location :=
  [ mkLocation "North America" 45.0 (-100.0) 8;
    mkLocation "South America" (-15.0) (-60.0) 8;
    mkLocation "Europe" 54.0 15.0 8;
    mkLocation "Africa" 0.0 20.0 8;
    mkLocation "Asia" 30.0 100.0 8;
    mkLocation "Australia" (-25.0) 140.0 8;
    mkLocation "Antarctica" (-80.0) 0.0 8 ].

Definition countries : list Location :=
  [ mkLocation "United States" 39.8283 (-98.5795) 6;
    mkLocation "Canada" 56.1304 (-106.3468) 6;
    mkLocation "Brazil" (-14.2350) (-51.9253) 6;
    mkLocation "Russia" 61.5240 105.3188 6;
    mkLocation "China" 35.8617 104.1954 6;
    mkLocation "India" 20.5937 78.9629 6;
    mkLocation "Australia" (-25.2744) 133.7751 6;
    mkLocation "Germany" 51.1657 10.4515 5;
    mkLocation "France" 46.6034 1.8883 5;
    mkLocation "United Kingdom" 55.3781 (-3.4360) 5;
    mkLocation "Japan" 36.2048 138.2529 5;
    mkLocation "South Korea" 35.9078 127.7669 5 ].

Definition cities : list Location :=
  [ mkLocation "New York" 40.7128 (-74.0060) 4;
    mkLocation "London" 51.5074 (-0.1278) 4;
    mkLocation "Paris" 48.8566 2.3522 4;
    mkLocation "Tokyo" 35.6762 139.6503 4;
    mkLocation "Sydney" (-33.8688) 151.2093 4;
    mkLocation "Rio de Janeiro" (-22.9068) (-43.1729) 4;
    mkLocation "Mumbai" 19.0760 72.8777 4;
    mkLocation "New Delhi" 28.6139 77.2090 4;
    mkLocation "Beijing" 39.9042 116.4074 4;
    mkLocation "Moscow" 55.7558 37.6176 4;
    mkLocation "Cairo" 30.0444 31.2357 4;
    mkLocation "Los Angeles" 34.0522 (-118.2437) 4;
    mkLocation "Berlin" 52.5200 13.4050 4;
    mkLocation "Rome" 41.9028 12.4964 4;
    mkLocation "Madrid" 40.4168 (-3.7038) 4 ].

Definition towns : list Location :=
  [ mkLocation "Cambridge" 52.2053 0.1218 3.5;
    mkLocation "Princeton" 40.3573 (-74.6672) 3.5;
    mkLocation "Heidelberg" 49.3988 8.6724 3.5;
    mkLocation "Kyoto" 35.0116 135.7681 3.5;
    mkLocation "Bruges" 51.2093 3.2247 3.5;
    mkLocation "Salzburg" 47.8095 13.0550 3.5 ].

(** Get visible locations based on camera distance (zoom level) *)
Definition getVisibleLocations (cameraDistance : Q) : list Location :=
  let locations := [] in
  let locations :=
    if Qle_bool cameraDistance 8 then (locations ++ continents)%list
    else locations in
  let locations :=
    if Qle_bool cameraDistance 6 then (locations ++ countries)%list
    else locations in
  let locations :=
    if Qle_bool cameraDistance 4 then (locations ++ cities)%list
    else locations in
  let locations :=
    if Qle_bool cameraDistance 3.5 then (locations ++ towns)%list
    else locations in
  filter (fun loc => Qle_bool cameraDistance (minZoom loc)) locations.

End Earth.

(** ** The data source banner: [DataSourceIndicator] *)

Module DataSourceIndicator.
Import JS Types.
Local Open Scope string_scope.

Inductive Status : Type := real | simulated | hybrid.

Record DataSource : Type := mkDataSource {
  name : string;
  status : Status;
  description : string;
  provider : option string;
  api_endpoint : option string;
  last_updated : option DateText
}.

Definition is_real (ds : DataSource) : bool :=
  match status ds with real => true | _ => false end.

(** The badge and the overall status alert of the card. *)
Record View : Type := mkView {
  badge_class : string;
  badge_real : nat;             (* "{realDataCount}/{totalSources} Real" *)
  badge_total : nat;
  alert_class : string;
  alert_text : string;
  sources : list DataSource
}.

Definition DataSourceIndicator (dataSources : list DataSource) : View :=
  let realDataCount := List.length (filter is_real dataSources) in
  let totalSources := List.length dataSources in
  {| badge_class :=
       if (realDataCount =? totalSources)%nat
       then "bg-green-500/20 text-green-400 border-green-500/30"
       else if (0 <? realDataCount)%nat
       then "bg-orange-500/20 text-orange-400 border-orange-500/30"
       else "bg-yellow-500/20 text-yellow-400 border-yellow-500/30";
     badge_real := realDataCount;
     badge_total := totalSources;
     alert_class :=
       if (realDataCount =? totalSources)%nat
       then "border-green-500/30 bg-green-500/5"
       else if (0 <? realDataCount)%nat
       then "border-orange-500/30 bg-orange-500/5"
       else "border-yellow-500/30 bg-yellow-500/5";
     alert_text :=
       if (realDataCount =? totalSources)%nat
       then "All data sources are providing real-time information"
       else if (0 <? realDataCount)%nat
       then "Mixed data sources: Some real-time, some simulated for demonstration"
       else "Demo mode: All data is simulated based on realistic climatological patterns";
     sources := dataSources |}.

(** Default data sources for the app; [now] is the clock when the module
    is loaded. *)
Definition APP_DATA_SOURCES (now : Z) : list DataSource :=
  [ {| name := "Current Weather";
       status := real;
       description :=
         "Real-time weather conditions from meteorological stations";
       provider := Some "Open-Meteo (ECMWF)";
       api_endpoint := Some "api.open-meteo.com/v1/forecast";
       last_updated := Some (IsoInstant now) |};
    {| name := "Historical Temperature Analysis";
       status := real;
       description := "Daily temperature from NASA POWER (T2M)";
       provider := Some "NASA POWER";
       api_endpoint := Some "power.larc.nasa.gov/api/temporal/daily/point";
       last_updated := None |};
    {| name := "Precipitation Probabilities";
       status := real;
       description := "Daily precipitation from NASA POWER (PRECTOTCORR)";
       provider := Some "NASA POWER";
       api_endpoint := Some "power.larc.nasa.gov/api/temporal/daily/point";
       last_updated := None |};
    {| name := "Wind Speed Analysis";
       status := real;
       description := "Daily 10m wind speed from NASA POWER (WS10M)";
       provider := Some "NASA POWER";
       api_endpoint := Some "power.larc.nasa.gov/api/temporal/daily/point";
       last_updated := None |} ].

End DataSourceIndicator.

(** ** The dashboard: what it shows and [handleExportJSON] *)

Module WeatherDashboardView.
Import JS Types.
Local Open Scope Q_scope.
Local Open Scope string_scope.

Record Verdict : Type := mkVerdict { text : string; color : string }.

(** [Math.max] of four numbers. *)
Definition Math_max4 (a b c d : Q) : Q :=
  Math_max (Math_max (Math_max a b) c) d.

Definition getWeatherVerdict (weatherData : WeatherDashboard.WeatherData)
  : Verdict :=
  let highestProb :=
    Math_max4
      (WeatherDashboard.metric_probability
         (WeatherDashboard.temperature weatherData))
      (WeatherDashboard.metric_probability
         (WeatherDashboard.precipitation weatherData))
      (WeatherDashboard.metric_probability
         (WeatherDashboard.wind weatherData))
      (WeatherDashboard.metric_probability
         (WeatherDashboard.humidity weatherData)) in
  if Q_lt highestProb 20
  then {| text := "Excellent conditions"; color := "text-green-500" |}
  else if Q_lt highestProb 40
  then {| text := "Good conditions"; color := "text-weather-sunny" |}
  else if Q_lt highestProb 60
  then {| text := "Fair conditions"; color := "text-yellow-500" |}
  else {| text := "Challenging conditions"; color := "text-weather-hot" |}.

(** The top of the dashboard: the data source banner, the verdict and
    the comfort score. *)
Record Header : Type := mkHeader {
  banner : DataSourceIndicator.View;
  verdict : Verdict;
  comfort_score_shown : Q
}.

(** The component, for the clock [loaded] at which [APP_DATA_SOURCES] was
    built. *)
Definition WeatherDashboard (loaded : Z)
    (data : option WeatherDashboard.WeatherData)
    (analysisData : option WeatherAnalysisResponse) : Header :=
  let weatherData :=
    match data with
    | Some d => d
    | None => WeatherDashboard.demoData
    end in
  {| banner :=
       DataSourceIndicator.DataSourceIndicator
         (DataSourceIndicator.APP_DATA_SOURCES loaded);
     verdict := getWeatherVerdict weatherData;
     comfort_score_shown := WeatherDashboard.comfortScore weatherData |}.

(** The [analysis] object of the JSON export; [data_sources] and
    [citation] are two constants and are left out, as is the name of the
    download. *)
Record ExportJson : Type := mkExportJson {
  export_name : string;
  export_latitude : Q;
  export_longitude : Q;
  export_event_date : IsoDate;
  export_comfort_index : Q;
  export_probabilities : list WeatherProbability;
  export_alternative_dates : list AlternativeDate;
  export_metadata : Metadata
}.

Definition handleExportJSON (now : Z) (location : Place) (date : Date)
    (data : option WeatherDashboard.WeatherData)
    (analysisData : option WeatherAnalysisResponse) : outcome ExportJson :=
  let weatherData :=
    match data with
    | Some d => d
    | None => WeatherDashboard.demoData
    end in
  match toISODate date with
  | Throw e => Throw e
  | Normal event_date =>
      Normal
        {| export_name := name_or (name location) "Selected Location";
           export_latitude := place_lat location;
           export_longitude := place_lng location;
           export_event_date := event_date;
           export_comfort_index :=
             (* [analysisData?.comfort_index || weatherData.comfortScore] *)
             match analysisData with
             | Some a =>
                 if Qeq_bool (comfort_index a) 0
                 then WeatherDashboard.comfortScore weatherData
                 else comfort_index a
             | None => WeatherDashboard.comfortScore weatherData
             end;
           export_probabilities :=
             match analysisData with
             | Some a => probabilities a
             | None => []
             end;
           export_alternative_dates :=
             match analysisData with
             | Some a => alternative_dates a
             | None => []
             end;
           export_metadata :=
             match analysisData with
             | Some a => metadata a
             | None => WeatherDashboard.defaultMetadata now
             end |}
  end.

End WeatherDashboardView.

(** ** The weather widget: [getWindDirection]

    In doubles ([Binary64]): the quotient by 22.5 is rounded before
    [Math.round] sees it. *)

Module CurrentWeatherWidget.
Local Open Scope string_scope.

Definition directions : list string :=
  [ "N"; "NNE"; "NE"; "ENE"; "E"; "ESE"; "SE"; "SSE";
    "S"; "SSW"; "SW"; "WSW"; "W"; "WNW"; "NW"; "NNW" ].

(** [directions[Math.round(degrees / 22.5) % 16]]: the remainder has the
    sign of the rounded quotient, and an index that is below zero or not
    a number finds nothing ([undefined], here [None]). *)
Definition getWindDirection (degrees : Binary64.number) : option string :=
  Binary64.index directions
    (Binary64.rem
       (Binary64.Math_round (Binary64.div degrees (Binary64.literal 22.5)))
       (Binary64.Finite 16)).

End CurrentWeatherWidget.

(** ** Clicks on the flat globe and on the static map: [handleGlobeClick]
    of [Globe3D] and [handleMapClick] of [MapView] *)

Module Globe3D.
Import JS Types.
Local Open Scope Q_scope.

(** [getBoundingClientRect()] of the element that is clicked. *)
Record Rect : Type := mkRect { left : Q; top : Q; width : Q; height : Q }.

(** The coordinates that the click hands to [onLocationSelect].  (For an
    element without area the source divides by zero; such an element
    cannot be clicked.) *)
Definition handleGlobeClick (rect : Rect) (clientX clientY : Q) : LatLng :=
  let x := (clientX - left rect) / width rect in
  let y := (clientY - top rect) / height rect in
  (* Convert to lat/lng (simplified) *)
  let lat := (0.5 - y) * 180 in
  let lng := (x - 0.5) * 360 in
  {| Types.lat := lat; Types.lng := lng |}.

(** [MapView] has the same handler. *)
Definition handleMapClick : Rect -> Q -> Q -> LatLng := handleGlobeClick.

End Globe3D.

(** ** The controls of the 2D map

    The zoom buttons, the handlers that move the map, the two clicks
    that draw an area and the button that analyses it. *)

Module Map2DControls.
Import JS Types.
Local Open Scope Q_scope.

Inductive MapType : Type := normal | satellite.

Record Point : Type := mkPoint { x : Q; y : Q }.

Record Controls : Type := mkControls {
  mapType : MapType;
  zoom : Q;
  drawMode : bool;
  polygonPoints : list Point;
  alerts : list string
}.

(** [useState] of the component. *)
Definition initial : Controls :=
  {| mapType := normal; zoom := 2; drawMode := false;
     polygonPoints := []; alerts := [] |}.

Inductive Event : Type :=
  | ZoomIn                        (* the "+" button *)
  | ZoomOut                       (* the "-" button *)
  | LocationShown                 (* a location is selected or found *)
  | GpsFix                        (* [getCurrentLocation] succeeds *)
  | IpFix                         (* its fallback by IP address *)
  | SetMapType (t : MapType)
  | ToggleDraw                    (* the "Draw Area" button *)
  | OverlayClick (p : Point)      (* a click on the drawing overlay *)
  | AnalyzeArea.                  (* the "Analyze Area" button *)

Definition setZoom (z : Q) (c : Controls) : Controls :=
  mkControls (mapType c) z (drawMode c) (polygonPoints c) (alerts c).

Definition handle (e : Event) (c : Controls) : Controls :=
  match e with
  | ZoomIn => setZoom (Math_min (zoom c + 1) 18) c
  | ZoomOut => setZoom (Math_max (zoom c - 1) 1) c
  | LocationShown => setZoom 10 c
  | GpsFix => setZoom 12 c
  | IpFix => setZoom 8 c
  | SetMapType t =>
      mkControls t (zoom c) (drawMode c) (polygonPoints c) (alerts c)
  | ToggleDraw =>
      match mapType c with
      | normal =>
          mkControls (mapType c) (zoom c) (negb (drawMode c)) [] (alerts c)
      | satellite =>
          mkControls (mapType c) (zoom c) (drawMode c) (polygonPoints c)
            (alerts c ++ ["Switch to Normal map to draw area."%string])
      end
  | OverlayClick p =>
      (* the overlay is rendered on the normal map in draw mode only *)
      match mapType c, drawMode c with
      | normal, true =>
          let prev := polygonPoints c in
          mkControls (mapType c) (zoom c) (drawMode c)
            (if (2 <=? List.length prev)%nat then [p] else prev ++ [p])
            (alerts c)
      | _, _ => c
      end
  | AnalyzeArea =>
      (* the button is rendered once two points are set; of the controls
         its handler changes the draw mode only *)
      if (2 <=? List.length (polygonPoints c))%nat
      then mkControls (mapType c) (zoom c) false (polygonPoints c)
             (alerts c)
      else c
  end.

(** The [z] parameter of the embedded satellite map. *)
Definition satelliteZoom (c : Controls) : Q :=
  Math_max 10 (Math_min (zoom c + 8) 20).

End Map2DControls.

(** ** Coordinates as text: [formatCoordinates] and [parseCoordinates]

    [Earth3DGlobe.tsx] and [Map2D.tsx] have the same two functions; they
    differ in the text between a number and its direction letter, the
    degree sign in the first file and the five bytes that stand in its
    place in the second.  A string is the sequence of its UTF-8 bytes. *)

Module Coordinates.
Import JS Types.
Local Open Scope Q_scope.
Local Open Scope string_scope.

(** *** Digits *)

(** [\d]. *)
Definition is_digit (c : ascii) : bool :=
  (48 <=? nat_of_ascii c)%nat && (nat_of_ascii c <=? 57)%nat.

Definition digit_value (c : ascii) : Z :=
  (Z.of_nat (nat_of_ascii c) - 48)%Z.

Definition digit_char (d : Z) : ascii :=
  ascii_of_nat (Z.to_nat (48 + d)%Z).

(** The longest prefix of digits, and what follows it. *)
Fixpoint span_digits (s : string) : string * string :=
  match s with
  | String c rest =>
      if is_digit c
      then let (digits, rest') := span_digits rest in
           (String c digits, rest')
      else (EmptyString, s)
  | EmptyString => (EmptyString, EmptyString)
  end.

(** The number that a text of digits denotes, read after [acc]. *)
Fixpoint decimal_value (acc : Z) (digits : string) : Z :=
  match digits with
  | String c rest => decimal_value (10 * acc + digit_value c)%Z rest
  | EmptyString => acc
  end.

(** The decimal digits of [n >= 0], most significant first; [fuel] bounds
    their number. *)
Fixpoint decimal_digits (fuel : nat) (n : Z) : string :=
  match fuel with
  | O => EmptyString
  | S fuel =>
      (if (n <? 10)%Z then EmptyString else decimal_digits fuel (n / 10)%Z)
      ++ String (digit_char (n mod 10)%Z) EmptyString
  end.

(** The decimal representation of an integer [n >= 0]. *)
Definition decimal (n : Z) : string :=
  decimal_digits (S (Z.to_nat (Z.log2 n))) n.

(** [s] with zeros in front, up to [width] characters. *)
Fixpoint pad_zeros (width : nat) (s : string) : string :=
  match (width - String.length s)%nat with
  | O => s
  | S _ =>
      match width with
      | O => s
      | S width' => "0" ++ pad_zeros width' s
      end
  end.

(** [x.toFixed(fractionDigits)] for [0 <= x < 1e21]: the integer [n]
    nearest to [x * 10^fractionDigits], the larger one on a tie, printed
    with a point before its last [fractionDigits] digits.  Below zero the
    sign comes first; from 1e21 on the source switches to exponents,
    which is not modelled. *)
Definition toFixed (fractionDigits : nat) (x : Q) : string :=
  let scale := (10 ^ Z.of_nat fractionDigits)%Z in
  let n := Qfloor (Qabs x * inject_Z scale + (1 # 2)) in
  let whole := decimal (n / scale)%Z in
  let sign := if Q_lt x 0 then "-" else "" in
  match fractionDigits with
  | O => sign ++ whole
  | S _ =>
      sign ++ whole ++ "."
      ++ pad_zeros fractionDigits (decimal (n mod scale)%Z)
  end.

(** [parseFloat] of a decimal literal, the only texts that the regular
    expressions below capture: an optional minus sign, digits, and
    possibly a point and more digits. *)
Definition parseFloat (literal : string) : Q :=
  let (negative, unsigned) :=
    match literal with
    | String "-" rest => (true, rest)
    | _ => (false, literal)
    end in
  let (whole, rest) := span_digits unsigned in
  let fraction :=
    match rest with
    | String "." rest' => fst (span_digits rest')
    | _ => EmptyString
    end in
  let magnitude :=
    inject_Z (decimal_value 0 whole)
    + inject_Z (decimal_value 0 fraction)
      / inject_Z (10 ^ Z.of_nat (String.length fraction)) in
  if negative then - magnitude else magnitude.

(** *** White space *)

(** The white space and line terminators of the language within ASCII:
    tab, line feed, vertical tab, form feed, carriage return, space. *)
Definition is_space (c : ascii) : bool :=
  let n := nat_of_ascii c in
  ((9 <=? n) && (n <=? 13) || (n =? 32))%nat.

(** Those beyond ASCII, by their UTF-8 bytes: U+00A0; U+1680, U+2000 to
    U+200A, U+2028, U+2029, U+202F, U+205F, U+3000 and U+FEFF. *)
Definition is_space2 (a b : ascii) : bool :=
  ((nat_of_ascii a =? 194) && (nat_of_ascii b =? 160))%nat.

Definition is_space3 (a b c : ascii) : bool :=
  let a := nat_of_ascii a in
  let b := nat_of_ascii b in
  let c := nat_of_ascii c in
  ((a =? 225) && (b =? 154) && (c =? 128)
   || (a =? 226) && (b =? 128)
      && ((128 <=? c) && (c <=? 138) || (c =? 168) || (c =? 169)
          || (c =? 175))
   || (a =? 226) && (b =? 129) && (c =? 159)
   || (a =? 227) && (b =? 128) && (c =? 128)
   || (a =? 239) && (b =? 187) && (c =? 191))%nat.

(** [\s*] at the start of [s]: what is left. *)
Fixpoint skip_spaces (s : string) : string :=
  match s with
  | String a r1 =>
      if is_space a then skip_spaces r1
      else
        match r1 with
        | String b r2 =>
            if is_space2 a b then skip_spaces r2
            else
              match r2 with
              | String c r3 =>
                  if is_space3 a b c then skip_spaces r3 else s
              | EmptyString => s
              end
        | EmptyString => s
        end
  | EmptyString => s
  end.

(** [s.trimEnd()]: a tail that is white space only is cut off. *)
Fixpoint trimEnd (s : string) : string :=
  match s with
  | String c rest =>
      match skip_spaces s with
      | EmptyString => EmptyString
      | _ => String c (trimEnd rest)
      end
  | EmptyString => EmptyString
  end.

(** [s.trim()]. *)
Definition trim (s : string) : string := trimEnd (skip_spaces s).

(** *** The three formats *)

(** The group [-?\d+\.?\d*] at the start of [s], or the group without
    its sign: the text captured and what follows it.  Every part takes
    as much as it can, and none of the expressions below can match by
    taking less: what follows a number in them is never a digit or a
    point.  Below, SIGNED and UNSIGNED stand for the two groups. *)
Definition number (signed : bool) (s : string) : option (string * string) :=
  let (sign, unsigned) :=
    match signed, s with
    | true, String "-" rest => ("-", rest)
    | _, _ => ("", s)
    end in
  let (whole, rest) := span_digits unsigned in
  match whole with
  | EmptyString => None
  | _ =>
      match rest with
      | String "." rest' =>
          let (fraction, rest'') := span_digits rest' in
          Some (sign ++ whole ++ "." ++ fraction, rest'')
      | _ => Some (sign ++ whole, rest)
      end
  end.

(** [s] without the prefix [p], if it starts with [p]. *)
Fixpoint after_prefix (p s : string) : option string :=
  match p, s with
  | EmptyString, _ => Some s
  | String a p', String b s' =>
      if Ascii.eqb a b then after_prefix p' s' else None
  | String _ _, EmptyString => None
  end.

(** One character of [letters], in either case ([[NS]] under the [i]
    flag): the character and what follows. *)
Definition letter_of (letters : string) (s : string)
  : option (ascii * string) :=
  match s with
  | String c rest =>
      if includes (String c EmptyString) letters then Some (c, rest)
      else None
  | EmptyString => None
  end.

(** [c.toUpperCase() === upper] for an ASCII letter [upper]. *)
Definition is_letter (upper : ascii) (c : ascii) : bool :=
  Ascii.eqb c upper
  || Ascii.eqb c (ascii_of_nat (nat_of_ascii upper + 32)).

Section Degree.

(** The text between a number and its direction letter. *)
Variable degree : string.

Record Formatted : Type := mkFormatted {
  formatted : string;
  lat_text : string;
  lng_text : string
}.

(** Format coordinates with proper N/S/E/W directions *)
Definition formatCoordinates (lat lng : Q) : Formatted :=
  let latDirection := if Qle_bool 0 lat then "N" else "S" in
  let lngDirection := if Qle_bool 0 lng then "E" else "W" in
  let latAbs := toFixed 4 (Math_abs lat) in
  let lngAbs := toFixed 4 (Math_abs lng) in
  {| formatted :=
       latAbs ++ degree ++ latDirection ++ ", "
       ++ lngAbs ++ degree ++ lngDirection;
     lat_text := latAbs ++ degree ++ latDirection;
     lng_text := lngAbs ++ degree ++ lngDirection |}.

(** [/^SIGNED,\s*SIGNED$/]: the two captures. *)
Definition basicCoords (s : string) : option (string * string) :=
  match number true s with
  | Some (first, String "," rest) =>
      match number true (skip_spaces rest) with
      | Some (second, EmptyString) => Some (first, second)
      | _ => None
      end
  | _ => None
  end.

(** [/^UNSIGNED°([NS]),\s*UNSIGNED°([EW])$/i]: the four captures. *)
Definition degreesCoords (s : string)
  : option (string * ascii * string * ascii) :=
  match number false s with
  | Some (first, rest) =>
      match after_prefix degree rest with
      | Some rest =>
          match letter_of "NSns" rest with
          | Some (ns, String "," rest) =>
              match number false (skip_spaces rest) with
              | Some (second, rest) =>
                  match after_prefix degree rest with
                  | Some rest =>
                      match letter_of "EWew" rest with
                      | Some (ew, EmptyString) =>
                          Some (first, ns, second, ew)
                      | _ => None
                      end
                  | None => None
                  end
              | None => None
              end
          | _ => None
          end
      | None => None
      end
  | None => None
  end.

(** [/^SIGNED\s+SIGNED$/]: the two captures. *)
Definition spaceCoords (s : string) : option (string * string) :=
  match number true s with
  | Some (first, rest) =>
      if (String.length (skip_spaces rest) <? String.length rest)%nat
      then match number true (skip_spaces rest) with
           | Some (second, EmptyString) => Some (first, second)
           | _ => None
           end
      else None
  | None => None
  end.

Definition parseCoordinates (query : string) : option LatLng :=
  let trimmed := trim query in
  match basicCoords trimmed with
  | Some (first, second) =>
      (* Format 1: "lat, lng" *)
      Some {| lat := parseFloat first; lng := parseFloat second |}
  | None =>
      match degreesCoords trimmed with
      | Some (first, ns, second, ew) =>
          (* Format 2: "lat°N/S, lng°E/W" *)
          let lat := parseFloat first in
          let lng := parseFloat second in
          Some {| lat := if is_letter "S" ns then - lat else lat;
                  lng := if is_letter "W" ew then - lng else lng |}
      | None =>
          match spaceCoords trimmed with
          | Some (first, second) =>
              (* Format 3: two numbers separated by space *)
              Some {| lat := parseFloat first; lng := parseFloat second |}
          | None => None
          end
      end
  end.

End Degree.

(** The degree sign as each file has it. *)
Definition degree_of_Earth3DGlobe : string := "°".
Definition degree_of_Map2D : string := "¬∞".

End Coordinates.

(** ** The search box of the 2D map: [handleSearch] *)

Module Map2DSearch.
Import JS Effects Types.
Local Open Scope Q_scope.
Local Open Scope string_scope.

(** The state that [handleSearch] writes, the alerts it raises and the
    calls of [onLocationSelect] it makes. *)
Record SearchState : Type := mkSearchState {
  searchQuery : string;
  isSearching : bool;
  center : LatLng;
  zoom : Q;
  alerts : list string;
  selected : list Place
}.

Definition setZoom (z : Q) (s : SearchState) : SearchState :=
  mkSearchState (searchQuery s) (isSearching s) (center s) z (alerts s)
                (selected s).




Section Environment.

(** What the two calls of [GEOCODING_API] resolve to: the [name] of the
    place found by [reverseGeocode], the place found by [geocode]; [None]
    is [null]. *)
Variable reverseGeocode : Q -> Q -> outcome (option string).
Variable geocode : string -> outcome (option (LatLng * string)).

Definition parseCoordinates : string -> option LatLng :=
  Coordinates.parseCoordinates Coordinates.degree_of_Map2D.

Definition formatCoordinates : Q -> Q -> Coordinates.Formatted :=
  Coordinates.formatCoordinates Coordinates.degree_of_Map2D.


End Environment.

End Map2DSearch.

(** ** The decade chart: [generateDecadeData] of [TrendAnalysis] *)

Module TrendAnalysis.
Import JS Effects Types.
Local Open Scope Q_scope.
Local Open Scope string_scope.

Inductive Metric : Type := temperature | precipitation | wind | humidity.

Inductive Direction : Type := up | down | stable.

Inductive Significance : Type := high | moderate | low.

Record DecadeData : Type := mkDecadeData {
  decade : string;
  probability : Q;
  years : string;
  trend_direction : Direction;
  significance : Significance
}.

(** An entry of [decades]. *)
Record Decade : Type := mkDecade {
  decade_name : string;
  decade_years : string;
  baseProb : Q
}.

(** The test of [probabilities.find]. *)
Definition selected (selectedMetric : Metric) (p : WeatherProbability)
  : bool :=
  match selectedMetric with
  | temperature => includes "Hot" (condition p)
  | precipitation => includes "Rain" (condition p)
  | wind => includes "Wind" (condition p)
  | humidity => includes "Humidity" (condition p)
  end.

(** [probabilities.find(...)?.probability || 0]. *)
Definition currentProb (probabilities : list WeatherProbability)
    (selectedMetric : Metric) : Q :=
  match find (selected selectedMetric) probabilities with
  | Some p =>
      if Qeq_bool (Types.probability p) 0 then 0 else Types.probability p
  | None => 0
  end.

Definition decades (currentProb : Q) : list Decade :=
  [ mkDecade "1990s" "1990-1999" (currentProb * 0.7);
    mkDecade "2000s" "2000-2009" (currentProb * 0.85);
    mkDecade "2010s" "2010-2019" (currentProb * 0.95);
    mkDecade "2020s" "2020-2024" currentProb ].

(** [l.map((a, index) => f(a, index))] for a callback with effects: the
    entries are visited in order. *)
Fixpoint map_with_index {Req St A B : Type} (f : A -> nat -> M Req St B)
    (l : list A) (index : nat) : M Req St (list B) :=
  match l with
  | [] => ret []
  | a :: rest =>
      b <- f a index ;;
      bs <- map_with_index f rest (S index) ;;
      ret (b :: bs)
  end.

Section Environment.

Variable draws : nat -> Q.                 (* what [Math.random()] returns *)

(** The callback of [decades.map]. *)
Definition decade_entry {Req St : Type} (decades : list Decade)
    (decade : Decade) (index : nat) : M Req St DecadeData :=
  (* Add some realistic variation and trend *)
  r <- Math_random draws ;;
  let variation := (r - 0.5) * 10 in
  let probability :=
    Math_max 0 (Math_min 100 (baseProb decade + variation)) in
  (* Determine trend direction *)
  let trend_direction :=
    match index with
    | O => stable
    | S previous =>
        let prevProb :=
          baseProb (nth previous decades (mkDecade "" "" 0)) in
        let diff := probability - prevProb in
        if Q_gt (Math_abs diff) 5
        then if Q_gt diff 0 then up else down
        else stable
    end in
  (* Determine significance based on p-value simulation *)
  r1 <- Math_random draws ;;
  significance <-
    (if Q_gt r1 0.7 then ret high
     else r2 <- Math_random draws ;;
          ret (if Q_gt r2 0.4 then moderate else low)) ;;
  ret {| decade := decade_name decade;
         probability := Math_round (probability * 10) / 10;
         years := decade_years decade;
         trend_direction := trend_direction;
         significance := significance |}.

Definition generateDecadeData {Req St : Type}
    (probabilities : list WeatherProbability) (selectedMetric : Metric)
  : M Req St (list DecadeData) :=
  let currentProb := currentProb probabilities selectedMetric in
  let decades := decades currentProb in
  map_with_index (decade_entry decades) decades 0.

End Environment.

End TrendAnalysis.

(** ** Notions that the statements about this code use *)

Module Notions.
Import JS Types.
Local Open Scope string_scope.


(** The whole table of [GEOGRAPHIC_DATA]. *)
Definition all_locations : list Earth.Location :=
  (Earth.continents ++ Earth.countries ++ Earth.cities
   ++ Earth.towns)%list.

(** The verdicts of the dashboard, from best to worst. *)
Definition severity (v : WeatherDashboardView.Verdict) : nat :=
  if WeatherDashboardView.text v =? "Excellent conditions" then 0
  else if WeatherDashboardView.text v =? "Good conditions" then 1
  else if WeatherDashboardView.text v =? "Fair conditions" then 2
  else 3.

(** The state of the controls of the 2D map after a sequence of events. *)
Definition controls_after (events : list Map2DControls.Event)
  : Map2DControls.Controls :=
  fold_left (fun c e => Map2DControls.handle e c) events
            Map2DControls.initial.


(** A decimal text [whole.fraction]. *)
Definition point_text (whole fraction : string) : string :=
  whole ++ "." ++ fraction.

(** A character of ASCII that is not white space. *)
Definition plain_char (c : ascii) : Prop :=
  Coordinates.is_space c = false /\ (nat_of_ascii c < 128)%nat.

(** A text of digits only. *)
Fixpoint all_digits (s : string) : bool :=
  match s with
  | String c rest => Coordinates.is_digit c && all_digits rest
  | EmptyString => true
  end.

(** A text that does not go on with a digit. *)
Definition no_digit_ahead (s : string) : Prop :=
  match s with
  | String c _ => Coordinates.is_digit c = false
  | EmptyString => True
  end.

(** A degree sign that cannot be taken for a part of a number or for the
    comma of the first format: it does not start with a digit or a
    comma. *)
Definition plain_degree (degree : string) : Prop :=
  match degree with
  | String c _ => Coordinates.is_digit c = false /\ c <> ","%char
  | EmptyString => True
  end.

(** [x] rounded to four decimals, halves away from zero: what
    [formatCoordinates] prints of a coordinate. *)
Definition rounded4 (x : Q) : Q :=
  let magnitude :=
    (inject_Z (Qfloor (Qabs x * 10000 + (1 # 2))) / 10000)%Q in
  if Qle_bool 0 x then magnitude else (- magnitude)%Q.

(** What every event on the 2D map keeps. *)
Definition controls_ok (c : Map2DControls.Controls) : Prop :=
  (1 <= Map2DControls.zoom c <= 18)%Q
  /\ (List.length (Map2DControls.polygonPoints c) <= 2)%nat
  /\ (Map2DControls.drawMode c = false ->
      Map2DControls.polygonPoints c = []
      \/ List.length (Map2DControls.polygonPoints c) = 2%nat).

End Notions.

(** ** Inputs of the examples for the code around the analysis *)

Module Scenes.
Import JS Effects Types Json.
Local Open Scope Q_scope.
Local Open Scope string_scope.

(** A day in 2026, after the Meteomatics cutoff, and the last second
    before the cutoff. *)
Definition after_cutoff : Z := 1780000000000.

Definition plainText : Z -> string := fun _ => "2025-10-12T23:59:59.000Z".
Definition identity : string -> string := fun s => s.

(** No weather service answers. *)
Definition no_weather_service
  : string -> option string -> outcome (Response AutoWeather.WeatherJson) :=
  fun _ _ => Throw (Rejected "Failed to fetch").





(** An analysis whose comfort index is 0. *)
Definition worst_case : WeatherAnalysisResponse :=
  {| location := {| lat := 28.61; lng := 77.21 |};
     event_date := mkIsoDate 2025 7 4;
     comfort_index := 0;
     probabilities :=
       [ mkWeatherProbability "Very Hot" 100 ">32°C" increasing 0.9 35
           0.1 0.01 ];
     alternative_dates := [];
     metadata :=
       {| datasets_used := ["NASA POWER"];
          years_analyzed := Some "1990-2024";
          analysis_date := None;
          confidence_level := Some "High";
          data_window := None;
          note := None |} |}.

(** A clickable element of 384 by 384 pixels at (100, 50). *)
Definition globe_element : Globe3D.Rect :=
  {| Globe3D.left := 100; Globe3D.top := 50;
     Globe3D.width := 384; Globe3D.height := 384 |}.


Definition fresh_hook : World (option string) AutoWeather.HookState :=
  mkWorld [] 0 []
    {| AutoWeather.weatherType := AutoWeather.clear;
       AutoWeather.isLoading := false;
       AutoWeather.error := None;
       AutoWeather.lastUpdate := None |}.

End Scenes.
(** * Properties *)

Unset Implicit Arguments.

Import JS Effects Types.
Local Open Scope Q_scope.

(** ** Rounding and clamping *)

Lemma Math_round_inject_Z (n : Z) : Math_round (inject_Z n) = inject_Z n.
Proof.
  unfold Math_round. f_equal.
  apply Z.le_antisymm.
  - assert (H : inject_Z n + (1 # 2) < inject_Z (n + 1)).
    { rewrite inject_Z_plus. change (inject_Z 1) with 1. lra. }
    pose proof (Qfloor_le (inject_Z n + (1 # 2))) as Hf.
    assert (Hlt : inject_Z (Qfloor (inject_Z n + (1 # 2)))
                  < inject_Z (n + 1)) by lra.
    rewrite <- Zlt_Qlt in Hlt. lia.
  - rewrite <- (Qfloor_Z n) at 1. apply Qfloor_resp_le. lra.
Qed.

Lemma Math_round_mono (x y : Q) : x <= y -> Math_round x <= Math_round y.
Proof.
  intros H. unfold Math_round. rewrite <- Zle_Qle.
  apply Qfloor_resp_le. lra.
Qed.

Lemma Math_round_between (a b : Z) (x : Q) :
  inject_Z a <= x <= inject_Z b ->
  inject_Z a <= Math_round x <= inject_Z b.
Proof.
  intros [Ha Hb]. split.
  - rewrite <- (Math_round_inject_Z a). now apply Math_round_mono.
  - rewrite <- (Math_round_inject_Z b). now apply Math_round_mono.
Qed.

Lemma Math_round_comp (x y : Q) : x == y -> Math_round x = Math_round y.
Proof.
  intros H. unfold Math_round. f_equal. apply Qfloor_comp. now rewrite H.
Qed.

Lemma clamp_percent (x : Q) : Spec.percent (Spec.clamp x).
Proof.
  unfold Spec.percent, Spec.clamp. split.
  - apply Q.le_max_l.
  - apply Q.max_lub; [lra | apply Q.le_min_l].
Qed.

Lemma Math_round_clamp (x : Q) :
  Math_round (Spec.clamp x) == Spec.clamp (Math_round x).
Proof.
  unfold Spec.clamp.
  destruct (Qlt_le_dec x 0) as [Hneg | Hpos].
  - assert (Hr : Math_round x <= 0).
    { exact (Math_round_mono x 0 (Qlt_le_weak _ _ Hneg)). }
    rewrite (Math_round_comp _ 0).
    + symmetry. rewrite Q.max_l; [reflexivity|].
      apply Qle_trans with (Math_round x); [apply Q.le_min_r | exact Hr].
    + rewrite Q.max_l; [reflexivity|].
      apply Qle_trans with x; [apply Q.le_min_r | lra].
  - destruct (Qlt_le_dec 100 x) as [Hbig | Hsmall].
    + assert (Hr : 100 <= Math_round x).
      { exact (Math_round_mono 100 x (Qlt_le_weak _ _ Hbig)). }
      rewrite (Math_round_comp _ 100).
      * symmetry.
        rewrite (Q.min_l 100 (Math_round x)) by exact Hr.
        rewrite Q.max_r; [reflexivity | lra].
      * rewrite (Q.min_l 100 x) by lra.
        rewrite Q.max_r; [reflexivity | lra].
    + assert (Hr : 0 <= Math_round x <= 100).
      { apply (Math_round_between 0 100).
        split; [exact Hpos | exact Hsmall]. }
      rewrite (Math_round_comp _ x).
      * symmetry. rewrite (Q.min_r 100 (Math_round x)) by apply Hr.
        rewrite Q.max_r; [reflexivity | apply Hr].
      * rewrite (Q.min_r 100 x) by lra.
        rewrite Q.max_r; [reflexivity | lra].
Qed.

(** *** Sums *)

Lemma Qsum_map_ext {A : Type} (f g : A -> Q) (l : list A) :
  (forall a, In a l -> f a == g a) ->
  Spec.Qsum (map f l) == Spec.Qsum (map g l).
Proof.
  induction l as [| a l IH]; intros H; simpl.
  - reflexivity.
  - rewrite (H a) by now left.
    rewrite IH; [reflexivity |].
    intros b Hb. apply H. now right.
Qed.

Lemma fold_left_Qsum {A : Type} (g : A -> Q) (l : list A) (a : Q) :
  fold_left (fun acc x => acc + g x) l a == a + Spec.Qsum (map g l).
Proof.
  revert a. induction l as [| x l IH]; intros a; simpl.
  - ring.
  - rewrite IH. ring.
Qed.

Lemma clamp_comp (x y : Q) : x == y -> Spec.clamp x == Spec.clamp y.
Proof. intros H. unfold Spec.clamp. now rewrite H. Qed.

(** *** The globe's comfort index *)

Lemma globe_discomfort (ps : list Earth3DGlobe.WeatherProbability) :
  fold_left
    (fun discomfort prob =>
       discomfort
       + Earth3DGlobe.probability prob / 100
         * Earth3DGlobe.weight_of (Earth3DGlobe.condition prob))
    ps 0
  == Spec.Qsum
       (map (fun s => Earth3DGlobe.weight_of (Earth3DGlobe.condition s)
                      * (Earth3DGlobe.probability s / 100)) ps).
Proof.
  rewrite (fold_left_Qsum
             (fun prob =>
                Earth3DGlobe.probability prob / 100
                * Earth3DGlobe.weight_of (Earth3DGlobe.condition prob))).
  rewrite Qplus_0_l. apply Qsum_map_ext. intros a _. ring.
Qed.

Lemma globe_comfort_formula (ps : list Earth3DGlobe.WeatherProbability) :
  Earth3DGlobe.calculateComfortIndex ps
  == Spec.comfort_formula
       (fun s => Earth3DGlobe.weight_of (Earth3DGlobe.condition s)) ps.
Proof.
  unfold Earth3DGlobe.calculateComfortIndex, Spec.comfort_formula.
  cbv zeta.
  change (Math_max 0 (Math_min 100 ?x)) with (Spec.clamp x).
  rewrite Math_round_clamp. apply clamp_comp.
  rewrite (Math_round_comp _ (100 * (1 - Spec.Qsum
             (map (fun s => Earth3DGlobe.weight_of (Earth3DGlobe.condition s)
                            * (Earth3DGlobe.probability s / 100)) ps)))).
  - reflexivity.
  - rewrite globe_discomfort. ring.
Qed.

Lemma weight_of_default (c : string) :
  Earth3DGlobe.weights c = None -> Earth3DGlobe.weight_of c = 0.1.
Proof. intros H. unfold Earth3DGlobe.weight_of. now rewrite H. Qed.

Lemma weights_None (c : string) :
  c <> "Very Hot"%string -> c <> "Very Cold"%string ->
  c <> "Heavy Rain"%string -> c <> "Strong Wind"%string ->
  Earth3DGlobe.weights c = None.
Proof.
  intros H1 H2 H3 H4. unfold Earth3DGlobe.weights.
  apply String.eqb_neq in H1, H2, H3, H4.
  now rewrite H1, H2, H3, H4.
Qed.

(** ** The calendar *)

Section Calendar.
Local Open Scope Z_scope.

Lemma days_from_civil_from_days (z : Z) :
  days_from_civil (civil_from_days z) = z.
Proof.
  unfold days_from_civil, civil_from_days. cbv zeta. cbn [year month day].
  set (z' := z + 719468).
  set (era := z' / 146097).
  set (doe := z' mod 146097).
  assert (Hdoe : 0 <= doe < 146097) by (apply Z.mod_pos_bound; lia).
  assert (Hz : z' = 146097 * era + doe) by (apply Z.div_mod; lia).
  set (yoe := (doe - doe / 1460 + doe / 36524 - doe / 146096) / 365).
  assert (Hyoe : 0 <= yoe <= 399).
  { subst yoe. Z.div_mod_to_equations. lia. }
  set (doy := doe - (365 * yoe + yoe / 4 - yoe / 100)).
  assert (Hdoy : 0 <= doy <= 365).
  { subst doy yoe. Z.div_mod_to_equations. lia. }
  set (mp := (5 * doy + 2) / 153).
  assert (Hmp : 0 <= mp <= 11).
  { subst mp. Z.div_mod_to_equations. lia. }
  assert (Hy : forall y, y = yoe + era * 400 ->
                         y / 400 = era /\ y mod 400 = yoe).
  { intros y ->. split.
    - rewrite Z.div_add by lia. rewrite Z.div_small; lia.
    - rewrite Z.mod_add by lia. apply Z.mod_small. lia. }
  destruct (mp <? 10) eqn:E10.
  - apply Z.ltb_lt in E10.
    replace (mp + 3 <=? 2) with false by (symmetry; apply Z.leb_gt; lia).
    replace (mp + 3 >? 2) with true by (symmetry; apply Z.gtb_lt; lia).
    destruct (Hy _ eq_refl) as [-> ->].
    replace (mp + 3 - 3) with mp by lia.
    subst doy. lia.
  - apply Z.ltb_ge in E10.
    replace (mp - 9 <=? 2) with true by (symmetry; apply Z.leb_le; lia).
    replace (mp - 9 >? 2) with false
      by (symmetry; rewrite Z.gtb_ltb; apply Z.ltb_ge; lia).
    replace (yoe + era * 400 + 1 - 1) with (yoe + era * 400) by lia.
    destruct (Hy _ eq_refl) as [-> ->].
    replace (mp - 9 + 9) with mp by lia.
    subst doy. lia.
Qed.

Lemma civil_from_days_inj (a b : Z) :
  civil_from_days a = civil_from_days b -> a = b.
Proof.
  intros H. rewrite <- (days_from_civil_from_days a).
  rewrite H. apply days_from_civil_from_days.
Qed.

Lemma utcDay_plus_days (t k : Z) : utcDay (t + k * msPerDay) = utcDay t + k.
Proof. unfold utcDay. apply Z.div_add. unfold msPerDay. lia. Qed.

Lemma new_Date_in_range (t : Z) :
  Z.abs t <= maxTime -> new_Date (Some t) = DateOf t.
Proof.
  intros H. unfold new_Date.
  now replace (Z.abs t <=? maxTime) with true
    by (symmetry; now apply Z.leb_le).
Qed.

End Calendar.

(** ** The model on concrete inputs *)

Example civil_epoch : civil_from_days 0 = mkIsoDate 1970 1 1.
Proof. reflexivity. Qed.

Example civil_leap_day : civil_from_days 11016 = mkIsoDate 2000 2 29.
Proof. reflexivity. Qed.

Example civil_before_epoch : civil_from_days (-1) = mkIsoDate 1969 12 31.
Proof. reflexivity. Qed.

Example toISODate_july_4_2025 :
  toISODate Examples.july_4_2025 = Normal (mkIsoDate 2025 7 4).
Proof. reflexivity. Qed.

Example includes_Rain : includes "Rain" "Heavy Rain" = true.
Proof. reflexivity. Qed.

Example Math_round_half_up : Math_round 98.5 == 99 /\ Math_round (-0.5) == 0.
Proof. split; reflexivity. Qed.

(** New Delhi in July: 32.78 % very hot, 42.915 % very cold, 60 % heavy
    rain, 15 % strong wind, and a comfort index of 60. *)
Example local_probabilities_new_delhi :
  map (fun p => (Earth3DGlobe.condition p, Earth3DGlobe.probability p,
                 Earth3DGlobe.threshold p))
    (Earth3DGlobe.calculateWeatherProbabilitiesLocal
       Examples.wholeToString Examples.utc Examples.new_delhi
       Examples.july_4_2025 Examples.globe_thresholds)
  = [ ("Very Hot", 32.78, ">32°C"); ("Very Cold", 42.915, "<0°C");
      ("Heavy Rain", 60, ">5mm"); ("Strong Wind", 15, ">15m/s") ]%string.
Proof. vm_compute. reflexivity. Qed.

Example comfort_new_delhi :
  Earth3DGlobe.calculateComfortIndex
    (Earth3DGlobe.calculateWeatherProbabilitiesLocal
       Examples.wholeToString Examples.utc Examples.new_delhi
       Examples.july_4_2025 Examples.globe_thresholds) == 60.
Proof. reflexivity. Qed.

(** The classification of the specification on its own scenario, for a
    margin of 5: around a baseline of 60, 80 is [Better], 45 is [Risky]
    and 62 is [Monitor]. *)
Example classify_scenario :
  Spec.classify 5 60 80 = Better /\ Spec.classify 5 60 45 = Risky
  /\ Spec.classify 5 60 62 = Monitor.
Proof. repeat split. Qed.

(** Offline, the globe answers New Delhi with its local calculation and
    sends nothing when no backend is configured. *)
Example globe_offline_new_delhi :
  Earth3DGlobe.analyzeWeatherRisk "" Examples.wholeToString Examples.utc
    Examples.offline Examples.new_delhi Examples.july_4_2025
    Examples.globe_thresholds Examples.fresh_globe
  = (Normal (Earth3DGlobe.fallback Examples.wholeToString Examples.utc
               Examples.new_delhi Examples.july_4_2025
               Examples.globe_thresholds),
     mkWorld [] 0 ["Failed to fetch weather analysis from backend:"%string]
       tt).
Proof. reflexivity. Qed.

(** A triangle is sent with the request of the 2D map. *)
Example triangle_is_sent :
  map (fun r => polygon (snd r))
    (requests
       (snd (Map2D.analyzeWeatherRisk Examples.backend_url
               Examples.draws_low Examples.offline 28.61 77.21
               Examples.july_4_2025 None (Some Examples.triangle)
               Examples.fresh_map)))
  = [Some Examples.triangle].
Proof. reflexivity. Qed.

(** ** Runs of the asynchronous functions *)

(** A run is unfolded on a world given by its four components, so that
    each step leaves the components themselves and not projections of
    the world before. *)
Ltac unfold_run :=
  unfold try_catch_finally, try_catch, bind, ret, throw, lift,
         set_state, get_state, console_log, fetch, Math_random;
  cbn [requests random_calls console state].

Lemma unreachable_reply {Req Data : Type}
    (network : string -> Req -> outcome (Response Data))
    (url : string) (body : Req) (r : Response Data) :
  Spec.unreachable network -> network url body = Normal r ->
  ok r = false \/ exists e, json r = Throw e.
Proof. intros H E. specialize (H url body). now rewrite E in H. Qed.

(** When nothing is reachable, no request delivers anything. *)
Lemma unreachable_delivers_nothing {Req Data : Type}
    (network : string -> Req -> outcome (Response Data))
    (url : string) (body : Req) :
  Spec.unreachable network -> Spec.delivered network url body = None.
Proof.
  intros H. unfold Spec.delivered.
  destruct (network url body) as [r |] eqn:E; [| reflexivity].
  destruct (unreachable_reply _ _ _ _ H E) as [-> | [e He]];
    [reflexivity |].
  rewrite He. now destruct (ok r).
Qed.

(** *** The globe *)

Section GlobeRuns.

Variable BACKEND_URL : string.
Variable numberToString : Q -> string.
Variable LocalTZA : Z -> Z.
Variable network :
  string -> AnalyzeRequest -> outcome (Response Earth3DGlobe.BackendData).
Variable St : Type.

Local Abbreviation run :=
  (@Earth3DGlobe.analyzeWeatherRisk BACKEND_URL numberToString LocalTZA
     network St).

Lemma globe_run_returns (location : LatLng) (date : Date)
    (thresholds : Earth3DGlobe.WeatherThresholds)
    (w : World AnalyzeRequest St) :
  exists r w', run location date thresholds w = (Normal r, w').
Proof.
  destruct w as [sent calls log st].
  unfold Earth3DGlobe.analyzeWeatherRisk. unfold_run.
  destruct (truthy BACKEND_URL); [| cbn; eauto].
  destruct date as [| t]; cbn; [eauto |].
  destruct (network _ _) as [response | e]; [| eauto].
  destruct (ok response); [| eauto].
  destruct (json response); eauto.
Qed.

(** Every run returns: the four fields of the reply when one is
    delivered, the fallback otherwise. *)
Lemma globe_run_cases (location : LatLng) (date : Date)
    (thresholds : Earth3DGlobe.WeatherThresholds)
    (w : World AnalyzeRequest St) :
  exists w',
    run location date thresholds w
    = (Normal
         match Spec.globe_delivered BACKEND_URL network location date
                 thresholds with
         | Some data =>
             Earth3DGlobe.mkAnalysis
               (Earth3DGlobe.data_probabilities data)
               (Earth3DGlobe.data_comfort_index data)
               (Earth3DGlobe.data_alternative_dates data)
               (Earth3DGlobe.data_metadata data)
         | None =>
             Earth3DGlobe.fallback numberToString LocalTZA
               location date thresholds
         end, w').
Proof.
  destruct w as [sent calls log st].
  unfold Spec.globe_delivered, Spec.delivered, Earth3DGlobe.analyzeWeatherRisk.
  unfold_run.
  destruct (truthy BACKEND_URL); [| cbn; eauto].
  destruct date as [| t]; cbn; [eauto |].
  destruct (network _ _) as [response | e]; [| eauto].
  destruct (ok response); [| eauto].
  destruct (json response); eauto.
Qed.

Lemma globe_run_unreachable (location : LatLng) (date : Date)
    (thresholds : Earth3DGlobe.WeatherThresholds)
    (w : World AnalyzeRequest St) :
  Spec.unreachable network \/ truthy BACKEND_URL = false ->
  exists w',
    run location date thresholds w
    = (Normal (Earth3DGlobe.fallback numberToString LocalTZA
                 location date thresholds), w').
Proof.
  intros Hdown.
  destruct (globe_run_cases location date thresholds w) as (w' & E).
  exists w'. rewrite E. unfold Spec.globe_delivered.
  destruct Hdown as [Hdown | ->]; [| reflexivity].
  destruct (truthy BACKEND_URL); [| reflexivity].
  destruct (toISODate date); [| reflexivity].
  now rewrite unreachable_delivers_nothing.
Qed.

End GlobeRuns.

(** *** The index page *)

Section IndexRuns.

Variable BACKEND_URL : string.
Variable now : Z.
Variable draws : nat -> Q.
Variable network :
  string -> AnalyzeRequest ->
  outcome (Response (option WeatherAnalysisResponse)).

(** The simulated analysis that a run starting after [n] draws builds for
    a date at time [t]. *)
Local Abbreviation simulated place t n :=
  (Index.fallbackAnalysis_object now place
     (civil_from_days (utcDay t))
     (draws n) (draws (1 + n)%nat) (draws (2 + n)%nat) (draws (3 + n)%nat)
     (civil_from_days (utcDay t + 1)) (draws (4 + n)%nat)
     (civil_from_days (utcDay t + 2)) (draws (5 + n)%nat)).

Lemma fallbackAnalysis_run (place : Place) (t : Z)
    (w : World AnalyzeRequest Index.PageState) :
  Spec.date_in_range (DateOf t) ->
  Index.fallbackAnalysis now draws place (DateOf t) w
  = (Normal (simulated place t (random_calls w)),
     mkWorld (requests w) (6 + random_calls w) (console w) (state w)).
Proof.
  intros Hrange. cbn in Hrange. destruct w as [sent calls log st].
  assert (Hmax : maxTime = 8640000000000000%Z) by reflexivity.
  assert (Hday : msPerDay = 86400000%Z) by reflexivity.
  unfold Index.fallbackAnalysis. unfold_run. cbn [toISODate time_plus getTime].
  change (24 * 60 * 60 * 1000)%Z with (1 * msPerDay)%Z.
  change (2 * 24 * 60 * 60 * 1000)%Z with (2 * msPerDay)%Z.
  rewrite !new_Date_in_range by lia.
  cbn [toISODate random_calls requests console state].
  rewrite !utcDay_plus_days. reflexivity.
Qed.

Lemma fallbackAnalysis_invalid_date (place : Place)
    (w : World AnalyzeRequest Index.PageState) :
  Index.fallbackAnalysis now draws place InvalidDate w = (Throw RangeError, w).
Proof. reflexivity. Qed.

Local Abbreviation handle :=
  (Index.handleAnalyze BACKEND_URL now draws network).

Ltac run_fallbackAnalysis place t Hrange :=
  cbv beta iota;
  match goal with |- context [Index.fallbackAnalysis _ _ _ _ ?w0] =>
    rewrite (fallbackAnalysis_run place t w0 Hrange) end;
  cbn.

(** Every run on a date in range ends normally with the results shown:
    the page holds the body of the reply when one is delivered, be it
    [null], and the simulated analysis otherwise. *)
Lemma handleAnalyze_cases (place : Place) (t : Z)
    (thresholds : Index.Thresholds)
    (w : World AnalyzeRequest Index.PageState) :
  Spec.date_in_range (DateOf t) ->
  exists w',
    handle (Some place) (DateOf t) (Some thresholds) w = (Normal tt, w')
    /\ Index.showResults (state w') = true
    /\ Index.isAnalyzing (state w') = false
    /\ match Spec.page_delivered BACKEND_URL now network place (DateOf t)
               thresholds with
       | Some data =>
           Index.analysisData (state w') = data
           /\ random_calls w' = random_calls w
       | None =>
           Index.analysisData (state w')
           = Some (simulated place t (random_calls w))
           /\ random_calls w' = (6 + random_calls w)%nat
       end.
Proof.
  intros Hrange. destruct w as [sent calls log st].
  unfold Spec.page_delivered, Spec.delivered, Index.handleAnalyze.
  unfold_run. cbn [toISODate].
  destruct (network _ _) as [response | e].
  - destruct (ok response).
    + destruct (json response) as [data | e].
      * cbn. eexists. repeat split.
      * run_fallbackAnalysis place t Hrange. eexists. repeat split.
    + run_fallbackAnalysis place t Hrange. eexists. repeat split.
  - run_fallbackAnalysis place t Hrange. eexists. repeat split.
Qed.

Lemma handleAnalyze_unreachable (place : Place) (t : Z)
    (thresholds : Index.Thresholds)
    (w : World AnalyzeRequest Index.PageState) :
  Spec.unreachable network ->
  Spec.date_in_range (DateOf t) ->
  exists w',
    handle (Some place) (DateOf t) (Some thresholds) w = (Normal tt, w')
    /\ Index.analysisData (state w')
       = Some (simulated place t (random_calls w))
    /\ Index.showResults (state w') = true
    /\ Index.isAnalyzing (state w') = false
    /\ random_calls w' = (6 + random_calls w)%nat.
Proof.
  intros Hdown Hrange.
  destruct (handleAnalyze_cases place t thresholds w Hrange)
    as (w' & E & Hshow & Hbusy & Hcase).
  unfold Spec.page_delivered in Hcase. cbn [toISODate] in Hcase.
  rewrite unreachable_delivers_nothing in Hcase by exact Hdown.
  exists w'. tauto.
Qed.

(** An invalid date is not recovered: [toISOString] throws again inside
    the [catch] block, and only [finally] still runs. *)
Lemma handleAnalyze_invalid_date (place : Place)
    (thresholds : Index.Thresholds)
    (w : World AnalyzeRequest Index.PageState) :
  exists w',
    handle (Some place) InvalidDate (Some thresholds) w
    = (Throw RangeError, w')
    /\ Index.isAnalyzing (state w') = false
    /\ Index.analysisData (state w') = Index.analysisData (state w).
Proof.
  destruct w as [sent calls log st].
  unfold Index.handleAnalyze. unfold_run. cbn. eexists. repeat split.
Qed.

End IndexRuns.

(** *** The 2D map *)

Section MapRuns.

Variable BACKEND_URL : string.
Variable draws : nat -> Q.
Variable network :
  string -> AnalyzeRequest -> outcome (Response Map2D.BackendData).

Local Abbreviation analyze :=
  (Map2D.analyzeWeatherRisk BACKEND_URL draws network).

(** Whatever happens, the run ends normally with the analysis shown, and
    it has sent exactly the one request to [/analyze] when a backend is
    configured and the date is valid, and none otherwise. *)
Lemma map_run_returns (lat lng : Q) (date : Date) (radiusKm : option Q)
    (polygon : option (list LatLng))
    (w : World AnalyzeRequest Map2D.MapState) :
  exists w',
    analyze lat lng date radiusKm polygon w = (Normal tt, w')
    /\ Map2D.showAnalysis (state w') = true
    /\ Map2D.isAnalyzing (state w') = false
    /\ requests w'
       = requests w
         ++ (if truthy BACKEND_URL
             then match toISODate date with
                  | Normal event_date =>
                      [((BACKEND_URL ++ "/analyze")%string,
                        Map2D.analyze_body lat lng event_date radiusKm
                          (Map2D.areaRadiusKm (state w)) polygon)]
                  | Throw _ => []
                  end
             else []).
Proof.
  destruct w as [sent calls log st].
  unfold Map2D.analyzeWeatherRisk, Map2D.fallbackProbabilities. unfold_run.
  destruct (truthy BACKEND_URL) eqn:Hurl;
    [| cbn; eexists; repeat split; now rewrite app_nil_r].
  destruct date as [| t]; cbn [toISODate];
    [cbn; eexists; repeat split; now rewrite app_nil_r |].
  cbv beta iota.
  destruct (network _ _) as [res | e];
    [| cbn; eexists; repeat split].
  destruct (ok res); [| cbn; eexists; repeat split].
  destruct (json res) as [data | e]; cbn; eexists; repeat split.
Qed.

(** Every run ends normally with the analysis shown: the rows of the
    reply when one is delivered (none when the reply has no rows), the
    three drawn rows otherwise. *)
Lemma map_run_cases (lat lng : Q) (date : Date) (radiusKm : option Q)
    (polygon : option (list LatLng))
    (w : World AnalyzeRequest Map2D.MapState) :
  exists w',
    analyze lat lng date radiusKm polygon w = (Normal tt, w')
    /\ Map2D.showAnalysis (state w') = true
    /\ Map2D.isAnalyzing (state w') = false
    /\ match Spec.map_delivered BACKEND_URL network lat lng date radiusKm
               polygon (Map2D.areaRadiusKm (state w)) with
       | Some data =>
           Map2D.weatherProbabilities (state w')
           = match Map2D.data_probabilities data with
             | Some rows => rows
             | None => []
             end
           /\ random_calls w' = random_calls w
       | None =>
           Map2D.weatherProbabilities (state w')
           = Map2D.fallback_rows (draws (random_calls w))
               (draws (1 + random_calls w)) (draws (2 + random_calls w))
           /\ random_calls w' = (3 + random_calls w)%nat
       end.
Proof.
  destruct w as [sent calls log st].
  unfold Spec.map_delivered, Spec.delivered,
         Map2D.analyzeWeatherRisk, Map2D.fallbackProbabilities.
  unfold_run.
  destruct (truthy BACKEND_URL) eqn:Hurl;
    [| cbn; eexists; repeat split].
  destruct date as [| t]; cbn [toISODate]; [cbn; eexists; repeat split |].
  cbv beta iota.
  destruct (network _ _) as [res | e];
    [| cbn; eexists; repeat split].
  destruct (ok res); [| cbn; eexists; repeat split].
  destruct (json res) as [data | e]; cbn; eexists; repeat split.
Qed.

Lemma map_run_unreachable (lat lng : Q) (date : Date)
    (radiusKm : option Q) (polygon : option (list LatLng))
    (w : World AnalyzeRequest Map2D.MapState) :
  Spec.unreachable network \/ truthy BACKEND_URL = false ->
  exists w',
    analyze lat lng date radiusKm polygon w = (Normal tt, w')
    /\ Map2D.weatherProbabilities (state w')
       = Map2D.fallback_rows (draws (random_calls w))
           (draws (1 + random_calls w)) (draws (2 + random_calls w))
    /\ random_calls w' = (3 + random_calls w)%nat.
Proof.
  intros Hdown.
  destruct (map_run_cases lat lng date radiusKm polygon w)
    as (w' & E & _ & _ & Hcase).
  exists w'. split; [exact E |].
  unfold Spec.map_delivered in Hcase.
  destruct Hdown as [Hdown | Hno]; [| now rewrite Hno in Hcase].
  destruct (truthy BACKEND_URL); [| exact Hcase].
  destruct (toISODate date); [| exact Hcase].
  now rewrite unreachable_delivers_nothing in Hcase.
Qed.

End MapRuns.

Lemma polygon_copy (polygon : list LatLng) :
  map (fun p => {| lat := lat p; lng := lng p |}) polygon = polygon.
Proof.
  induction polygon as [| [a b] l IH]; cbn; [reflexivity | now rewrite IH].
Qed.

Lemma polygon_field_short (polygon : list LatLng) :
  (List.length polygon < 3)%nat ->
  Map2D.polygon_field (Some polygon) = None.
Proof.
  intros H. unfold Map2D.polygon_field.
  now replace (3 <=? List.length polygon)%nat with false
    by (symmetry; apply Nat.leb_gt; exact H).
Qed.

Lemma polygon_field_long (polygon : list LatLng) :
  (3 <= List.length polygon)%nat ->
  Map2D.polygon_field (Some polygon) = Some polygon.
Proof.
  intros H. unfold Map2D.polygon_field.
  replace (3 <=? List.length polygon)%nat with true
    by (symmetry; apply Nat.leb_le; exact H).
  now rewrite polygon_copy.
Qed.

Lemma polygon_field_None_body (lat lng : Q) (event_date : IsoDate)
    (radiusKm : option Q) (areaRadiusKm : Q) (vertices : list LatLng) :
  (List.length vertices < 3)%nat ->
  Map2D.analyze_body lat lng event_date radiusKm areaRadiusKm (Some vertices)
  = Map2D.analyze_body lat lng event_date radiusKm areaRadiusKm None.
Proof.
  intros H. unfold Map2D.analyze_body.
  now rewrite (polygon_field_short vertices H).
Qed.

(** *** More on sums *)

Lemma Qsum_scale (l : list Q) (c : Q) :
  Spec.Qsum (map (fun x => x / c) l) == Spec.Qsum l / c.
Proof.
  unfold Spec.Qsum.
  induction l as [| x l IH]; cbn [map fold_right].
  - unfold Qdiv. ring.
  - rewrite IH. unfold Qdiv. ring.
Qed.

Lemma Qsum_Permutation (l l' : list Q) :
  Permutation l l' -> Spec.Qsum l == Spec.Qsum l'.
Proof.
  induction 1 as [| x l l' _ IH | x y l | l l' l'' _ IH1 _ IH2]; cbn.
  - reflexivity.
  - now rewrite IH.
  - ring.
  - now rewrite IH1.
Qed.

Lemma length_nonzero {A : Type} (a : A) (l : list A) :
  ~ inject_Z (Z.of_nat (List.length (a :: l))) == 0.
Proof.
  intros H. unfold Qeq in H. cbn [Qnum Qden inject_Z] in H.
  cbn [List.length] in H. lia.
Qed.


(** ** Double precision: the error of one rounding *)

Section Rounding.
Import JS Binary64.
Local Open Scope Q_scope.

Lemma nearest_even_error (x : Q) :
  Qabs (inject_Z (nearest_even x) - x) <= 1 # 2.
Proof.
  unfold nearest_even.
  pose proof (Qfloor_le x) as Hl. pose proof (Qlt_floor x) as Hu.
  rewrite inject_Z_plus in Hu. change (inject_Z 1) with 1 in Hu.
  apply Qabs_Qle_condition.
  destruct (Qcompare_spec (x - inject_Z (Qfloor x)) (1 # 2)) as [E | E | E].
  - destruct (Z.even (Qfloor x)).
    + lra.
    + rewrite inject_Z_plus. change (inject_Z 1) with 1. lra.
  - lra.
  - rewrite inject_Z_plus. change (inject_Z 1) with 1. lra.
Qed.

Lemma pow2_pos (e : Z) : 0 < pow2 e.
Proof. apply Qpower_0_lt. reflexivity. Qed.

Lemma pow2_le (a b : Z) : (a <= b)%Z -> pow2 a <= pow2 b.
Proof. intros H. apply Qpower_le_compat_l; [exact H | discriminate]. Qed.

Lemma pow2_add (a b : Z) : pow2 (a + b) == pow2 a * pow2 b.
Proof. apply Qpower_plus. discriminate. Qed.

Lemma pow2_inject (n : Z) : (0 <= n)%Z -> pow2 n == inject_Z (2 ^ n).
Proof. intros H. unfold pow2. now rewrite Zpower_Qpower. Qed.

Lemma pow2_double (e : Z) : pow2 (e + 1) == 2 * pow2 e.
Proof. rewrite pow2_add. change (pow2 1) with 2. ring. Qed.

(** [2 ^ ilog2 q] is not above [|q|]. *)
Lemma ilog2_lower (q : Q) : ~ q == 0 -> pow2 (ilog2 q) <= Qabs q.
Proof.
  intros Hq. unfold ilog2. cbv zeta.
  destruct (Qle_bool _ _) eqn:E; [now apply Qle_bool_iff in E |].
  destruct q as [a b]. cbn [Qnum Qden].
  assert (Ha : (0 < Z.abs a)%Z).
  { destruct a; [exfalso; apply Hq; reflexivity | lia | lia]. }
  set (la := Z.log2 (Z.abs a)). set (lb := Z.log2 (Z.pos b)).
  assert (Hla : (0 <= la)%Z) by apply Z.log2_nonneg.
  assert (Hlb : (0 <= lb)%Z) by apply Z.log2_nonneg.
  destruct (Z.log2_spec (Z.abs a) Ha) as [Hal _]. fold la in Hal.
  destruct (Z.log2_spec (Z.pos b) (Pos2Z.is_pos b)) as [_ Hbu].
  fold lb in Hbu. replace (Z.succ lb) with (lb + 1)%Z in Hbu by lia.
  assert (Hb : 0 < inject_Z (Z.pos b)) by reflexivity.
  assert (Habs : Qabs (a # b) == inject_Z (Z.abs a) / inject_Z (Z.pos b)).
  { unfold Qabs. now rewrite Qmake_Qdiv. }
  rewrite Habs. apply Qle_shift_div_l; [exact Hb |].
  apply Qle_trans with (pow2 (la - lb - 1) * pow2 (lb + 1)).
  - apply Qmult_le_l; [apply pow2_pos |].
    rewrite pow2_inject by lia. rewrite <- Zle_Qle. lia.
  - rewrite <- pow2_add. replace (la - lb - 1 + (lb + 1))%Z with la by lia.
    rewrite pow2_inject by lia. now rewrite <- Zle_Qle.
Qed.

Lemma ilog2_below (q : Q) (m : Z) :
  ~ q == 0 -> Qabs q < pow2 m -> (ilog2 q < m)%Z.
Proof.
  intros Hq Hm. apply (Qpower_lt_compat_l_inv 2); [| reflexivity].
  apply Qle_lt_trans with (Qabs q); [now apply ilog2_lower | exact Hm].
Qed.

Lemma rounded_error (q : Q) :
  Qabs (rounded q - q) <= pow2 (last_place q) * (1 # 2).
Proof.
  unfold rounded. set (e := last_place q).
  pose proof (pow2_pos e) as He.
  pose proof (nearest_even_error (q / pow2 e)) as Hn.
  set (n := inject_Z (nearest_even (q / pow2 e))) in *.
  assert (E : n * pow2 e - q == (n - q / pow2 e) * pow2 e).
  { field. lra. }
  rewrite E, Qabs_Qmult, (Qabs_pos (pow2 e)) by lra.
  rewrite (Qmult_comm (pow2 e)). apply Qmult_le_compat_r; lra.
Qed.

(** One rounding of a value below [2 ^ m] is finite and off by at most
    half a unit in the last place. *)
Lemma round64_error (m : Z) (q : Q) :
  (m <= 1023)%Z -> Qabs q < pow2 m ->
  exists r, round64 q = Finite r
            /\ Qabs (r - q) <= pow2 (Z.max (m - 53) (-1074)) * (1 # 2).
Proof.
  intros Hm Hq. unfold round64.
  pose proof (pow2_pos (Z.max (m - 53) (-1074))) as Hpos.
  destruct (Qeq_bool q 0) eqn:E0.
  { apply Qeq_bool_iff in E0. exists 0. split; [reflexivity |].
    setoid_replace (0 - q) with 0 by (rewrite E0; ring).
    change (Qabs 0) with 0. lra. }
  assert (Hne : ~ q == 0).
  { intros H. apply Qeq_bool_iff in H. congruence. }
  pose proof (rounded_error q) as Herr.
  assert (Hplace : (last_place q <= Z.max (m - 53) (-1074))%Z).
  { unfold last_place. pose proof (ilog2_below q m Hne Hq). lia. }
  assert (Hulp : pow2 (last_place q) <= pow2 (Z.max (m - 53) (-1074))).
  { now apply pow2_le. }
  assert (Hbig : pow2 (Z.max (m - 53) (-1074)) <= pow2 1023).
  { apply pow2_le. lia. }
  assert (Hm' : pow2 m <= pow2 1023) by now apply pow2_le.
  assert (H1024 : pow2 1024 == 2 * pow2 1023) by apply (pow2_double 1023).
  assert (Hr : Qabs (rounded q) < pow2 1024).
  { assert (Ht : Qabs (rounded q) <= Qabs (rounded q - q) + Qabs q).
    { setoid_replace (rounded q) with ((rounded q - q) + q) at 1 by ring.
      apply Qabs_triangle. }
    lra. }
  destruct (Qle_bool (pow2 1024) (Qabs (rounded q))) eqn:Eo.
  { apply Qle_bool_iff in Eo. lra. }
  exists (Qred (rounded q)). split; [reflexivity |].
  rewrite Qred_correct. lra.
Qed.

Lemma round64_near (q : Q) :
  Qabs q <= 65536 ->
  exists r, round64 q = Finite r /\ Qabs (r - q) <= unit.
Proof.
  intros Hq.
  destruct (round64_error 17 q) as (r & Hr & Herr); [lia | |].
  - apply Qle_lt_trans with 65536; [exact Hq | reflexivity].
  - exists r. split; [exact Hr |].
    apply Qle_trans with (pow2 (Z.max (17 - 53) (-1074)) * (1 # 2));
      [exact Herr | discriminate].
Qed.

(** A rounding never gives what is not a number. *)
Lemma round64_number (q : Q) : round64 q <> NaN.
Proof.
  unfold round64. destruct (Qeq_bool q 0); [discriminate |].
  destruct (Qle_bool _ _); discriminate.
Qed.

End Rounding.

(** ** Double precision: whole numbers and numbers that are not *)

Section Whole.
Import JS Binary64.
Local Open Scope Q_scope.

Lemma nearest_even_comp (x y : Q) :
  x == y -> nearest_even x = nearest_even y.
Proof.
  intros H. unfold nearest_even.
  rewrite (Qfloor_comp x y H).
  assert (E : Qcompare (x - inject_Z (Qfloor y)) (1 # 2)
              = Qcompare (y - inject_Z (Qfloor y)) (1 # 2)).
  { apply Qcompare_comp; [now rewrite H | reflexivity]. }
  now rewrite E.
Qed.

Lemma nearest_even_inject_Z (z : Z) : nearest_even (inject_Z z) = z.
Proof.
  unfold nearest_even. rewrite Qfloor_Z.
  assert (E : Qcompare (inject_Z z - inject_Z z) (1 # 2) = Lt).
  { apply Qlt_alt.
    setoid_replace (inject_Z z - inject_Z z) with 0 by ring. reflexivity. }
  now rewrite E.
Qed.

(** A whole number below [2 ^ 53] is a double. *)
Lemma of_Z_exact (k : Z) :
  (0 < k < 2 ^ 53)%Z ->
  exists m, of_Z k = Finite m /\ m == inject_Z k.
Proof.
  intros [Hk0 Hk]. unfold of_Z, round64.
  assert (Hq0 : 0 < inject_Z k).
  { change 0 with (inject_Z 0). now rewrite <- Zlt_Qlt. }
  assert (Hne : ~ inject_Z k == 0) by lra.
  destruct (Qeq_bool (inject_Z k) 0) eqn:E0.
  { apply Qeq_bool_iff in E0. contradiction. }
  assert (Habs : Qabs (inject_Z k) < pow2 53).
  { rewrite Qabs_pos by lra. rewrite pow2_inject by lia.
    now rewrite <- Zlt_Qlt. }
  pose proof (ilog2_below _ 53 Hne Habs) as Hlog.
  set (e := last_place (inject_Z k)).
  assert (He : (-1074 <= e <= 0)%Z) by (unfold e, last_place; lia).
  assert (Hpow : pow2 e * pow2 (- e) == 1).
  { rewrite <- pow2_add. replace (e + - e)%Z with 0%Z by lia. reflexivity. }
  pose proof (pow2_pos e) as Hpe.
  assert (Hquot : inject_Z k / pow2 e == inject_Z (k * 2 ^ (- e))).
  { rewrite inject_Z_mult, <- (pow2_inject (- e)) by lia.
    setoid_replace (inject_Z k / pow2 e)
      with (inject_Z k * (pow2 e * pow2 (- e)) / pow2 e)
      by (rewrite Hpow; field; lra).
    field. lra. }
  assert (Hr : rounded (inject_Z k) == inject_Z k).
  { unfold rounded. fold e. rewrite (nearest_even_comp _ _ Hquot).
    rewrite nearest_even_inject_Z, inject_Z_mult.
    rewrite <- (pow2_inject (- e)) by lia.
    rewrite <- Qmult_assoc, (Qmult_comm (pow2 (- e))), Hpow. ring. }
  assert (Hbig : pow2 53 <= pow2 1024) by (apply pow2_le; lia).
  destruct (Qle_bool (pow2 1024) (Qabs (rounded (inject_Z k)))) eqn:Eo.
  { apply Qle_bool_iff in Eo. rewrite Hr in Eo. lra. }
  eexists. split; [reflexivity |]. now rewrite Qred_correct.
Qed.

Lemma add_number (a : number) (t : Q) : a <> NaN -> add a (Finite t) <> NaN.
Proof.
  destruct a as [| s | x]; intros H; cbn [add];
    [contradiction | discriminate | apply round64_number].
Qed.

(** [(1 - a) * 100] and [100 - a * 100] are numbers when [a] is. *)
Lemma sub_from_number (c : Q) (a : number) :
  a <> NaN -> sub (Finite c) a <> NaN.
Proof.
  destruct a as [| s | x]; intros H; unfold sub; cbn [opp add];
    [contradiction | discriminate | apply round64_number].
Qed.

Lemma mul_100_number (a : number) : a <> NaN -> mul a (Finite 100) <> NaN.
Proof.
  destruct a as [| s | x]; intros H; cbn [mul];
    [contradiction | discriminate | apply round64_number].
Qed.

(** Clamped to [0, 100] and rounded, every number is a whole number of
    that range. *)
Lemma round_clamp_number (a : number) :
  a <> NaN ->
  exists z,
    Binary64.Math_round
      (Binary64.Math_max (Finite 0) (Binary64.Math_min (Finite 100) a))
    = Finite (inject_Z z)
    /\ (0 <= z <= 100)%Z.
Proof.
  destruct a as [| [|] | x]; intros H.
  - contradiction.
  - exists 0%Z. split; [reflexivity | lia].
  - exists 100%Z. split; [reflexivity | lia].
  - unfold Binary64.Math_min, Binary64.Math_max. cbn [leb].
    destruct (Qle_bool 100 x) eqn:E1.
    + exists 100%Z. split; [reflexivity | lia].
    + assert (H1 : x < 100).
      { destruct (Qlt_le_dec x 100) as [Hx | Hx]; [exact Hx |].
        apply Qle_bool_iff in Hx. congruence. }
      cbn [leb]. destruct (Qle_bool 0 x) eqn:E0.
      * apply Qle_bool_iff in E0. cbn [Binary64.Math_round].
        eexists. split; [reflexivity |].
        assert (Hl := Qfloor_resp_le 0 (x + (1 # 2))).
        assert (Hu := Qfloor_resp_le (x + (1 # 2)) (100 + (1 # 2))).
        change (Qfloor 0) with 0%Z in Hl.
        change (Qfloor (100 + (1 # 2))) with 100%Z in Hu.
        split; [apply Hl | apply Hu]; lra.
      * exists 0%Z. split; [reflexivity | lia].
Qed.

End Whole.

(** ** Floors *)

Lemma Qfloor_unique (x : Q) (z : Z) :
  (inject_Z z <= x)%Q -> (x < inject_Z (z + 1))%Q -> Qfloor x = z.
Proof.
  intros Hl Hu. apply Z.le_antisymm.
  - pose proof (Qfloor_le x) as Hf.
    assert (H : (inject_Z (Qfloor x) < inject_Z (z + 1))%Q) by lra.
    rewrite <- Zlt_Qlt in H. lia.
  - rewrite <- (Qfloor_Z z). now apply Qfloor_resp_le.
Qed.

Lemma Qfloor_plus_Z (x : Q) (n : Z) :
  Qfloor (x + inject_Z n) = (Qfloor x + n)%Z.
Proof.
  apply Qfloor_unique.
  - rewrite inject_Z_plus. pose proof (Qfloor_le x). lra.
  - replace (Qfloor x + n + 1)%Z with ((Qfloor x + 1) + n)%Z by lia.
    rewrite inject_Z_plus. pose proof (Qlt_floor x). lra.
Qed.

(** ** Double precision: operations on values of moderate size *)

Section Operations.
Import JS Binary64.
Local Open Scope Q_scope.

Lemma add_near (x y : Q) :
  Qabs (x + y) <= 65536 ->
  exists r, add (Finite x) (Finite y) = Finite r
            /\ Qabs (r - (x + y)) <= unit.
Proof. intros H. cbn [add]. now apply round64_near. Qed.

Lemma sub_near (x y : Q) :
  Qabs (x - y) <= 65536 ->
  exists r, sub (Finite x) (Finite y) = Finite r
            /\ Qabs (r - (x - y)) <= unit.
Proof. intros H. unfold sub. cbn [opp add]. now apply round64_near. Qed.

Lemma mul_near (x y : Q) :
  Qabs (x * y) <= 65536 ->
  exists r, mul (Finite x) (Finite y) = Finite r
            /\ Qabs (r - x * y) <= unit.
Proof. intros H. cbn [mul]. now apply round64_near. Qed.

Lemma div_near (x y : Q) :
  Qeq_bool y 0 = false -> Qabs (x / y) <= 65536 ->
  exists r, div (Finite x) (Finite y) = Finite r
            /\ Qabs (r - x / y) <= unit.
Proof. intros Hy H. cbn [div]. rewrite Hy. now apply round64_near. Qed.

(** [Math.round(Math.max(0, Math.min(100, x)))] on a finite [x]. *)
Lemma round_clamp_finite (x : Q) :
  Binary64.Math_round
    (Binary64.Math_max (Finite 0) (Binary64.Math_min (Finite 100) (Finite x)))
  = Finite (JS.Math_round (Spec.clamp x)).
Proof.
  unfold Binary64.Math_min, Binary64.Math_max, Spec.clamp.
  cbn [leb].
  destruct (Qle_bool 100 x) eqn:E1.
  - apply Qle_bool_iff in E1. cbn [leb].
    change (Qle_bool 0 100) with true. cbn [Binary64.Math_round].
    unfold JS.Math_round. do 2 f_equal. apply Qfloor_comp.
    rewrite (Q.min_l 100 x) by exact E1. rewrite Q.max_r; [reflexivity | lra].
  - assert (H1 : x < 100).
    { destruct (Qlt_le_dec x 100) as [H | H]; [exact H |].
      apply Qle_bool_iff in H. congruence. }
    cbn [leb]. destruct (Qle_bool 0 x) eqn:E0.
    + apply Qle_bool_iff in E0. cbn [Binary64.Math_round].
      unfold JS.Math_round. do 2 f_equal. apply Qfloor_comp.
      rewrite (Q.min_r 100 x) by lra. rewrite Q.max_r; [reflexivity | lra].
    + assert (H0 : x < 0).
      { destruct (Qlt_le_dec x 0) as [H | H]; [exact H |].
        apply Qle_bool_iff in H. congruence. }
      cbn [Binary64.Math_round].
      unfold JS.Math_round. do 2 f_equal. apply Qfloor_comp.
      rewrite (Q.min_r 100 x) by lra. rewrite Q.max_l; [reflexivity | lra].
Qed.

Lemma clamp_near (x x' d : Q) :
  Qabs (x' - x) <= d -> Qabs (Spec.clamp x' - Spec.clamp x) <= d.
Proof.
  intros H. apply Qabs_Qle_condition in H. apply Qabs_Qle_condition.
  unfold Spec.clamp.
  destruct (Q.min_spec 100 x) as [[H1 E1] | [H1 E1]];
    destruct (Q.min_spec 100 x') as [[H2 E2] | [H2 E2]];
    destruct (Q.max_spec 0 (Qmin 100 x)) as [[H3 E3] | [H3 E3]];
    destruct (Q.max_spec 0 (Qmin 100 x')) as [[H4 E4] | [H4 E4]];
    rewrite E3, E4, ?E1, ?E2 in *; lra.
Qed.

(** Two values less than one apart round to integers at most one apart,
    and to the same integer when the first is away from a tie. *)
Lemma Math_round_near (y y' d : Q) :
  Qabs (y' - y) <= d -> d < 1 ->
  Qabs (JS.Math_round y' - JS.Math_round y) <= 1.
Proof.
  intros H Hd. apply Qabs_Qle_condition in H.
  assert (Hup : JS.Math_round y' <= JS.Math_round (y + 1)).
  { apply Math_round_mono. lra. }
  assert (Hdown : JS.Math_round (y - 1) <= JS.Math_round y').
  { apply Math_round_mono. lra. }
  assert (E1 : JS.Math_round (y + 1) == JS.Math_round y + 1).
  { unfold JS.Math_round.
    setoid_replace (y + 1 + (1 # 2)) with (y + (1 # 2) + inject_Z 1)
      by (change (inject_Z 1) with 1; ring).
    rewrite Qfloor_plus_Z. rewrite inject_Z_plus. reflexivity. }
  assert (E2 : JS.Math_round (y - 1) == JS.Math_round y - 1).
  { unfold JS.Math_round.
    setoid_replace (y - 1 + (1 # 2)) with (y + (1 # 2) + inject_Z (-1))
      by (change (inject_Z (-1)) with (-1); ring).
    rewrite Qfloor_plus_Z. rewrite inject_Z_plus. reflexivity. }
  apply Qabs_Qle_condition. lra.
Qed.

Lemma Math_round_same (y y' : Q) :
  Qabs (y' - y) <= Spec.margin -> Spec.away_from_tie y ->
  JS.Math_round y' = JS.Math_round y.
Proof.
  unfold Spec.away_from_tie. cbv zeta. intros H [Hl Hu].
  apply Qabs_Qle_condition in H.
  unfold JS.Math_round. f_equal.
  pose proof (Qfloor_le (y + (1 # 2))) as Hf.
  unfold Spec.margin in *.
  apply Qfloor_unique;
    [| rewrite inject_Z_plus; change (inject_Z 1) with 1]; lra.
Qed.

End Operations.

(** ** The comfort index of the globe in double precision *)

Section GlobeComfort.
Import JS Binary64.
Local Open Scope Q_scope.

Lemma not_inherited (c : string) :
  Spec.own_label c ->
  existsb (String.eqb c) InDoubles.inherited_names = false.
Proof.
  intros H. destruct (existsb _ _) eqn:E; [| reflexivity].
  apply existsb_exists in E as (n & Hin & Hn).
  apply String.eqb_eq in Hn. subst n. contradiction.
Qed.

(** The four weights of the table and the default, as doubles and as the
    decimals written in the source. *)
Lemma globe_weight (c : string) :
  Spec.own_label c ->
  (InDoubles.weight_of c
   = Finite (5404319552844595 # 18014398509481984)
   /\ Earth3DGlobe.weight_of c = 0.3)
  \/ (InDoubles.weight_of c = Finite (1 # 4)
      /\ Earth3DGlobe.weight_of c = 0.25)
  \/ (InDoubles.weight_of c
      = Finite (5404319552844595 # 36028797018963968)
      /\ Earth3DGlobe.weight_of c = 0.15)
  \/ (InDoubles.weight_of c
      = Finite (3602879701896397 # 36028797018963968)
      /\ Earth3DGlobe.weight_of c = 0.1).
Proof.
  intros H.
  unfold InDoubles.weight_of, InDoubles.weights,
         Earth3DGlobe.weight_of, Earth3DGlobe.weights.
  rewrite (not_inherited c H).
  destruct (c =? "Very Hot")%string; [left; split; reflexivity |].
  destruct (c =? "Very Cold")%string; [left; split; reflexivity |].
  destruct (c =? "Heavy Rain")%string;
    [right; left; split; reflexivity |].
  destruct (c =? "Strong Wind")%string;
    [right; right; left; split; reflexivity |].
  right; right; right; split; reflexivity.
Qed.

(** One term of the sum: [(probability / 100) * weight]. *)
Lemma globe_term (c : string) (p : Q) :
  Spec.own_label c -> 0 <= p <= 100 ->
  exists t,
    mul (div (Finite p) (Finite 100)) (InDoubles.weight_of c)
    = Finite t
    /\ Qabs (t - Earth3DGlobe.weight_of c * (p / 100)) <= 3 * unit
    /\ 0 <= Earth3DGlobe.weight_of c * (p / 100) <= 3 # 10.
Proof.
  intros Hc Hp.
  assert (Hx : 0 <= p / 100 <= 1).
  { unfold Qdiv. change (/ 100) with (1 # 100). lra. }
  destruct (div_near p 100) as (r1 & E1 & H1); [reflexivity | |].
  { apply Qabs_Qle_condition. lra. }
  rewrite E1. apply Qabs_Qle_condition in H1.
  set (x := p / 100) in *. unfold unit in *.
  destruct (globe_weight c Hc)
    as [[-> ->] | [[-> ->] | [[-> ->] | [-> ->]]]];
    match goal with |- context [mul (Finite r1) (Finite ?w)] =>
      destruct (mul_near r1 w) as (t & Et & Ht);
        [apply Qabs_Qle_condition; lra |];
        exists t; split; [exact Et |];
        apply Qabs_Qle_condition in Ht; unfold unit in Ht;
        split; [apply Qabs_Qle_condition |]; lra
    end.
Qed.

Local Abbreviation step :=
  (fun discomfort prob =>
     add discomfort
       (mul (div (Finite (Earth3DGlobe.probability prob)) (Finite 100))
            (InDoubles.weight_of (Earth3DGlobe.condition prob)))).

Local Abbreviation term :=
  (fun s => Earth3DGlobe.weight_of (Earth3DGlobe.condition s)
            * (Earth3DGlobe.probability s / 100)).

Local Abbreviation percentage :=
  (fun p => 0 <= Earth3DGlobe.probability p <= 100
            /\ Spec.own_label (Earth3DGlobe.condition p)).

(** The sum as the loop accumulates it stays within four units per entry
    of the exact sum. *)
Lemma globe_discomfort_near (ps : list Earth3DGlobe.WeatherProbability) :
  Forall percentage ps ->
  forall (n : Z) (acc sum : Q),
    (0 <= n)%Z -> (n + Z.of_nat (List.length ps) <= 1024)%Z ->
    Qabs (acc - sum) <= 4 * inject_Z n * unit ->
    0 <= sum <= (3 # 10) * inject_Z n ->
    exists d,
      fold_left step ps (Finite acc) = Finite d
      /\ Qabs (d - (sum + Spec.Qsum (map term ps)))
         <= 4 * inject_Z (n + Z.of_nat (List.length ps)) * unit
      /\ 0 <= sum + Spec.Qsum (map term ps)
         <= (3 # 10) * inject_Z (n + Z.of_nat (List.length ps)).
Proof.
  induction 1 as [| p ps [Hp Hc] _ IH]; intros n acc sum Hn Hlen Hacc Hsum.
  - exists acc. cbn [map fold_left List.length Spec.Qsum fold_right].
    replace (n + Z.of_nat 0)%Z with n by lia.
    split; [reflexivity |]. apply Qabs_Qle_condition in Hacc.
    split; [apply Qabs_Qle_condition |]; lra.
  - cbn [map fold_left]. cbn [List.length] in Hlen.
    cbv beta.
    destruct (globe_term _ _ Hc Hp) as (t & -> & Ht & Hterm).
    assert (Hn1 : inject_Z n <= 1024).
    { change 1024 with (inject_Z 1024). rewrite <- Zle_Qle. lia. }
    assert (Hn0 : 0 <= inject_Z n).
    { change 0 with (inject_Z 0). now rewrite <- Zle_Qle. }
    apply Qabs_Qle_condition in Hacc, Ht.
    destruct (add_near acc t) as (a & -> & Ha).
    { apply Qabs_Qle_condition. unfold unit in *. lra. }
    apply Qabs_Qle_condition in Ha.
    destruct (IH (n + 1)%Z a (sum + term p)) as (d & Hd & Hclose & Hrange).
    + lia.
    + lia.
    + rewrite inject_Z_plus. change (inject_Z 1) with 1.
      apply Qabs_Qle_condition. unfold unit in *. lra.
    + rewrite inject_Z_plus. change (inject_Z 1) with 1. lra.
    + exists d. split; [exact Hd |].
      match goal with |- context [Spec.Qsum (?x :: ?l)] =>
        change (Spec.Qsum (x :: l)) with (x + Spec.Qsum l) end.
      replace (n + Z.of_nat (List.length (p :: ps)))%Z
        with (n + 1 + Z.of_nat (List.length ps))%Z
        by (cbn [List.length]; lia).
      apply Qabs_Qle_condition in Hclose.
      split; [apply Qabs_Qle_condition |]; lra.
Qed.

(** The comfort index in doubles against the formula on exact values:
    at most one apart for up to 1024 percentages under labels of their
    own, and the same away from a tie. *)
Lemma globe_comfort_near (ps : list Earth3DGlobe.WeatherProbability) :
  Forall percentage ps -> (List.length ps <= 1024)%nat ->
  exists shown,
    InDoubles.calculateComfortIndex ps
    = Finite shown
    /\ Qabs (shown
             - Spec.comfort_formula
                 (fun s => Earth3DGlobe.weight_of (Earth3DGlobe.condition s))
                 ps) <= 1
    /\ (Spec.away_from_tie (Spec.clamp (Spec.weighted_comfort ps)) ->
        shown
        == Spec.comfort_formula
             (fun s => Earth3DGlobe.weight_of (Earth3DGlobe.condition s))
             ps).
Proof.
  intros Hps Hlen.
  destruct (globe_discomfort_near ps Hps 0 0 0) as (d & Hd & Hclose & Hrange).
  { lia. } { lia. }
  { apply Qabs_Qle_condition. change (inject_Z 0) with 0. unfold unit.
    lra. }
  { change (inject_Z 0) with 0. lra. }
  set (total := Spec.Qsum (map term ps)) in *.
  assert (Hcount : inject_Z (0 + Z.of_nat (List.length ps)) <= 1024).
  { change 1024 with (inject_Z 1024). rewrite <- Zle_Qle. lia. }
  assert (Hcount0 : 0 <= inject_Z (0 + Z.of_nat (List.length ps))).
  { change 0 with (inject_Z 0). rewrite <- Zle_Qle. lia. }
  set (count := inject_Z (0 + Z.of_nat (List.length ps))) in *.
  apply Qabs_Qle_condition in Hclose.
  unfold InDoubles.calculateComfortIndex. cbv zeta.
  rewrite Hd.
  destruct (sub_near 1 d) as (r3 & -> & H3).
  { apply Qabs_Qle_condition. unfold unit in *. lra. }
  apply Qabs_Qle_condition in H3.
  destruct (mul_near r3 100) as (r4 & -> & H4).
  { apply Qabs_Qle_condition. unfold unit in *. lra. }
  apply Qabs_Qle_condition in H4.
  rewrite round_clamp_finite. eexists. split; [reflexivity |].
  assert (Hnear : Qabs (r4 - Spec.weighted_comfort ps) <= Spec.margin).
  { unfold Spec.weighted_comfort. fold total.
    apply Qabs_Qle_condition. unfold Spec.margin, unit in *. lra. }
  assert (Hformula :
            Spec.comfort_formula
              (fun s => Earth3DGlobe.weight_of (Earth3DGlobe.condition s)) ps
            == JS.Math_round (Spec.clamp (Spec.weighted_comfort ps))).
  { unfold Spec.comfort_formula. fold (Spec.weighted_comfort ps).
    symmetry. apply Math_round_clamp. }
  pose proof (clamp_near _ _ _ Hnear) as Hclamp.
  split.
  - rewrite Hformula.
    apply (Math_round_near _ _ Spec.margin); [exact Hclamp | reflexivity].
  - intros Haway. rewrite Hformula.
    now rewrite (Math_round_same _ _ Hclamp Haway).
Qed.

(** A name that every object inherits makes the index not a number. *)
Lemma fold_left_NaN (l : list Earth3DGlobe.WeatherProbability) :
  fold_left step l NaN = NaN.
Proof. induction l as [| p l IH]; [reflexivity | exact IH]. Qed.

Lemma globe_comfort_inherited
    (ps : list Earth3DGlobe.WeatherProbability) :
  Exists (fun p => In (Earth3DGlobe.condition p)
                      InDoubles.inherited_names) ps ->
  InDoubles.calculateComfortIndex ps = NaN.
Proof.
  intros H. unfold InDoubles.calculateComfortIndex. cbv zeta.
  assert (E : forall acc, fold_left step ps acc = NaN).
  { induction H as [p ps Hp | p ps _ IH]; intros acc; cbn [fold_left].
    - assert (Hw : InDoubles.weight_of (Earth3DGlobe.condition p) = NaN).
      { unfold InDoubles.weight_of, InDoubles.weights.
        assert (Hin : existsb (String.eqb (Earth3DGlobe.condition p))
                        InDoubles.inherited_names = true).
        { apply existsb_exists. exists (Earth3DGlobe.condition p).
          split; [exact Hp | apply String.eqb_refl]. }
        cbn in Hp.
        repeat destruct Hp as [<- | Hp]; try reflexivity. destruct Hp. }
      rewrite Hw.
      assert (Hm : forall a, mul a NaN = NaN)
        by (intros [| s | q]; reflexivity).
      assert (Ha : forall a, add a NaN = NaN)
        by (intros [| s | q]; reflexivity).
      rewrite Hm, Ha. apply fold_left_NaN.
    - apply IH. }
  rewrite E. reflexivity.
Qed.

End GlobeComfort.

(** ** The globe's comfort index on finite doubles *)

Section GlobeRange.
Import JS Binary64.
Local Open Scope Q_scope.

Lemma pow2_1024 : pow2 1024 == 64 * pow2 1018.
Proof.
  change 1024%Z with (1018 + 6)%Z. rewrite pow2_add.
  change (pow2 6) with 64. ring.
Qed.

(** A finite double divided by 100 is a finite double. *)
Lemma finite_quotient (p : Q) :
  Spec.finite_double p ->
  exists r, div (Finite p) (Finite 100) = Finite r /\ Qabs r < pow2 1019.
Proof.
  unfold Spec.finite_double. intros Hp. cbn [div].
  change (Qeq_bool 100 0) with false. cbv iota.
  pose proof pow2_1024 as H1024. pose proof (pow2_pos 1018) as Hpos.
  assert (Hx : Qabs (p / 100) < pow2 1018).
  { unfold Qdiv. rewrite Qabs_Qmult. change (Qabs (/ 100)) with (1 # 100).
    pose proof (Qabs_nonneg p). lra. }
  destruct (round64_error 1018 (p / 100)) as (r & Hr & Herr);
    [lia | exact Hx |].
  exists r. split; [exact Hr |].
  change (Z.max (1018 - 53) (-1074)) with 965%Z in Herr.
  assert (H965 : pow2 965 <= pow2 1018) by (apply pow2_le; lia).
  pose proof (pow2_double 1018) as Hd. change (1018 + 1)%Z with 1019%Z in Hd.
  assert (Ht : Qabs r <= Qabs (r - p / 100) + Qabs (p / 100)).
  { setoid_replace r with ((r - p / 100) + p / 100) at 1 by ring.
    apply Qabs_triangle. }
  lra.
Qed.

Lemma finite_term (c : string) (p : Q) :
  Spec.own_label c -> Spec.finite_double p ->
  exists t,
    mul (div (Finite p) (Finite 100)) (InDoubles.weight_of c)
    = Finite t.
Proof.
  intros Hc Hp. destruct (finite_quotient p Hp) as (r & -> & Hr).
  apply Qabs_Qlt_condition in Hr. pose proof (pow2_pos 1019) as Hpos.
  destruct (globe_weight c Hc)
    as [[-> _] | [[-> _] | [[-> _] | [-> _]]]];
    match goal with |- context [mul (Finite r) (Finite ?w)] =>
      destruct (round64_error 1019 (r * w)) as (t & Ht & _);
        [lia | apply Qabs_Qlt_condition; lra | exists t; exact Ht]
    end.
Qed.

Local Abbreviation step :=
  (fun discomfort prob =>
     add discomfort
       (mul (div (Finite (Earth3DGlobe.probability prob)) (Finite 100))
            (InDoubles.weight_of (Earth3DGlobe.condition prob)))).

Local Abbreviation finite_entry :=
  (fun p => Spec.finite_double (Earth3DGlobe.probability p)
            /\ Spec.own_label (Earth3DGlobe.condition p)).

Lemma globe_fold_number (ps : list Earth3DGlobe.WeatherProbability) :
  Forall finite_entry ps ->
  forall acc, acc <> NaN ->
    fold_left step ps acc <> NaN.
Proof.
  induction 1 as [| p ps [Hp Hc] _ IH]; intros acc Hacc; [exact Hacc |].
  cbn [map fold_left].
  cbv beta.
  destruct (finite_term _ _ Hc Hp) as (t & ->).
  apply IH. now apply add_number.
Qed.

(** On finite doubles under labels of their own the index is a whole
    number from 0 to 100. *)
Lemma globe_comfort_whole (ps : list Earth3DGlobe.WeatherProbability) :
  Forall finite_entry ps ->
  exists z,
    InDoubles.calculateComfortIndex ps
    = Finite (inject_Z z)
    /\ (0 <= z <= 100)%Z.
Proof.
  intros Hps. unfold InDoubles.calculateComfortIndex. cbv zeta.
  apply round_clamp_number, mul_100_number, sub_from_number.
  apply globe_fold_number; [exact Hps | discriminate].
Qed.

End GlobeRange.

(** ** The panel's comfort figure in double precision *)

Section PanelComfort.
Import JS Binary64.
Local Open Scope Q_scope.

Local Abbreviation step :=
  (fun sum (prob : WeatherProbability) =>
     add sum (div (Finite (probability prob)) (Finite 100))).

Local Abbreviation risk := (fun p : WeatherProbability => probability p / 100).

Local Abbreviation percentage :=
  (fun p : WeatherProbability => 0 <= probability p <= 100).

Lemma panel_total_near (ps : list WeatherProbability) :
  Forall percentage ps ->
  forall (n : Z) (acc sum : Q),
    (0 <= n)%Z -> (n + Z.of_nat (List.length ps) <= 1024)%Z ->
    Qabs (acc - sum) <= 2 * inject_Z n * unit ->
    0 <= sum <= inject_Z n ->
    exists a,
      fold_left step ps (Finite acc) = Finite a
      /\ Qabs (a - (sum + Spec.Qsum (map risk ps)))
         <= 2 * inject_Z (n + Z.of_nat (List.length ps)) * unit
      /\ 0 <= sum + Spec.Qsum (map risk ps)
         <= inject_Z (n + Z.of_nat (List.length ps)).
Proof.
  induction 1 as [| p ps Hp _ IH]; intros n acc sum Hn Hlen Hacc Hsum.
  - exists acc. cbn [map fold_left List.length Spec.Qsum fold_right].
    replace (n + Z.of_nat 0)%Z with n by lia.
    split; [reflexivity |]. apply Qabs_Qle_condition in Hacc.
    split; [apply Qabs_Qle_condition |]; lra.
  - cbn [map fold_left]. cbn [List.length] in Hlen.
    cbv beta.
    assert (Hx : 0 <= probability p / 100 <= 1).
    { unfold Qdiv. change (/ 100) with (1 # 100). lra. }
    destruct (div_near (probability p) 100) as (r & -> & Hr);
      [reflexivity | apply Qabs_Qle_condition; lra |].
    assert (Hn1 : inject_Z n <= 1024).
    { change 1024 with (inject_Z 1024). rewrite <- Zle_Qle. lia. }
    assert (Hn0 : 0 <= inject_Z n).
    { change 0 with (inject_Z 0). now rewrite <- Zle_Qle. }
    apply Qabs_Qle_condition in Hacc, Hr.
    destruct (add_near acc r) as (a & -> & Ha).
    { apply Qabs_Qle_condition. unfold unit in *. lra. }
    apply Qabs_Qle_condition in Ha.
    destruct (IH (n + 1)%Z a (sum + risk p)) as (d & Hd & Hclose & Hrange).
    + lia.
    + lia.
    + rewrite inject_Z_plus. change (inject_Z 1) with 1.
      apply Qabs_Qle_condition. unfold unit in *. lra.
    + rewrite inject_Z_plus. change (inject_Z 1) with 1. lra.
    + exists d. split; [exact Hd |].
      match goal with |- context [Spec.Qsum (?x :: ?l)] =>
        change (Spec.Qsum (x :: l)) with (x + Spec.Qsum l) end.
      replace (n + Z.of_nat (List.length (p :: ps)))%Z
        with (n + 1 + Z.of_nat (List.length ps))%Z
        by (cbn [List.length]; lia).
      apply Qabs_Qle_condition in Hclose.
      split; [apply Qabs_Qle_condition |]; lra.
Qed.

(** The mean risk: the total divided by the number of entries. *)
Lemma mean_risk_near (a total m : Q) (n : Z) :
  (1 <= n <= 1024)%Z -> m == inject_Z n ->
  Qabs (a - total) <= 2 * inject_Z n * unit ->
  0 <= total <= inject_Z n ->
  Qabs (a / m) <= 65536
  /\ Qabs (a / m - total / inject_Z n) <= 2 * unit
  /\ 0 <= total / inject_Z n <= 1.
Proof.
  intros Hn Hm Ha Ht. rewrite Hm.
  assert (Hn1 : 1 <= inject_Z n <= 1024).
  { change 1 with (inject_Z 1). change 1024 with (inject_Z 1024).
    rewrite <- !Zle_Qle. lia. }
  set (count := inject_Z n) in *.
  apply Qabs_Qle_condition in Ha.
  assert (Hmean : 0 <= total / count <= 1).
  { split.
    - apply Qle_shift_div_l; lra.
    - apply Qle_shift_div_r; lra. }
  assert (Hdiff : a / count - total / count == (a - total) / count).
  { field. lra. }
  assert (Hclose : - (2 * unit) <= (a - total) / count <= 2 * unit).
  { split.
    - apply Qle_shift_div_l; [lra |]. lra.
    - apply Qle_shift_div_r; [lra |]. lra. }
  split; [| split; [| exact Hmean]].
  - apply Qabs_Qle_condition. unfold unit in *. lra.
  - rewrite Hdiff. now apply Qabs_Qle_condition.
Qed.

Lemma panel_exact (p : WeatherProbability) (l : list WeatherProbability) :
  100 - Spec.Qsum (map risk (p :: l))
        / inject_Z (Z.of_nat (List.length (p :: l))) * 100
  == 100 - Spec.mean (map probability (p :: l)).
Proof.
  unfold Spec.mean. rewrite length_map.
  rewrite <- (map_map probability (fun x => x / 100)), Qsum_scale.
  field. apply length_nonzero.
Qed.

(** The figure in doubles is the rounding of a value within the margin
    of 100 minus the mean. *)
Lemma panel_comfort_value (p : WeatherProbability)
    (l : list WeatherProbability) :
  Forall percentage (p :: l) -> (List.length (p :: l) <= 1024)%nat ->
  exists q,
    WeatherAnalysisPanel.calculateComfortIndex (Some (p :: l))
    = Finite (JS.Math_round (Spec.clamp q))
    /\ Qabs (q - (100 - Spec.mean (map probability (p :: l))))
       <= Spec.margin.
Proof.
  intros Hps Hlen.
  destruct (panel_total_near (p :: l) Hps 0 0 0)
    as (a & Ha & Hclose & Hrange).
  { lia. } { lia. }
  { apply Qabs_Qle_condition. change (inject_Z 0) with 0. unfold unit.
    lra. }
  { change (inject_Z 0) with 0. lra. }
  set (total := Spec.Qsum (map risk (p :: l))) in *.
  set (n := Z.of_nat (List.length (p :: l))) in *.
  assert (Hn : (1 <= n <= 1024)%Z) by (unfold n; cbn [List.length] in *; lia).
  replace (0 + n)%Z with n in * by lia.
  destruct (of_Z_exact n) as (m & Hm & Hmn); [lia |].
  destruct (mean_risk_near a total m n Hn Hmn) as (Hbound & Hmean & Hunit).
  { rewrite Qplus_0_l in Hclose. exact Hclose. }
  { rewrite Qplus_0_l in Hrange. exact Hrange. }
  unfold WeatherAnalysisPanel.calculateComfortIndex. cbv zeta.
  rewrite Ha. fold n. rewrite Hm.
  assert (Hm0 : Qeq_bool m 0 = false).
  { destruct (Qeq_bool m 0) eqn:E; [| reflexivity].
    apply Qeq_bool_iff in E. rewrite Hmn in E.
    assert (H1 : 1 <= inject_Z n).
    { change 1 with (inject_Z 1). rewrite <- Zle_Qle. lia. }
    lra. }
  destruct (div_near a m Hm0 Hbound) as (q1 & -> & H1).
  apply Qabs_Qle_condition in H1, Hmean.
  set (mean_risk := total / inject_Z n) in *.
  destruct (mul_near q1 100) as (q2 & -> & H2).
  { apply Qabs_Qle_condition. unfold unit in *. lra. }
  apply Qabs_Qle_condition in H2.
  destruct (sub_near 100 q2) as (q3 & -> & H3).
  { apply Qabs_Qle_condition. unfold unit in *. lra. }
  apply Qabs_Qle_condition in H3.
  rewrite round_clamp_finite. exists q3. split; [reflexivity |].
  pose proof (panel_exact p l) as Hexact. fold total n mean_risk in Hexact.
  set (exact := 100 - Spec.mean (map probability (p :: l))) in *.
  apply Qabs_Qle_condition. unfold Spec.margin, unit in *. lra.
Qed.

(** The figure in doubles against round(100 - mean) on exact values: at
    most one apart for up to 1024 percentages, and the same away from a
    tie. *)
Lemma panel_comfort_near (p : WeatherProbability)
    (l : list WeatherProbability) :
  Forall percentage (p :: l) -> (List.length (p :: l) <= 1024)%nat ->
  exists shown,
    WeatherAnalysisPanel.calculateComfortIndex (Some (p :: l))
    = Finite shown
    /\ Qabs (shown - Spec.equal_weight_comfort (Some (p :: l))) <= 1
    /\ (Spec.away_from_tie
          (Spec.clamp (100 - Spec.mean (map probability (p :: l)))) ->
        shown == Spec.equal_weight_comfort (Some (p :: l))).
Proof.
  intros Hps Hlen.
  destruct (panel_comfort_value p l Hps Hlen) as (q & -> & Hnear).
  eexists. split; [reflexivity |].
  set (exact := 100 - Spec.mean (map probability (p :: l))) in *.
  assert (Hformula : Spec.equal_weight_comfort (Some (p :: l))
                     == JS.Math_round (Spec.clamp exact)).
  { unfold Spec.equal_weight_comfort. fold exact.
    symmetry. apply Math_round_clamp. }
  pose proof (clamp_near _ _ _ Hnear) as Hclamp.
  split.
  - rewrite Hformula.
    apply (Math_round_near _ _ Spec.margin); [exact Hclamp | reflexivity].
  - intros Haway. rewrite Hformula.
    now rewrite (Math_round_same _ _ Hclamp Haway).
Qed.

(** On finite doubles the figure is a whole number from 0 to 100; an
    array has fewer than [2 ^ 32] entries. *)
Lemma panel_fold_number (ps : list WeatherProbability) :
  Forall (fun p => Spec.finite_double (probability p)) ps ->
  forall acc, acc <> NaN ->
    fold_left step ps acc <> NaN.
Proof.
  induction 1 as [| p ps Hp _ IH]; intros acc Hacc; [exact Hacc |].
  cbn [map fold_left].
  cbv beta.
  destruct (finite_quotient _ Hp) as (r & -> & _).
  apply IH. now apply add_number.
Qed.

Lemma div_number (a : number) (m : Q) :
  a <> NaN -> Qeq_bool m 0 = false -> div a (Finite m) <> NaN.
Proof.
  destruct a as [| s | x]; intros H Hm; cbn [div];
    [contradiction | discriminate | rewrite Hm; apply round64_number].
Qed.

Lemma panel_comfort_whole (ps : option (list WeatherProbability)) :
  match ps with
  | Some l =>
      Forall (fun p => Spec.finite_double (probability p)) l
      /\ (Z.of_nat (List.length l) < 2 ^ 32)%Z
  | None => True
  end ->
  exists z,
    WeatherAnalysisPanel.calculateComfortIndex ps = Finite (inject_Z z)
    /\ (0 <= z <= 100)%Z.
Proof.
  destruct ps as [[| p l] |]; intros H;
    try (exists 0%Z; split; [reflexivity | lia]).
  destruct H as [Hps Hlen].
  unfold WeatherAnalysisPanel.calculateComfortIndex. cbv zeta.
  set (n := Z.of_nat (List.length (p :: l))) in *.
  assert (Hn : (0 < n)%Z) by (unfold n; cbn [List.length]; lia).
  destruct (of_Z_exact n) as (m & -> & Hmn); [lia |].
  assert (Hm0 : Qeq_bool m 0 = false).
  { destruct (Qeq_bool m 0) eqn:E; [| reflexivity].
    apply Qeq_bool_iff in E. rewrite Hmn in E.
    assert (H1 : 0 < inject_Z n).
    { change 0 with (inject_Z 0). now rewrite <- Zlt_Qlt. }
    lra. }
  apply round_clamp_number, sub_from_number, mul_100_number.
  apply div_number; [| exact Hm0].
  apply panel_fold_number; [exact Hps | discriminate].
Qed.

(** The colour of the bar: green up to a mean of 30.5 and red beyond a
    mean of 60.5, the margin of rounding apart. *)
Lemma panel_bar_class (q : Q) :
  let shown := Finite (JS.Math_round (Spec.clamp q)) in
  (139 # 2 <= q -> leb (Finite 70) shown = true)
  /\ (q < 139 # 2 -> leb (Finite 70) shown = false)
  /\ (79 # 2 <= q -> leb (Finite 40) shown = true)
  /\ (q < 79 # 2 -> leb (Finite 40) shown = false).
Proof.
  cbv zeta. cbn [leb].
  assert (Hc : forall (k : Z) (half : Q),
             half == inject_Z k - (1 # 2) ->
             0 < half -> half < 100 ->
             (half <= q ->
              Qle_bool (inject_Z k) (JS.Math_round (Spec.clamp q)) = true)
             /\ (q < half ->
                 Qle_bool (inject_Z k) (JS.Math_round (Spec.clamp q))
                 = false)).
  { intros k half Hk H0 H100.
    assert (Hq : half <= q -> half <= Spec.clamp q).
    { intros H. unfold Spec.clamp.
      destruct (Q.min_spec 100 q) as [[H1 E1] | [H1 E1]];
        destruct (Q.max_spec 0 (Qmin 100 q)) as [[H2 E2] | [H2 E2]];
        rewrite E2, ?E1 in *; lra. }
    assert (Hq' : q < half -> Spec.clamp q < half).
    { intros H. unfold Spec.clamp.
      destruct (Q.min_spec 100 q) as [[H1 E1] | [H1 E1]];
        destruct (Q.max_spec 0 (Qmin 100 q)) as [[H2 E2] | [H2 E2]];
        rewrite E2, ?E1 in *; lra. }
    split; intros H.
    - apply Qle_bool_iff.
      assert (E : JS.Math_round half = inject_Z k).
      { unfold JS.Math_round. f_equal.
        apply Qfloor_unique; [| rewrite inject_Z_plus;
                                 change (inject_Z 1) with 1]; lra. }
      rewrite <- E. apply Math_round_mono. exact (Hq H).
    - specialize (Hq' H).
      destruct (Qle_bool _ _) eqn:E; [| reflexivity].
      apply Qle_bool_iff in E. unfold JS.Math_round in E.
      rewrite <- Zle_Qle in E.
      pose proof (Qfloor_le (Spec.clamp q + (1 # 2))) as Hf.
      rewrite Zle_Qle in E. lra. }
  destruct (Hc 70%Z (139 # 2)) as [G1 G2]; try reflexivity.
  destruct (Hc 40%Z (79 # 2)) as [Y1 Y2]; try reflexivity.
  repeat split; assumption.
Qed.

End PanelComfort.

(** ** The wind direction in double precision *)

Section Wind.
Import JS Binary64.
Local Open Scope Q_scope.

Lemma nearest_even_nonneg (x : Q) : 0 <= x -> (0 <= nearest_even x)%Z.
Proof.
  intros H. unfold nearest_even.
  pose proof (Qfloor_resp_le 0 x H) as Hf. change (Qfloor 0) with 0%Z in Hf.
  destruct (Qcompare _ _); [destruct (Z.even _) | |]; lia.
Qed.

(** What is not below zero is not rounded below zero. *)
Lemma round64_nonneg (q r : Q) : 0 <= q -> round64 q = Finite r -> 0 <= r.
Proof.
  intros Hq. unfold round64.
  destruct (Qeq_bool q 0).
  { intros E. injection E as <-. lra. }
  destruct (Qle_bool _ _); [discriminate |].
  intros E. injection E as <-.
  apply Qle_trans with (rounded q);
    [| rewrite (Qred_correct (rounded q)); apply Qle_refl].
  unfold rounded.
  pose proof (pow2_pos (last_place q)) as Hp.
  apply Qmult_le_0_compat; [| lra].
  change 0 with (inject_Z 0). rewrite <- Zle_Qle.
  apply nearest_even_nonneg. apply Qle_shift_div_l; lra.
Qed.

(** The compass point at a whole number that is not below zero. *)
Lemma wind_index (f : Z) :
  (0 <= f)%Z ->
  index CurrentWeatherWidget.directions (rem (Finite (inject_Z f)) (Finite 16))
  = nth_error CurrentWeatherWidget.directions (Z.to_nat (f mod 16)).
Proof.
  intros Hf. cbn [rem]. change (Qeq_bool 16 0) with false. cbv iota zeta.
  assert (Hq : 0 <= inject_Z f / 16).
  { apply Qle_shift_div_l; [reflexivity |].
    change (0 * 16) with (inject_Z 0). now rewrite <- Zle_Qle. }
  apply Qle_bool_iff in Hq. rewrite Hq.
  assert (Et : Qfloor (inject_Z f / 16) = (f / 16)%Z).
  { change 16 with (inject_Z 16). symmetry. apply Zdiv_Qdiv. }
  rewrite Et.
  set (q := Qred (inject_Z f - inject_Z (f / 16) * 16)).
  assert (E : q == inject_Z (f mod 16)).
  { unfold q. rewrite Qred_correct.
    rewrite (Z.div_mod f 16) at 1 by lia.
    rewrite inject_Z_plus, inject_Z_mult. change (inject_Z 16) with 16.
    ring. }
  assert (Ef : Qfloor q = (f mod 16)%Z).
  { rewrite (Qfloor_comp _ _ E). apply Qfloor_Z. }
  unfold index. rewrite Ef.
  assert (Eq : Qeq_bool q (inject_Z (f mod 16)) = true)
    by now apply Qeq_bool_iff.
  rewrite Eq.
  pose proof (Z.mod_pos_bound f 16) as Hm.
  assert (Hpos : (0 <=? f mod 16)%Z = true) by (apply Z.leb_le; lia).
  now rewrite Hpos.
Qed.

Lemma pow2_1024_16 : pow2 1024 == 16 * pow2 1020.
Proof.
  change 1024%Z with (1020 + 4)%Z. rewrite pow2_add.
  change (pow2 4) with 16. ring.
Qed.

(** For every finite direction that is not below zero there is a compass
    point. *)
Lemma wind_defined (degrees : Q) :
  0 <= degrees -> Spec.finite_double degrees ->
  exists point,
    CurrentWeatherWidget.getWindDirection (Finite degrees) = Some point
    /\ In point CurrentWeatherWidget.directions.
Proof.
  unfold Spec.finite_double. intros H0 Hfin.
  unfold CurrentWeatherWidget.getWindDirection.
  change (literal 22.5) with (Finite (45 # 2)). cbn [div].
  change (Qeq_bool (45 # 2) 0) with false. cbv iota.
  pose proof pow2_1024_16 as H1024. pose proof (pow2_pos 1020) as Hpos.
  assert (Hx : 0 <= degrees / (45 # 2)).
  { apply Qle_shift_div_l; [reflexivity | lra]. }
  assert (Hb : Qabs (degrees / (45 # 2)) < pow2 1020).
  { rewrite Qabs_pos by exact Hx. rewrite Qabs_pos in Hfin by exact H0.
    apply Qlt_shift_div_r; [reflexivity | lra]. }
  destruct (round64_error 1020 _ ltac:(lia) Hb) as (r & Hr & _).
  rewrite Hr. pose proof (round64_nonneg _ _ Hx Hr) as Hr0.
  cbn [Binary64.Math_round].
  set (f := Qfloor (r + (1 # 2))).
  assert (Hf : (0 <= f)%Z).
  { unfold f. change 0%Z with (Qfloor 0). apply Qfloor_resp_le. lra. }
  rewrite (wind_index f Hf).
  pose proof (Z.mod_pos_bound f 16 ltac:(lia)) as Hm.
  destruct (nth_error CurrentWeatherWidget.directions (Z.to_nat (f mod 16)))
    as [point |] eqn:E.
  - exists point. split; [reflexivity | exact (nth_error_In _ _ E)].
  - apply nth_error_None in E.
    change (List.length CurrentWeatherWidget.directions) with 16%nat in E. lia.
Qed.

(** The compass point of a whole number of degrees: no rounding reaches
    a boundary between two points. *)
Lemma wind_whole (d : Z) :
  (0 <= d <= 1000000)%Z ->
  CurrentWeatherWidget.getWindDirection (Finite (inject_Z d))
  = nth_error CurrentWeatherWidget.directions
      (Z.to_nat (((4 * d + 45) / 90) mod 16)).
Proof.
  intros Hd. unfold CurrentWeatherWidget.getWindDirection.
  change (literal 22.5) with (Finite (45 # 2)).
  assert (Hd' : 0 <= inject_Z d <= 1000000).
  { change 0 with (inject_Z 0). change 1000000 with (inject_Z 1000000).
    rewrite <- !Zle_Qle. exact Hd. }
  set (x := inject_Z d / (45 # 2)).
  assert (Ex : x == inject_Z d * (2 # 45)) by (unfold x; field).
  destruct (div_near (inject_Z d) (45 # 2)) as (r & -> & Hr);
    [reflexivity | fold x; apply Qabs_Qle_condition; lra |].
  fold x in Hr.
  set (f := ((4 * d + 45) / 90)%Z).
  set (rest := ((4 * d + 45) mod 90)%Z).
  assert (Hdiv : (4 * d + 45 = 90 * f + rest)%Z)
    by (unfold f, rest; apply Z.div_mod; lia).
  assert (Hrest : (1 <= rest <= 89)%Z).
  { pose proof (Z.mod_pos_bound (4 * d + 45) 90 ltac:(lia)) as Hm.
    fold rest in Hm. lia. }
  assert (Hq : 4 * inject_Z d + 45 == 90 * inject_Z f + inject_Z rest).
  { change 4 with (inject_Z 4). change 45 with (inject_Z 45).
    change 90 with (inject_Z 90).
    rewrite <- !inject_Z_mult, <- !inject_Z_plus. now rewrite Hdiv. }
  assert (Hrest' : 1 <= inject_Z rest <= 89).
  { change 1 with (inject_Z 1). change 89 with (inject_Z 89).
    rewrite <- !Zle_Qle. exact Hrest. }
  assert (Hfloor : Qfloor (x + (1 # 2)) = f).
  { apply Qfloor_unique; [| rewrite inject_Z_plus;
                             change (inject_Z 1) with 1]; lra. }
  assert (Haway : Spec.away_from_tie x).
  { unfold Spec.away_from_tie. cbv zeta. rewrite Hfloor.
    unfold Spec.margin. lra. }
  assert (Hclose : Qabs (r - x) <= Spec.margin).
  { apply Qle_trans with unit; [exact Hr | discriminate]. }
  cbn [Binary64.Math_round].
  change (inject_Z (Qfloor (r + (1 # 2)))) with (JS.Math_round r).
  rewrite (Math_round_same _ _ Hclose Haway).
  unfold JS.Math_round. rewrite Hfloor.
  apply wind_index. unfold f. apply Z.div_pos; lia.
Qed.

End Wind.
(** ** The comfort index of the globe *)

Lemma total_weight_named (ps : list Earth3DGlobe.WeatherProbability) :
  Permutation (map Earth3DGlobe.condition ps) Spec.named_conditions ->
  Spec.total_weight ps == 1.
Proof.
  intros H. unfold Spec.total_weight.
  rewrite <- (map_map Earth3DGlobe.condition Earth3DGlobe.weight_of).
  rewrite (Qsum_Permutation _ _ (Permutation_map Earth3DGlobe.weight_of H)).
  reflexivity.
Qed.

Lemma score_when_weights_total_one
    (ps : list Earth3DGlobe.WeatherProbability) :
  Spec.total_weight ps == 1 ->
  Earth3DGlobe.calculateComfortIndex ps == Spec.score ps.
Proof.
  intros H. rewrite globe_comfort_formula.
  unfold Spec.score, Spec.comfort_formula. apply clamp_comp.
  rewrite (Math_round_comp _
             (100 * (1 - Spec.Qsum
                (map (fun s =>
                        Earth3DGlobe.weight_of (Earth3DGlobe.condition s)
                        / Spec.total_weight ps
                        * (Earth3DGlobe.probability s / 100)) ps)))).
  - reflexivity.
  - rewrite (Qsum_map_ext
               (fun s => Earth3DGlobe.weight_of (Earth3DGlobe.condition s)
                         * (Earth3DGlobe.probability s / 100))
               (fun s => Earth3DGlobe.weight_of (Earth3DGlobe.condition s)
                         / Spec.total_weight ps
                         * (Earth3DGlobe.probability s / 100))).
    + reflexivity.
    + intros a _. rewrite H. field.
Qed.


(** A percentage is a finite double. *)
Lemma percent_finite (q : Q) : Spec.percent q -> Spec.finite_double q.
Proof.
  unfold Spec.percent, Spec.finite_double. intros H.
  apply Qabs_Qlt_condition.
  assert (H7 : Binary64.pow2 7 <= Binary64.pow2 1024)
    by (apply pow2_le; lia).
  change (Binary64.pow2 7) with 128 in H7. lra.
Qed.

(** Under a label of its own the weight in doubles is the double nearest
    to the decimal weight. *)
Lemma weight_in_doubles (c : string) :
  Spec.own_label c ->
  InDoubles.weight_of c = Binary64.literal (Earth3DGlobe.weight_of c).
Proof.
  intros H.
  destruct (globe_weight c H)
    as [[-> ->] | [[-> ->] | [[-> ->] | [-> ->]]]]; reflexivity.
Qed.

Lemma weight_inherited (c : string) :
  In c InDoubles.inherited_names -> InDoubles.weight_of c = Binary64.NaN.
Proof.
  intros H. cbn in H.
  repeat destruct H as [<- | H]; try reflexivity. destruct H.
Qed.

(** C3, as the code has it.  The comfort index is computed in doubles
    with fixed weights: 0.3 for "Very Hot" and for "Very Cold", 0.25 for
    "Heavy Rain", 0.15 for "Strong Wind", and 0.1 for every other
    condition that is not a name every object inherits (under such a name
    the index is not a number).  For up to 1024 percentages it is a whole
    number from 0 to 100 within 1 of
    round(100 x (1 - sum of weight x probability/100)) clamped to
    [0,100], and equal to it when the value before rounding is away from
    a tie.  The weights are not re-normalised over the entries present;
    they add up to 1.0 when the list holds the four named conditions once
    each, and the formula then is the re-normalised score too. *)
Theorem calculateComfortIndex_fixed_weights :
  (Earth3DGlobe.weight_of "Very Hot" == 0.3
   /\ Earth3DGlobe.weight_of "Very Cold" == 0.3
   /\ Earth3DGlobe.weight_of "Heavy Rain" == 0.25
   /\ Earth3DGlobe.weight_of "Strong Wind" == 0.15)
  /\ (forall c, ~ In c Spec.named_conditions ->
                Earth3DGlobe.weight_of c == 0.1)
  /\ (forall c, Spec.own_label c ->
                InDoubles.weight_of c
                = Binary64.literal (Earth3DGlobe.weight_of c))
  /\ (forall ps,
        Forall (fun p => Spec.percent (Earth3DGlobe.probability p)
                         /\ Spec.own_label (Earth3DGlobe.condition p)) ps ->
        (List.length ps <= 1024)%nat ->
        exists shown : Z,
          InDoubles.calculateComfortIndex ps
          = Binary64.Finite (inject_Z shown)
          /\ (0 <= shown <= 100)%Z
          /\ Qabs (inject_Z shown
                   - Spec.comfort_formula
                       (fun s => Earth3DGlobe.weight_of
                                   (Earth3DGlobe.condition s)) ps) <= 1
          /\ (Spec.away_from_tie (Spec.clamp (Spec.weighted_comfort ps)) ->
              inject_Z shown
              == Spec.comfort_formula
                   (fun s => Earth3DGlobe.weight_of
                               (Earth3DGlobe.condition s)) ps))
  /\ (forall ps,
        Exists (fun p => In (Earth3DGlobe.condition p)
                            InDoubles.inherited_names) ps ->
        InDoubles.calculateComfortIndex ps = Binary64.NaN)
  /\ (forall ps,
        Permutation (map Earth3DGlobe.condition ps) Spec.named_conditions ->
        Spec.total_weight ps == 1
        /\ Spec.comfort_formula
             (fun s => Earth3DGlobe.weight_of (Earth3DGlobe.condition s)) ps
           == Spec.score ps).
Proof.
  split; [repeat split; reflexivity |].
  split.
  { intros c Hc. rewrite weight_of_default; [reflexivity |].
    apply weights_None; intros ->; apply Hc; cbn; tauto. }
  split; [exact weight_in_doubles |].
  split.
  { intros ps Hps Hlen.
    destruct (globe_comfort_near ps Hps Hlen) as (shown & E & Hnear & Hsame).
    destruct (globe_comfort_whole ps) as (z & Ez & Hz).
    { apply Forall_impl with (2 := Hps). intros p [Hp Hc].
      split; [now apply percent_finite | exact Hc]. }
    rewrite E in Ez. injection Ez as Ez. subst shown.
    exists z. repeat split; try assumption; lia. }
  split; [exact globe_comfort_inherited |].
  intros ps H. pose proof (total_weight_named ps H) as Hone.
  split; [exact Hone |].
  rewrite <- globe_comfort_formula.
  now apply score_when_weights_total_one.
Qed.

(** The theorem at concrete lists: the default weight of "Temperature";
    "Very Hot" at 5 % with "Heavy Rain" at 80 %, where the index in
    doubles is within 1 of the formula; "Very Hot" at 20 % with "Heavy
    Rain" at 40 %, away from a tie, where the two agree; a condition
    named "constructor"; and the local calculation for New Delhi, four
    named conditions whose weights add up to one. *)
Lemma calculateComfortIndex_fixed_weights_witness :
  Earth3DGlobe.weight_of "Temperature" == 0.1
  /\ InDoubles.weight_of "Temperature" = Binary64.literal 0.1
  /\ (exists shown : Z,
         InDoubles.calculateComfortIndex Examples.hot_and_rain
         = Binary64.Finite (inject_Z shown)
         /\ (0 <= shown <= 100)%Z
         /\ Qabs (inject_Z shown
                  - Spec.comfort_formula
                      (fun s => Earth3DGlobe.weight_of
                                  (Earth3DGlobe.condition s))
                      Examples.hot_and_rain) <= 1)
  /\ (exists shown : Z,
         InDoubles.calculateComfortIndex Examples.mild_day
         = Binary64.Finite (inject_Z shown)
         /\ inject_Z shown
            == Spec.comfort_formula
                 (fun s => Earth3DGlobe.weight_of
                             (Earth3DGlobe.condition s))
                 Examples.mild_day)
  /\ InDoubles.calculateComfortIndex Examples.inherited_label
     = Binary64.NaN
  /\ Spec.total_weight
       (Earth3DGlobe.calculateWeatherProbabilitiesLocal
          Examples.wholeToString Examples.utc Examples.new_delhi
          Examples.july_4_2025 Examples.globe_thresholds) == 1.
Proof.
  destruct calculateComfortIndex_fixed_weights
    as (_ & Hother & Hdouble & Hnear & Hinherited & Hnamed).
  assert (Hown : forall c,
             existsb (String.eqb c) InDoubles.inherited_names = false ->
             Spec.own_label c).
  { intros c E Hin.
    assert (Ht : existsb (String.eqb c) InDoubles.inherited_names = true).
    { apply existsb_exists. exists c. split; [exact Hin |].
      apply String.eqb_refl. }
    rewrite E in Ht. discriminate Ht. }
  assert (Hpercent : forall q, Qle_bool 0 q && Qle_bool q 100 = true ->
                               Spec.percent q).
  { intros q E. apply andb_prop in E as [E1 E2].
    split; now apply Qle_bool_iff. }
  split.
  { apply Hother. cbn. intros [H | [H | [H | [H | []]]]]; discriminate H. }
  split.
  { apply (Hdouble "Temperature"%string). apply Hown. reflexivity. }
  split.
  { destruct (Hnear Examples.hot_and_rain) as (shown & E & Hz & Hclose & _).
    - repeat constructor;
        try (apply Hpercent; reflexivity); apply Hown; reflexivity.
    - cbn. lia.
    - exists shown. repeat split; assumption || lia. }
  split.
  { destruct (Hnear Examples.mild_day) as (shown & E & _ & _ & Hsame).
    - repeat constructor;
        try (apply Hpercent; reflexivity); apply Hown; reflexivity.
    - cbn. lia.
    - exists shown. split; [exact E |]. apply Hsame.
      unfold Spec.away_from_tie. cbv zeta.
      split; [apply Qle_bool_iff | apply Qlt_alt]; vm_compute; reflexivity. }
  split.
  { apply Hinherited. constructor. cbn. tauto. }
  apply Hnamed. cbn. apply Permutation_refl.
Defined.

(** C3 as stated fails.  With "Very Hot" alone, at 100 %, the weights
    over the entries present add up to 0.3, the index is 70, in exact
    arithmetic and in doubles, and the score with weights re-normalised
    to 1.0 would be 0.  In doubles the index can also be one below the
    formula: 5 % of "Very Hot" and 80 % of "Heavy Rain" leave
    78.49999999999999 before rounding, where the exact value is 78.5.
    And under a condition named "constructor" the index is not a
    number. *)
Lemma comfort_weights_not_renormalised :
  Spec.total_weight Examples.only_very_hot == 0.3
  /\ Earth3DGlobe.calculateComfortIndex Examples.only_very_hot == 70
  /\ Spec.score Examples.only_very_hot == 0
  /\ ~ Earth3DGlobe.calculateComfortIndex Examples.only_very_hot
       == Spec.score Examples.only_very_hot
  /\ InDoubles.calculateComfortIndex Examples.only_very_hot
     = Binary64.Finite 70
  /\ InDoubles.calculateComfortIndex Examples.hot_and_rain
     = Binary64.Finite 78
  /\ Spec.comfort_formula
       (fun s => Earth3DGlobe.weight_of (Earth3DGlobe.condition s))
       Examples.hot_and_rain == 79
  /\ InDoubles.calculateComfortIndex Examples.inherited_label
     = Binary64.NaN.
Proof.
  repeat split; try reflexivity.
  intros H. apply Qeq_bool_iff in H. vm_compute in H. discriminate H.
Qed.

(** ** The panel's comfort figure *)

Lemma panel_shows_calculated (now : Z)
    (ps : option (list WeatherProbability)) (comfortIndex : Q)
    (isVisible : bool) (eventDate : option IsoDate)
    (v : WeatherAnalysisPanel.View) :
  WeatherAnalysisPanel.WeatherAnalysisPanel now ps comfortIndex isVisible
    eventDate = Some v ->
  WeatherAnalysisPanel.comfort_shown v
  = WeatherAnalysisPanel.calculateComfortIndex ps.
Proof.
  unfold WeatherAnalysisPanel.WeatherAnalysisPanel.
  destruct ps as [[| p l] |]; try discriminate.
  destruct isVisible; cbn [negb]; [| discriminate].
  intros H. injection H as <-. reflexivity.
Qed.

Lemma panel_ignores_comfortIndex (now : Z)
    (ps : option (list WeatherProbability)) (comfortIndex comfortIndex' : Q)
    (isVisible : bool) (eventDate : option IsoDate) :
  WeatherAnalysisPanel.WeatherAnalysisPanel now ps comfortIndex isVisible
    eventDate
  = WeatherAnalysisPanel.WeatherAnalysisPanel now ps comfortIndex' isVisible
      eventDate.
Proof. reflexivity. Qed.

(** The panel renders exactly when it is visible and has entries. *)
Lemma panel_renders_iff (now : Z) (ps : option (list WeatherProbability))
    (comfortIndex : Q) (isVisible : bool) (eventDate : option IsoDate) :
  WeatherAnalysisPanel.WeatherAnalysisPanel now ps comfortIndex isVisible
    eventDate = None
  <-> (isVisible = false \/ ps = None \/ ps = Some []).
Proof.
  unfold WeatherAnalysisPanel.WeatherAnalysisPanel.
  destruct ps as [[| p l] |]; try tauto.
  destruct isVisible; cbn [negb]; split; try tauto.
  - discriminate.
  - intros [H | [H | H]]; discriminate H.
Qed.

(** C10, as the code has it.  The panel renders nothing for an empty or
    missing list (or when it is not visible), so the 0 that
    [calculateComfortIndex] returns for such a list is never displayed.
    When the panel renders, the figure displayed is the one that
    [calculateComfortIndex] computes from the list in doubles, whatever
    [comfortIndex] is passed in: for up to 1024 percentages a whole number
    from 0 to 100 within 1 of round(100 - mean) clamped to [0,100], and
    equal to it when 100 - mean is away from a tie. *)
Theorem panel_shows_equal_weight_comfort :
  (forall now ps comfortIndex isVisible eventDate,
      WeatherAnalysisPanel.WeatherAnalysisPanel now ps comfortIndex
        isVisible eventDate = None
      <-> (isVisible = false \/ ps = None \/ ps = Some []))
  /\ WeatherAnalysisPanel.calculateComfortIndex None = Binary64.Finite 0
  /\ WeatherAnalysisPanel.calculateComfortIndex (Some [])
     = Binary64.Finite 0
  /\ (forall now ps comfortIndex isVisible eventDate v,
        WeatherAnalysisPanel.WeatherAnalysisPanel now ps comfortIndex
          isVisible eventDate = Some v ->
        WeatherAnalysisPanel.comfort_shown v
        = WeatherAnalysisPanel.calculateComfortIndex ps
        /\ forall comfortIndex',
             WeatherAnalysisPanel.WeatherAnalysisPanel now ps comfortIndex'
               isVisible eventDate = Some v)
  /\ (forall p l,
        Forall (fun p => Spec.percent (probability p)) (p :: l) ->
        (List.length (p :: l) <= 1024)%nat ->
        exists shown : Z,
          WeatherAnalysisPanel.calculateComfortIndex (Some (p :: l))
          = Binary64.Finite (inject_Z shown)
          /\ (0 <= shown <= 100)%Z
          /\ Qabs (inject_Z shown
                   - Spec.equal_weight_comfort (Some (p :: l))) <= 1
          /\ (Spec.away_from_tie
                (Spec.clamp (100 - Spec.mean (map probability (p :: l)))) ->
              inject_Z shown == Spec.equal_weight_comfort (Some (p :: l)))).
Proof.
  split; [exact panel_renders_iff |].
  split; [reflexivity |]. split; [reflexivity |]. split.
  - intros now ps comfortIndex isVisible eventDate v H. split.
    + exact (panel_shows_calculated _ _ _ _ _ _ H).
    + intros comfortIndex'.
      now rewrite (panel_ignores_comfortIndex now ps comfortIndex'
                     comfortIndex).
  - intros p l Hps Hlen.
    destruct (panel_comfort_near p l Hps Hlen)
      as (shown & E & Hnear & Hsame).
    destruct (panel_comfort_whole (Some (p :: l))) as (z & Ez & Hz).
    { split.
      - apply Forall_impl with (2 := Hps). intros q. apply percent_finite.
      - change (2 ^ 32)%Z with 4294967296%Z. lia. }
    rewrite E in Ez. injection Ez as Ez. subst shown.
    exists z. repeat split; try assumption; lia.
Qed.

(** The panel fed the simulated analysis for New Delhi (probabilities
    20, 10 and 5, comfort index 60) shows 88, not the 60 handed to it;
    and for probabilities 20 and 40 the figure is round(100 - 30). *)
Lemma panel_shows_equal_weight_comfort_witness :
  (exists v,
      WeatherAnalysisPanel.WeatherAnalysisPanel 0
        (Some (probabilities (Examples.simulated Examples.draws_low)))
        (comfort_index (Examples.simulated Examples.draws_low))
        true None = Some v
      /\ WeatherAnalysisPanel.comfort_shown v
         = WeatherAnalysisPanel.calculateComfortIndex
             (Some (probabilities (Examples.simulated Examples.draws_low)))
      /\ WeatherAnalysisPanel.comfort_shown v = Binary64.Finite 88
      /\ comfort_index (Examples.simulated Examples.draws_low) == 60)
  /\ (exists shown : Z,
         WeatherAnalysisPanel.calculateComfortIndex
           (Some Examples.calm_day)
         = Binary64.Finite (inject_Z shown)
         /\ (0 <= shown <= 100)%Z
         /\ inject_Z shown
            == Spec.equal_weight_comfort (Some Examples.calm_day)).
Proof.
  destruct panel_shows_equal_weight_comfort
    as (_ & _ & _ & Hshown & Hnear).
  split.
  - eexists. split; [reflexivity |]. split.
    + refine (proj1 (Hshown 0%Z
               (Some (probabilities (Examples.simulated Examples.draws_low)))
               (comfort_index (Examples.simulated Examples.draws_low))
               true None _ _)).
      reflexivity.
    + split; reflexivity.
  - destruct (Hnear (Examples.entry "Heavy Rain" 20)
                    [Examples.entry "Strong Wind" 40])
      as (shown & E & Hz & _ & Hsame).
    + repeat constructor; cbn; discriminate.
    + cbn. lia.
    + exists shown. split; [exact E |]. split; [exact Hz |].
      apply Hsame. unfold Spec.away_from_tie. cbv zeta.
      split; [apply Qle_bool_iff | apply Qlt_alt]; vm_compute; reflexivity.
Defined.

(** C10 as stated fails.  For an empty or a missing list the panel
    displays nothing, so no 0 is displayed; and for the probabilities 0,
    56, 93 and 93, whose mean is 60.5, the panel displays 39 while
    round(100 - mean) is 40: the code divides each probability by 100
    before it adds them up, and the sum in doubles falls short. *)
Lemma panel_figure_not_as_claimed :
  WeatherAnalysisPanel.WeatherAnalysisPanel 0 (Some []) 80 true None = None
  /\ WeatherAnalysisPanel.WeatherAnalysisPanel 0 None 80 true None = None
  /\ (exists v,
         WeatherAnalysisPanel.WeatherAnalysisPanel 0
           (Some Examples.mean_at_tie) 80 true None = Some v
         /\ WeatherAnalysisPanel.comfort_shown v = Binary64.Finite 39)
  /\ Spec.mean (map probability Examples.mean_at_tie) == 60.5
  /\ Spec.equal_weight_comfort (Some Examples.mean_at_tie) == 40.
Proof.
  split; [reflexivity |]. split; [reflexivity |].
  split; [eexists; split; reflexivity |].
  split; reflexivity.
Qed.

(** ** Ranges *)

Lemma min_max_within (lo hi a b x : Q) :
  lo <= b -> b <= a -> a <= hi ->
  lo <= Math_min a (Math_max b x) <= hi.
Proof.
  intros Hlo H Hhi. unfold Math_min, Math_max. split.
  - apply Qle_trans with b; [exact Hlo |].
    apply Q.min_glb; [exact H | apply Q.le_max_l].
  - apply Qle_trans with a; [apply Q.le_min_l | exact Hhi].
Qed.

Lemma percent_weaken (a b x : Q) :
  0 <= a -> b <= 100 -> a <= x <= b -> Spec.percent x.
Proof. unfold Spec.percent. intros. lra. Qed.

Lemma local_probabilities_range (numberToString : Q -> string)
    (LocalTZA : Z -> Z) (location : LatLng) (date : Date)
    (thresholds : Earth3DGlobe.WeatherThresholds) :
  Forall (fun p => 5 <= Earth3DGlobe.probability p <= 90)
    (Earth3DGlobe.calculateWeatherProbabilitiesLocal numberToString LocalTZA
       location date thresholds).
Proof.
  unfold Earth3DGlobe.calculateWeatherProbabilitiesLocal.
  repeat (apply Forall_cons || apply Forall_nil);
    cbn [Earth3DGlobe.probability]; apply min_max_within; lra.
Qed.

Lemma round_range (a b : Z) (x : Q) :
  (0 <= a)%Z -> (b <= 100)%Z ->
  inject_Z a <= x -> x <= inject_Z b ->
  Spec.percent (Math_round x).
Proof.
  intros H0 H100 Ha Hb.
  destruct (Math_round_between a b x (conj Ha Hb)) as [Hl Hu].
  rewrite Zle_Qle in H0, H100.
  unfold Spec.percent.
  change 0 with (inject_Z 0). change 100 with (inject_Z 100).
  split;
    [apply Qle_trans with (inject_Z a) | apply Qle_trans with (inject_Z b)];
    assumption.
Qed.

Lemma simulated_range (now : Z) (place : Place)
    (event_date date1 date2 : IsoDate)
    (r_comfort r_temperature r_precipitation r_wind r_alt1 r_alt2 : Q) :
  0 <= r_comfort < 1 -> 0 <= r_temperature < 1 ->
  0 <= r_precipitation < 1 -> 0 <= r_wind < 1 ->
  0 <= r_alt1 < 1 -> 0 <= r_alt2 < 1 ->
  let a := Index.fallbackAnalysis_object now place event_date
             r_comfort r_temperature r_precipitation r_wind
             date1 r_alt1 date2 r_alt2 in
  Spec.percent (comfort_index a)
  /\ Forall (fun p => Spec.percent (probability p)) (probabilities a)
  /\ Forall (fun e => Spec.percent (alt_comfort_index e))
            (alternative_dates a).
Proof.
  intros H0 H1 H2 H3 H4 H5 a. subst a.
  unfold Index.fallbackAnalysis_object.
  cbn [comfort_index probabilities alternative_dates].
  split; [| split; repeat (apply Forall_cons || apply Forall_nil);
                   cbn [probability alt_comfort_index]].
  - apply (round_range 60 90); [lia | lia | unfold inject_Z; lra ..].
  - apply (round_range 20 50); [lia | lia | unfold inject_Z; lra ..].
  - apply (round_range 10 50); [lia | lia | unfold inject_Z; lra ..].
  - apply (round_range 5 30); [lia | lia | unfold inject_Z; lra ..].
  - apply (round_range 70 90); [lia | lia | unfold inject_Z; lra ..].
  - apply (round_range 65 90); [lia | lia | unfold inject_Z; lra ..].
Qed.

Lemma fallback_rows_range (r_temperature r_precipitation r_wind : Q) :
  0 <= r_temperature < 1 -> 0 <= r_precipitation < 1 -> 0 <= r_wind < 1 ->
  Forall (fun p => Spec.percent (Map2D.probability p))
    (Map2D.fallback_rows r_temperature r_precipitation r_wind).
Proof.
  intros H1 H2 H3. unfold Map2D.fallback_rows, Spec.percent.
  repeat (apply Forall_cons || apply Forall_nil);
    cbn [Map2D.probability]; lra.
Qed.

Lemma local_probabilities_percent (numberToString : Q -> string)
    (LocalTZA : Z -> Z) (location : LatLng) (date : Date)
    (thresholds : Earth3DGlobe.WeatherThresholds) :
  Forall (fun p => Spec.percent (Earth3DGlobe.probability p))
    (Earth3DGlobe.calculateWeatherProbabilitiesLocal numberToString LocalTZA
       location date thresholds).
Proof.
  eapply Forall_impl;
    [| apply (local_probabilities_range numberToString LocalTZA)].
  intros p Hp. unfold Spec.percent. cbv beta in Hp. lra.
Qed.

(** C4, as the code has it.  Every run of the three analyses ends with a
    result, and whatever the network does the result is either the reply
    of the backend, passed on as it came, or a local result whose
    probabilities and comfort index lie in [0,100] (the draws of
    [Math.random()] being in [0,1), and for the index page the date being
    valid).  The local calculation of the globe returns probabilities in
    [0,100] for every input.  Both comfort calculations return a whole
    number from 0 to 100 for every list of finite probabilities, except
    that the globe's returns what is not a number when a condition
    carries a name that every object inherits. *)
Theorem local_results_within_percent_range :
  (forall numberToString LocalTZA location date thresholds,
      map Earth3DGlobe.condition
        (Earth3DGlobe.calculateWeatherProbabilitiesLocal numberToString
           LocalTZA location date thresholds) = Spec.named_conditions
      /\ Forall (fun p => Spec.percent (Earth3DGlobe.probability p))
           (Earth3DGlobe.calculateWeatherProbabilitiesLocal numberToString
              LocalTZA location date thresholds))
  /\ (forall BACKEND_URL numberToString LocalTZA network (St : Type)
             location date thresholds (w : World AnalyzeRequest St),
        exists r w',
          Earth3DGlobe.analyzeWeatherRisk BACKEND_URL numberToString
            LocalTZA network location date thresholds w = (Normal r, w')
          /\ match Spec.globe_delivered BACKEND_URL network location date
                     thresholds with
             | Some data =>
                 Earth3DGlobe.probabilities r
                 = Earth3DGlobe.data_probabilities data
                 /\ Earth3DGlobe.result_comfortIndex r
                    = Earth3DGlobe.data_comfort_index data
             | None =>
                 Earth3DGlobe.probabilities r
                 = Earth3DGlobe.calculateWeatherProbabilitiesLocal
                     numberToString LocalTZA location date thresholds
                 /\ Forall
                      (fun p => Spec.percent (Earth3DGlobe.probability p))
                      (Earth3DGlobe.probabilities r)
                 /\ Spec.percent (Earth3DGlobe.result_comfortIndex r)
             end)
  /\ (forall BACKEND_URL now draws network place t thresholds w,
        Spec.unit_draws draws ->
        Spec.date_in_range (DateOf t) ->
        exists w',
          Index.handleAnalyze BACKEND_URL now draws network (Some place)
            (DateOf t) (Some thresholds) w = (Normal tt, w')
          /\ match Spec.page_delivered BACKEND_URL now network place
                     (DateOf t) thresholds with
             | Some data => Index.analysisData (state w') = data
             | None =>
                 exists a,
                   Index.analysisData (state w') = Some a
                   /\ List.length (probabilities a) = 3%nat
                   /\ List.length (alternative_dates a) = 2%nat
                   /\ Spec.percent (comfort_index a)
                   /\ Forall (fun p => Spec.percent (probability p))
                             (probabilities a)
                   /\ Forall (fun e => Spec.percent (alt_comfort_index e))
                             (alternative_dates a)
             end)
  /\ (forall BACKEND_URL draws network lat lng date radiusKm polygon w,
        Spec.unit_draws draws ->
        exists w',
          Map2D.analyzeWeatherRisk BACKEND_URL draws network lat lng date
            radiusKm polygon w = (Normal tt, w')
          /\ match Spec.map_delivered BACKEND_URL network lat lng date
                     radiusKm polygon (Map2D.areaRadiusKm (state w)) with
             | Some data =>
                 Map2D.weatherProbabilities (state w')
                 = match Map2D.data_probabilities data with
                   | Some rows => rows
                   | None => []
                   end
             | None =>
                 List.length (Map2D.weatherProbabilities (state w')) = 3%nat
                 /\ Forall (fun p => Spec.percent (Map2D.probability p))
                           (Map2D.weatherProbabilities (state w'))
             end)
  /\ (forall ps,
        Forall (fun p => Spec.finite_double (Earth3DGlobe.probability p)
                         /\ Spec.own_label (Earth3DGlobe.condition p)) ps ->
        exists z,
          InDoubles.calculateComfortIndex ps = Binary64.Finite (inject_Z z)
          /\ (0 <= z <= 100)%Z)
  /\ (forall ps,
        Exists (fun p => In (Earth3DGlobe.condition p)
                            InDoubles.inherited_names) ps ->
        InDoubles.calculateComfortIndex ps = Binary64.NaN)
  /\ (forall ps,
        match ps with
        | Some l =>
            Forall (fun p => Spec.finite_double (probability p)) l
            /\ (Z.of_nat (List.length l) < 2 ^ 32)%Z
        | None => True
        end ->
        exists z,
          WeatherAnalysisPanel.calculateComfortIndex ps
          = Binary64.Finite (inject_Z z)
          /\ (0 <= z <= 100)%Z).
Proof.
  split.
  { intros numberToString LocalTZA location date thresholds.
    split; [reflexivity | apply local_probabilities_percent]. }
  split.
  { intros BACKEND_URL numberToString LocalTZA network St location date
           thresholds w.
    destruct (globe_run_cases BACKEND_URL numberToString LocalTZA network
                St location date thresholds w) as (w' & E).
    eexists. exists w'. split; [exact E |].
    destruct (Spec.globe_delivered _ _ _ _ _) as [data |].
    - split; reflexivity.
    - split; [reflexivity |].
      split; [apply local_probabilities_percent |].
      unfold Spec.percent. cbn. lra. }
  split.
  { intros BACKEND_URL now draws network place t thresholds w
           Hdraws Hrange.
    destruct (handleAnalyze_cases BACKEND_URL now draws network
                place t thresholds w Hrange)
      as (w' & Hrun & _ & _ & Hcase).
    exists w'. split; [exact Hrun |].
    destruct (Spec.page_delivered _ _ _ _ _ _) as [data |].
    - exact (proj1 Hcase).
    - eexists. split; [exact (proj1 Hcase) |].
      split; [reflexivity |]. split; [reflexivity |].
      apply simulated_range; apply Hdraws. }
  split.
  { intros BACKEND_URL draws network lat lng date radiusKm polygon w
           Hdraws.
    destruct (map_run_cases BACKEND_URL draws network lat lng date
                radiusKm polygon w) as (w' & Hrun & _ & _ & Hcase).
    exists w'. split; [exact Hrun |].
    destruct (Spec.map_delivered _ _ _ _ _ _ _ _) as [data |].
    - exact (proj1 Hcase).
    - rewrite (proj1 Hcase).
      split; [reflexivity | apply fallback_rows_range; apply Hdraws]. }
  split; [exact globe_comfort_whole |].
  split; [exact globe_comfort_inherited | exact panel_comfort_whole].
Qed.

(** The three analyses offline, New Delhi, 4 July 2025, every draw 1/2:
    everything within [0,100]. *)
Lemma local_results_within_percent_range_witness :
  (exists w',
      Index.handleAnalyze "" 0 Examples.draws_half Examples.offline
        (Some Examples.new_delhi_place) Examples.july_4_2025
        (Some Examples.selector_thresholds) Examples.fresh_page
      = (Normal tt, w')
      /\ exists a,
           Index.analysisData (state w') = Some a
           /\ Spec.percent (comfort_index a)
           /\ Forall (fun p => Spec.percent (probability p))
                     (probabilities a)
           /\ Forall (fun e => Spec.percent (alt_comfort_index e))
                     (alternative_dates a))
  /\ (exists w',
         Map2D.analyzeWeatherRisk Examples.backend_url Examples.draws_half
           Examples.offline 28.61 77.21 Examples.july_4_2025 None None
           Examples.fresh_map = (Normal tt, w')
         /\ Forall (fun p => Spec.percent (Map2D.probability p))
                   (Map2D.weatherProbabilities (state w')))
  /\ (exists z,
         InDoubles.calculateComfortIndex Examples.hot_and_rain
         = Binary64.Finite (inject_Z z)
         /\ (0 <= z <= 100)%Z).
Proof.
  destruct local_results_within_percent_range
    as (_ & _ & Hindex & Hmap & Hcomfort & _).
  assert (Hdraws : Spec.unit_draws Examples.draws_half).
  { intros n. unfold Examples.draws_half. lra. }
  split; [| split].
  - unfold Examples.july_4_2025.
    destruct (Hindex ""%string 0%Z Examples.draws_half Examples.offline
                Examples.new_delhi_place (20273 * msPerDay)%Z
                Examples.selector_thresholds Examples.fresh_page Hdraws)
      as (w' & Hrun & Hcase).
    + vm_compute. split; discriminate.
    + exists w'. split; [exact Hrun |].
      cbv beta iota delta [Spec.page_delivered Spec.delivered
                             Examples.offline toISODate] in Hcase.
      destruct Hcase as (a & Hdata & _ & _ & Hrange).
      exists a. split; [exact Hdata | exact Hrange].
  - destruct (Hmap Examples.backend_url Examples.draws_half
                Examples.offline 28.61 77.21 Examples.july_4_2025 None None
                Examples.fresh_map Hdraws) as (w' & Hrun & Hcase).
    exists w'. split; [exact Hrun |].
    cbv beta iota delta [Spec.map_delivered Spec.delivered
                           Examples.offline Examples.backend_url truthy
                           Examples.july_4_2025 toISODate] in Hcase.
    exact (proj2 Hcase).
  - apply Hcomfort.
    assert (Hfinite : forall q, Qle_bool 0 q && Qle_bool q 100 = true ->
                                Spec.finite_double q).
    { intros q E. apply andb_prop in E as [E1 E2].
      apply percent_finite. split; now apply Qle_bool_iff. }
    assert (Hown : forall c,
               existsb (String.eqb c) InDoubles.inherited_names = false ->
               Spec.own_label c).
    { intros c E Hin.
      assert (Ht : existsb (String.eqb c) InDoubles.inherited_names = true).
      { apply existsb_exists. exists c. split; [exact Hin |].
        apply String.eqb_refl. }
      rewrite E in Ht. discriminate Ht. }
    repeat constructor;
      try (apply Hfinite; reflexivity); apply Hown; reflexivity.
Defined.

(** C4 as stated fails: a reply of the backend is passed on as it came.
    With a reply that holds a probability of 150 and a comfort index of
    120, the index page and the globe end up with exactly these
    values.  And the comfort index that the globe computes for a
    condition named "constructor" is not a number. *)
Lemma backend_reply_stored_unchecked :
  (exists w',
      Index.handleAnalyze Examples.backend_url 0 Examples.draws_low
        (Examples.serving (Some Examples.reply_out_of_range))
        (Some Examples.new_delhi_place) Examples.july_4_2025
        (Some Examples.selector_thresholds) Examples.fresh_page
      = (Normal tt, w')
      /\ Index.analysisData (state w') = Some Examples.reply_out_of_range)
  /\ ~ Spec.percent (comfort_index Examples.reply_out_of_range)
  /\ ~ Forall (fun p => Spec.percent (probability p))
              (probabilities Examples.reply_out_of_range)
  /\ (exists r w',
         Earth3DGlobe.analyzeWeatherRisk Examples.backend_url
           Examples.wholeToString Examples.utc
           (Examples.serving Examples.globe_reply_out_of_range)
           Examples.new_delhi Examples.july_4_2025
           Examples.globe_thresholds Examples.fresh_globe = (Normal r, w')
         /\ Earth3DGlobe.result_comfortIndex r = 120
         /\ map Earth3DGlobe.probability (Earth3DGlobe.probabilities r)
            = [150])
  /\ InDoubles.calculateComfortIndex Examples.inherited_label
     = Binary64.NaN.
Proof.
  split; [eexists; split; reflexivity |].
  split.
  { intros [_ H]. apply Qle_bool_iff in H. discriminate H. }
  split.
  { intros H. inversion H as [| p l [_ Hp] _]. subst.
    apply Qle_bool_iff in Hp. discriminate Hp. }
  split; [| reflexivity].
  do 2 eexists. split; [reflexivity |]. split; reflexivity.
Qed.

(** ** Thresholds and the local probabilities *)

(** The thresholds reach the labels only: the probabilities of the local
    calculation are the same for every threshold set. *)
Lemma local_probabilities_ignore_thresholds (numberToString : Q -> string)
    (LocalTZA : Z -> Z) (location : LatLng) (date : Date)
    (th th' : Earth3DGlobe.WeatherThresholds) :
  map (fun p => (Earth3DGlobe.condition p, Earth3DGlobe.probability p))
    (Earth3DGlobe.calculateWeatherProbabilitiesLocal numberToString LocalTZA
       location date th)
  = map (fun p => (Earth3DGlobe.condition p, Earth3DGlobe.probability p))
      (Earth3DGlobe.calculateWeatherProbabilitiesLocal numberToString
         LocalTZA location date th').
Proof. reflexivity. Qed.




(** The threshold that was changed shows in the label of the entry. *)
Example stricter_threshold_changes_label :
  map Earth3DGlobe.threshold
    (Earth3DGlobe.calculateWeatherProbabilitiesLocal
       Examples.wholeToString Examples.utc Examples.new_delhi
       Examples.july_4_2025 Examples.globe_thresholds)
  = [">32°C"; "<0°C"; ">5mm"; ">15m/s"]%string
  /\ map Earth3DGlobe.threshold
       (Earth3DGlobe.calculateWeatherProbabilitiesLocal
          Examples.wholeToString Examples.utc Examples.new_delhi
          Examples.july_4_2025 Examples.globe_thresholds_stricter)
     = [">40°C"; "<-5°C"; ">20mm"; ">25m/s"]%string.
Proof. split; reflexivity. Qed.

(** ** A result is always delivered *)

(** The effect of the globe never leaves the analysis hidden for a
    selected location. *)
Lemma globe_analyzeWeather_shows (BACKEND_URL : string)
    (numberToString : Q -> string) (LocalTZA : Z -> Z)
    (network : string -> AnalyzeRequest ->
               outcome (Response Earth3DGlobe.BackendData))
    (location : LatLng) (date : Date)
    (thresholds : Earth3DGlobe.WeatherThresholds)
    (w : World AnalyzeRequest Earth3DGlobe.GlobeState) :
  exists w',
    Earth3DGlobe.analyzeWeather BACKEND_URL numberToString LocalTZA network
      (Some location) date thresholds w = (Normal tt, w')
    /\ Earth3DGlobe.showAnalysis (state w') = true.
Proof.
  unfold Earth3DGlobe.analyzeWeather.
  unfold try_catch at 1. unfold bind at 1.
  destruct (globe_run_returns BACKEND_URL numberToString LocalTZA network
              _ location date thresholds w) as (r & [sent calls log st] & ->).
  unfold_run. eexists. split; reflexivity.
Qed.





(** ** Determinism of the fallback results *)

Lemma simulated_ext (now now' : Z) (place : Place) (t : Z)
    (draws draws' : nat -> Q) (n n' : nat) :
  utcDay now = utcDay now' ->
  (forall i, (i < 6)%nat -> draws (i + n)%nat = draws' (i + n')%nat) ->
  Index.fallbackAnalysis_object now place (civil_from_days (utcDay t))
    (draws n) (draws (1 + n)%nat) (draws (2 + n)%nat) (draws (3 + n)%nat)
    (civil_from_days (utcDay t + 1)) (draws (4 + n)%nat)
    (civil_from_days (utcDay t + 2)) (draws (5 + n)%nat)
  = Index.fallbackAnalysis_object now' place (civil_from_days (utcDay t))
      (draws' n') (draws' (1 + n')%nat) (draws' (2 + n')%nat)
      (draws' (3 + n')%nat)
      (civil_from_days (utcDay t + 1)) (draws' (4 + n')%nat)
      (civil_from_days (utcDay t + 2)) (draws' (5 + n')%nat).
Proof.
  intros Hday Hdraws.
  assert (E0 : draws n = draws' n') by exact (Hdraws 0%nat ltac:(lia)).
  assert (E1 : draws (1 + n)%nat = draws' (1 + n')%nat)
    by exact (Hdraws 1%nat ltac:(lia)).
  assert (E2 : draws (2 + n)%nat = draws' (2 + n')%nat)
    by exact (Hdraws 2%nat ltac:(lia)).
  assert (E3 : draws (3 + n)%nat = draws' (3 + n')%nat)
    by exact (Hdraws 3%nat ltac:(lia)).
  assert (E4 : draws (4 + n)%nat = draws' (4 + n')%nat)
    by exact (Hdraws 4%nat ltac:(lia)).
  assert (E5 : draws (5 + n)%nat = draws' (5 + n')%nat)
    by exact (Hdraws 5%nat ltac:(lia)).
  rewrite E0, E1, E2, E3, E4, E5.
  unfold Index.fallbackAnalysis_object, Index.today.
  now rewrite Hday.
Qed.

(** C2, as the code has it.  With no backend reachable the fallback
    result of the globe is the same in every run on one host: it is a
    function of the location, the date and the thresholds.  The simulated
    results of the index page and of the 2D map are functions of the
    inputs and of the draws of [Math.random()] (for the index page, also
    of the current day): two runs give the same result when their draws
    (and the day) are the same. *)
Theorem fallback_determined_by_inputs_and_draws :
  (forall BACKEND_URL BACKEND_URL' numberToString LocalTZA network network'
          St St' location date thresholds
          (w : World AnalyzeRequest St) (w' : World AnalyzeRequest St'),
      Spec.unreachable network \/ truthy BACKEND_URL = false ->
      Spec.unreachable network' \/ truthy BACKEND_URL' = false ->
      fst (Earth3DGlobe.analyzeWeatherRisk BACKEND_URL numberToString
             LocalTZA network location date thresholds w)
      = fst (Earth3DGlobe.analyzeWeatherRisk BACKEND_URL' numberToString
               LocalTZA network' location date thresholds w'))
  /\ (forall BACKEND_URL BACKEND_URL' now now' draws draws' network network'
             place t thresholds w w',
        Spec.unreachable network -> Spec.unreachable network' ->
        Spec.date_in_range (DateOf t) ->
        utcDay now = utcDay now' ->
        (forall i, (i < 6)%nat ->
                   draws (i + random_calls w)%nat
                   = draws' (i + random_calls w')%nat) ->
        Index.analysisData
          (state (snd (Index.handleAnalyze BACKEND_URL now draws network
                         (Some place) (DateOf t) (Some thresholds) w)))
        = Index.analysisData
            (state (snd (Index.handleAnalyze BACKEND_URL' now' draws'
                           network' (Some place) (DateOf t)
                           (Some thresholds) w'))))
  /\ (forall BACKEND_URL BACKEND_URL' draws draws' network network'
             lat lng date radiusKm polygon w w',
        Spec.unreachable network \/ truthy BACKEND_URL = false ->
        Spec.unreachable network' \/ truthy BACKEND_URL' = false ->
        (forall i, (i < 3)%nat ->
                   draws (i + random_calls w)%nat
                   = draws' (i + random_calls w')%nat) ->
        Map2D.weatherProbabilities
          (state (snd (Map2D.analyzeWeatherRisk BACKEND_URL draws network
                         lat lng date radiusKm polygon w)))
        = Map2D.weatherProbabilities
            (state (snd (Map2D.analyzeWeatherRisk BACKEND_URL' draws'
                           network' lat lng date radiusKm polygon w')))).
Proof.
  split; [| split].
  - intros BACKEND_URL BACKEND_URL' numberToString LocalTZA network network'
           St St' location date thresholds w w' Hdown Hdown'.
    destruct (globe_run_unreachable BACKEND_URL numberToString LocalTZA
                network St location date thresholds w Hdown) as (v & ->).
    destruct (globe_run_unreachable BACKEND_URL' numberToString LocalTZA
                network' St' location date thresholds w' Hdown')
      as (v' & ->).
    reflexivity.
  - intros BACKEND_URL BACKEND_URL' now now' draws draws' network network'
           place t thresholds w w' Hdown Hdown' Hrange Hday Hdraws.
    destruct (handleAnalyze_unreachable BACKEND_URL now draws network place
                t thresholds w Hdown Hrange) as (v & Hrun & Hdata & _).
    destruct (handleAnalyze_unreachable BACKEND_URL' now' draws' network'
                place t thresholds w' Hdown' Hrange)
      as (v' & Hrun' & Hdata' & _).
    rewrite Hrun, Hrun'. cbn [snd]. rewrite Hdata, Hdata'.
    f_equal. now apply simulated_ext.
  - intros BACKEND_URL BACKEND_URL' draws draws' network network'
           lat lng date radiusKm polygon w w' Hdown Hdown' Hdraws.
    destruct (map_run_unreachable BACKEND_URL draws network lat lng date
                radiusKm polygon w Hdown) as (v & Hrun & Hrows & _).
    destruct (map_run_unreachable BACKEND_URL' draws' network' lat lng date
                radiusKm polygon w' Hdown') as (v' & Hrun' & Hrows' & _).
    rewrite Hrun, Hrun'. cbn [snd]. rewrite Hrows, Hrows'.
    f_equal; [exact (Hdraws 0%nat ltac:(lia))
             | exact (Hdraws 1%nat ltac:(lia))
             | exact (Hdraws 2%nat ltac:(lia))].
Qed.

(** Two offline runs of the index page with the same draws, built on the
    same day at different times. *)
Lemma fallback_determined_by_inputs_and_draws_witness :
  Index.analysisData
    (state (snd (Index.handleAnalyze "" 0 Examples.draws_half
                   Examples.offline (Some Examples.new_delhi_place)
                   (DateOf (20273 * msPerDay))
                   (Some Examples.selector_thresholds)
                   Examples.fresh_page)))
  = Index.analysisData
      (state (snd (Index.handleAnalyze Examples.backend_url 3600000
                     Examples.draws_half Examples.offline
                     (Some Examples.new_delhi_place)
                     (DateOf (20273 * msPerDay))
                     (Some Examples.selector_thresholds)
                     Examples.fresh_page))).
Proof.
  destruct fallback_determined_by_inputs_and_draws as (_ & Hindex & _).
  apply Hindex.
  - intros url body. exact I.
  - intros url body. exact I.
  - vm_compute. split; discriminate.
  - reflexivity.
  - intros i _. reflexivity.
Defined.

(** C2 as stated fails: two offline runs of the index page for the same
    location, date and thresholds, one with every draw 0 and one with
    every draw 1/2, produce different analyses (comfort index 60 and 75);
    so do two such runs of the 2D map. *)
Lemma simulated_analysis_differs_between_runs :
  Index.analysisData
    (state (snd (Index.handleAnalyze "" 0 Examples.draws_low
                   Examples.offline (Some Examples.new_delhi_place)
                   Examples.july_4_2025 (Some Examples.selector_thresholds)
                   Examples.fresh_page)))
  <> Index.analysisData
       (state (snd (Index.handleAnalyze "" 0 Examples.draws_half
                      Examples.offline (Some Examples.new_delhi_place)
                      Examples.july_4_2025
                      (Some Examples.selector_thresholds)
                      Examples.fresh_page)))
  /\ Map2D.weatherProbabilities
       (state (snd (Map2D.analyzeWeatherRisk "" Examples.draws_low
                      Examples.offline 28.61 77.21 Examples.july_4_2025
                      None None Examples.fresh_map)))
     <> Map2D.weatherProbabilities
          (state (snd (Map2D.analyzeWeatherRisk "" Examples.draws_half
                         Examples.offline 28.61 77.21 Examples.july_4_2025
                         None None Examples.fresh_map))).
Proof.
  split; intros H; vm_compute in H; discriminate H.
Qed.

(** ** Alternative dates of the simulated analysis *)

Lemma next_days_differ (d k : Z) :
  (k <> 0)%Z -> civil_from_days (d + k) <> civil_from_days d.
Proof. intros Hk H. apply civil_from_days_inj in H. lia. Qed.






Lemma map_snd_combine_seq {A B : Type} (f : A -> B) (l : list A)
    (start : nat) :
  map (fun entry : nat * A => f (snd entry))
      (combine (seq start (List.length l)) l)
  = map f l.
Proof.
  revert start. induction l as [| a l IH]; intros start; [reflexivity |].
  cbn [List.length seq combine map snd]. now rewrite IH.
Qed.

(** The chips that the dashboard draws without an analysis: one per
    text of its own data, each with offset 0 and marked [Better]. *)
Lemma demo_chips (data : option WeatherDashboard.WeatherData)
    (draws : nat -> Q) (calls : nat) :
  map (fun c => (WeatherDashboard.chip_date c,
                 WeatherDashboard.chip_offset_days c,
                 WeatherDashboard.chip_recommendation c))
      (WeatherDashboard.alternative_chips data None draws calls)
  = map (fun text => (WeatherDashboard.DemoText text, 0%Z, Better))
        (WeatherDashboard.alternativeDates
           match data with
           | Some d => d
           | None => WeatherDashboard.demoData
           end).
Proof.
  unfold WeatherDashboard.alternative_chips. cbv zeta.
  rewrite map_map.
  cbn [WeatherDashboard.chip_date WeatherDashboard.chip_offset_days
       WeatherDashboard.chip_recommendation].
  apply (map_snd_combine_seq
           (fun text => (WeatherDashboard.DemoText text, 0%Z, Better))).
Qed.

Lemma analysis_chips (data : option WeatherDashboard.WeatherData)
    (a : WeatherAnalysisResponse) (draws : nat -> Q) (calls : nat) :
  map (fun c => (WeatherDashboard.chip_date c,
                 WeatherDashboard.chip_offset_days c))
      (WeatherDashboard.alternative_chips data (Some a) draws calls)
  = map (fun e => (WeatherDashboard.AnalysisDate (date e), offset_days e))
        (alternative_dates a).
Proof.
  unfold WeatherDashboard.alternative_chips. cbv zeta.
  now rewrite map_map.
Qed.

(** C6, as the code has it.  The alternative dates that this code builds
    exclude the date of the request: in the simulated analysis of the
    index page they are the next day and the day after, with offsets 1
    and 2, and the fallback result of the globe has none.  The
    alternative dates of a reply that is delivered are passed on as they
    came, by the index page, by the globe and by the chips of the
    dashboard.  Without an analysis the dashboard draws a chip for each
    text of its own data, each with offset 0. *)
Theorem alternative_dates_exclude_event_date :
  (forall BACKEND_URL now draws network place t thresholds w,
      Spec.date_in_range (DateOf t) ->
      exists w',
        Index.handleAnalyze BACKEND_URL now draws network (Some place)
          (DateOf t) (Some thresholds) w = (Normal tt, w')
        /\ match Spec.page_delivered BACKEND_URL now network place
                   (DateOf t) thresholds with
           | Some data => Index.analysisData (state w') = data
           | None =>
               exists a,
                 Index.analysisData (state w') = Some a
                 /\ toISODate (DateOf t) = Normal (event_date a)
                 /\ map offset_days (alternative_dates a) = [1; 2]%Z
                 /\ Forall (fun e => date e <> event_date a
                                     /\ offset_days e <> 0%Z)
                           (alternative_dates a)
           end)
  /\ (forall BACKEND_URL numberToString LocalTZA network (St : Type)
             location date thresholds (w : World AnalyzeRequest St),
        exists r w',
          Earth3DGlobe.analyzeWeatherRisk BACKEND_URL numberToString
            LocalTZA network location date thresholds w = (Normal r, w')
          /\ Earth3DGlobe.alternatives r
             = match Spec.globe_delivered BACKEND_URL network location date
                       thresholds with
               | Some data => Earth3DGlobe.data_alternative_dates data
               | None => []
               end)
  /\ (forall data a draws calls,
        map (fun c => (WeatherDashboard.chip_date c,
                       WeatherDashboard.chip_offset_days c))
            (WeatherDashboard.alternative_chips data (Some a) draws calls)
        = map (fun e => (WeatherDashboard.AnalysisDate (date e),
                         offset_days e))
              (alternative_dates a))
  /\ (forall data draws calls,
        map (fun c => (WeatherDashboard.chip_date c,
                       WeatherDashboard.chip_offset_days c,
                       WeatherDashboard.chip_recommendation c))
            (WeatherDashboard.alternative_chips data None draws calls)
        = map (fun text => (WeatherDashboard.DemoText text, 0%Z, Better))
              (WeatherDashboard.alternativeDates
                 match data with
                 | Some d => d
                 | None => WeatherDashboard.demoData
                 end)).
Proof.
  split.
  { intros BACKEND_URL now draws network place t thresholds w Hrange.
    destruct (handleAnalyze_cases BACKEND_URL now draws network place t
                thresholds w Hrange) as (w' & Hrun & _ & _ & Hcase).
    exists w'. split; [exact Hrun |].
    destruct (Spec.page_delivered _ _ _ _ _ _) as [data |].
    - exact (proj1 Hcase).
    - eexists. split; [exact (proj1 Hcase) |].
      split; [reflexivity |]. split; [reflexivity |].
      cbn [alternative_dates event_date Index.fallbackAnalysis_object].
      repeat (apply Forall_cons || apply Forall_nil);
        cbn [date offset_days];
        (split; [apply next_days_differ; discriminate | discriminate]). }
  split.
  { intros BACKEND_URL numberToString LocalTZA network St location date
           thresholds w.
    destruct (globe_run_cases BACKEND_URL numberToString LocalTZA network
                St location date thresholds w) as (w' & E).
    eexists. exists w'. split; [exact E |].
    now destruct (Spec.globe_delivered _ _ _ _ _). }
  split; [exact analysis_chips | exact demo_chips].
Qed.

(** The index page offline for New Delhi on 4 July 2025: the alternatives
    are 5 and 6 July. *)
Lemma alternative_dates_exclude_event_date_witness :
  exists w' a,
    Index.handleAnalyze "" 0 Examples.draws_low Examples.offline
      (Some Examples.new_delhi_place) Examples.july_4_2025
      (Some Examples.selector_thresholds) Examples.fresh_page
    = (Normal tt, w')
    /\ Index.analysisData (state w') = Some a
    /\ toISODate Examples.july_4_2025 = Normal (event_date a)
    /\ map date (alternative_dates a)
       = [mkIsoDate 2025 7 5; mkIsoDate 2025 7 6]
    /\ Forall (fun e => date e <> event_date a /\ offset_days e <> 0%Z)
              (alternative_dates a).
Proof.
  destruct alternative_dates_exclude_event_date as (Hindex & _).
  unfold Examples.july_4_2025.
  destruct (Hindex ""%string 0%Z Examples.draws_low Examples.offline
              Examples.new_delhi_place (20273 * msPerDay)%Z
              Examples.selector_thresholds Examples.fresh_page)
    as (w' & Hrun & Hcase).
  { vm_compute. split; discriminate. }
  cbv beta iota delta [Spec.page_delivered Spec.delivered
                         Examples.offline toISODate] in Hcase.
  destruct Hcase as (a & Hdata & Hdate & Hoffsets & Hdiffer).
  exists w', a. split; [exact Hrun |]. split; [exact Hdata |].
  split; [exact Hdate |]. split; [| exact Hdiffer].
  unfold Index.handleAnalyze in Hrun. vm_compute in Hrun.
  injection Hrun as <-. cbn in Hdata. injection Hdata as <-.
  reflexivity.
Defined.

(** C6 as stated fails.  A reply that lists the date of the request
    itself, with offset 0, among its alternative dates is passed on as it
    came by the index page and by the globe; and without an analysis the
    chips of the dashboard all carry offset 0. *)
Lemma alternative_dates_passed_on_unchecked :
  (exists w',
      Index.handleAnalyze Examples.backend_url 0 Examples.draws_low
        (Examples.serving (Some Examples.reply_same_day))
        (Some Examples.new_delhi_place) Examples.july_4_2025
        (Some Examples.selector_thresholds) Examples.fresh_page
      = (Normal tt, w')
      /\ Index.analysisData (state w') = Some Examples.reply_same_day)
  /\ toISODate Examples.july_4_2025
     = Normal (event_date Examples.reply_same_day)
  /\ map (fun e => (date e, offset_days e))
         (alternative_dates Examples.reply_same_day)
     = [(event_date Examples.reply_same_day, 0%Z)]
  /\ (exists r w',
         Earth3DGlobe.analyzeWeatherRisk Examples.backend_url
           Examples.wholeToString Examples.utc
           (Examples.serving Examples.globe_reply_same_day)
           Examples.new_delhi Examples.july_4_2025
           Examples.globe_thresholds Examples.fresh_globe = (Normal r, w')
         /\ map (fun e => (date e, offset_days e))
                (Earth3DGlobe.alternatives r)
            = [(mkIsoDate 2025 7 4, 0%Z)])
  /\ map WeatherDashboard.chip_offset_days
         (WeatherDashboard.alternative_chips None None Examples.draws_low 0)
     = [0; 0; 0]%Z.
Proof.
  split; [eexists; split; reflexivity |].
  split; [reflexivity |]. split; [reflexivity |].
  split; [do 2 eexists; split; reflexivity | reflexivity].
Qed.

(** ** Polygons in the request of the 2D map *)

(** C7, as the code has it.  A polygon with fewer than three vertices
    does not make [analyzeWeatherRisk] reject anything: the run is the
    run without a polygon.  It ends normally, and when a backend is
    configured and the date is valid the point request goes out, its
    [polygon] key left out.  A polygon of three or more vertices is sent
    as it is. *)
Theorem short_polygon_dropped_from_request :
  forall BACKEND_URL draws network lat lng date radiusKm vertices w,
    (List.length vertices < 3)%nat ->
    Map2D.analyzeWeatherRisk BACKEND_URL draws network lat lng date
      radiusKm (Some vertices) w
    = Map2D.analyzeWeatherRisk BACKEND_URL draws network lat lng date
        radiusKm None w
    /\ (exists w',
          Map2D.analyzeWeatherRisk BACKEND_URL draws network lat lng date
            radiusKm (Some vertices) w = (Normal tt, w')
          /\ requests w'
             = requests w
               ++ (if truthy BACKEND_URL
                   then match toISODate date with
                        | Normal event_date =>
                            [((BACKEND_URL ++ "/analyze")%string,
                              Map2D.analyze_body lat lng event_date radiusKm
                                (Map2D.areaRadiusKm (state w)) None)]
                        | Throw _ => []
                        end
                   else [])
          /\ Forall (fun r => In r (requests w) \/ polygon (snd r) = None)
                    (requests w'))
    /\ forall polygon',
         (3 <= List.length polygon')%nat ->
         Map2D.polygon_field (Some polygon') = Some polygon'.
Proof.
  intros BACKEND_URL draws network lat lng date radiusKm vertices w Hshort.
  split; [| split; [| exact polygon_field_long]].
  - unfold Map2D.analyzeWeatherRisk, Map2D.analyze_body.
    now rewrite (polygon_field_short vertices Hshort).
  - destruct (map_run_returns BACKEND_URL draws network lat lng date
                radiusKm (Some vertices) w) as (w' & Hrun & _ & _ & Hsent).
    exists w'. split; [exact Hrun |].
    assert (Hsent' :
      requests w'
      = requests w
        ++ (if truthy BACKEND_URL
            then match toISODate date with
                 | Normal event_date =>
                     [((BACKEND_URL ++ "/analyze")%string,
                       Map2D.analyze_body lat lng event_date radiusKm
                         (Map2D.areaRadiusKm (state w)) None)]
                 | Throw _ => []
                 end
            else [])).
    { rewrite Hsent. f_equal.
      destruct (truthy BACKEND_URL); [| reflexivity].
      destruct (toISODate date) as [event_date |]; [| reflexivity].
      now rewrite (polygon_field_None_body lat lng event_date radiusKm
                     _ vertices Hshort). }
    split; [exact Hsent' |].
    rewrite Hsent'. apply Forall_app. split.
    + apply Forall_forall. intros r Hr. now left.
    + destruct (truthy BACKEND_URL); [| constructor].
      destruct (toISODate date); constructor; [now right | constructor].
Qed.

(** Two points, a backend configured and answering. *)
Lemma short_polygon_dropped_from_request_witness :
  Map2D.analyzeWeatherRisk Examples.backend_url Examples.draws_low
    (Examples.serving (Map2D.mkBackendData (Some [])))
    28.61 77.21 Examples.july_4_2025 None (Some Examples.two_points)
    Examples.fresh_map
  = Map2D.analyzeWeatherRisk Examples.backend_url Examples.draws_low
      (Examples.serving (Map2D.mkBackendData (Some [])))
      28.61 77.21 Examples.july_4_2025 None None Examples.fresh_map.
Proof.
  apply (short_polygon_dropped_from_request Examples.backend_url
           Examples.draws_low
           (Examples.serving (Map2D.mkBackendData (Some [])))
           28.61 77.21 Examples.july_4_2025 None Examples.two_points
           Examples.fresh_map).
  cbn. lia.
Defined.

(** C7 as stated fails.  Given two points as polygon, with a backend
    configured, the run is not a rejection before any request: it ends
    normally, and one request has gone out, without the [polygon] key. *)
Lemma short_polygon_not_rejected :
  let run :=
    Map2D.analyzeWeatherRisk Examples.backend_url Examples.draws_low
      (Examples.serving (Map2D.mkBackendData (Some [])))
      28.61 77.21 Examples.july_4_2025 None (Some Examples.two_points)
      Examples.fresh_map in
  fst run = Normal tt
  /\ map (fun r => polygon (snd r)) (requests (snd run)) = [None]
  /\ ~ Spec.rejected_before_io Examples.fresh_map run.
Proof.
  cbv zeta. split; [reflexivity |]. split; [reflexivity |].
  intros [[e He] _]. vm_compute in He. discriminate He.
Qed.

(** ** Dataset attribution in the CSV export *)

(** C1 fails on the code.  The simulated analysis of the index page lists
    ["Fallback simulation"] as its only dataset, yet the CSV that the
    dashboard exports for it attributes its rows to MERRA-2 and GPM IMERG:
    the [Dataset] column is chosen from the condition's name alone.  With
    no analysis at all, the export describes the demo data and its
    default metadata names the same two providers. *)
Theorem export_names_providers_for_simulated_data :
  forall now now' place event_date r_comfort r_temperature r_precipitation
         r_wind date1 r_alt1 date2 r_alt2 exportPlace t data,
    let a := Index.fallbackAnalysis_object now place event_date
               r_comfort r_temperature r_precipitation r_wind
               date1 r_alt1 date2 r_alt2 in
    (exists csv,
        WeatherDashboard.handleExportCSV now' exportPlace (DateOf t) data
          (Some a) = Normal csv
        /\ datasets_used (metadata a) = ["Fallback simulation"%string]
        /\ map WeatherDashboard.Dataset (WeatherDashboard.rows csv)
           = ["MERRA-2"; "GPM IMERG"; "MERRA-2"]%string
        /\ ~ Spec.attribution_matches a csv)
    /\ (exists csv,
          WeatherDashboard.handleExportCSV now' exportPlace (DateOf t) None
            None = Normal csv
          /\ datasets_used (WeatherDashboard.defaultMetadata now')
             = ["MERRA-2"; "GPM IMERG"]%string
          /\ map WeatherDashboard.Dataset (WeatherDashboard.rows csv)
             = ["MERRA-2"; "GPM IMERG"; "MERRA-2"; "MERRA-2"]%string).
Proof.
  intros now now' place event_date r_comfort r_temperature r_precipitation
         r_wind date1 r_alt1 date2 r_alt2 exportPlace t data a.
  split.
  - eexists. split; [reflexivity |]. split; [reflexivity |].
    split; [reflexivity |].
    unfold Spec.attribution_matches. intros H.
    apply Forall_inv in H. cbn in H.
    destruct H as [H | []]. discriminate H.
  - eexists. split; [reflexivity |]. split; reflexivity.
Qed.

(** The same on the simulated analysis for New Delhi, every draw 0: three
    rows, attributed to MERRA-2, GPM IMERG and MERRA-2.  (The threshold
    text of the simulated temperature row does not contain the degree
    sign the export looks for, so its unit comes out as "percent".) *)
Example export_simulated_new_delhi :
  match WeatherDashboard.handleExportCSV 0 Examples.new_delhi_place
          Examples.july_4_2025 None
          (Some (Examples.simulated Examples.draws_low)) with
  | Normal csv =>
      map (fun row => (WeatherDashboard.Variable_ row,
                       WeatherDashboard.Probability row,
                       WeatherDashboard.Units row,
                       WeatherDashboard.Dataset row))
          (WeatherDashboard.rows csv)
      = [ ("Temperature", 20, "percent", "MERRA-2");
          ("Precipitation", 10, "mm/day", "GPM IMERG");
          ("Wind Speed", 5, "m/s", "MERRA-2") ]%string
  | Throw _ => False
  end.
Proof. vm_compute. reflexivity. Qed.

(** The export of the globe stamps every row, also those of the local
    calculation, with the two providers and the word "Simulated". *)
Lemma globe_export_dataset_column
    (weatherProbabilities : list Earth3DGlobe.WeatherProbability) :
  Forall (fun row => Earth3DGlobe.Dataset row
                     = "MERRA-2, GPM IMERG (Simulated)"%string)
         (Earth3DGlobe.exportWeatherData_rows weatherProbabilities).
Proof.
  unfold Earth3DGlobe.exportWeatherData_rows.
  apply Forall_forall. intros row Hrow.
  apply in_map_iff in Hrow. destruct Hrow as (prob & <- & _). reflexivity.
Qed.


(** * Properties of the code around the analysis *)

Import Json.

(** ** The weather hook *)

Section HookRuns.

Variable now : Z.
Variable username password : string.
Variable numberToString : Q -> string.
Variable toISOString : Z -> string.
Variable btoa : string -> string.
Variable network :
  string -> option string -> outcome (Response AutoWeather.WeatherJson).

Local Abbreviation getCurrentWeather :=
  (AutoWeather.getCurrentWeather now username password numberToString
     toISOString btoa network).
Local Abbreviation fetchWeather :=
  (AutoWeather.fetchWeather now username password numberToString
     toISOString btoa network).

(** Case analysis on what a run of the hook branches on: the clock, the
    credentials, the replies. *)
Ltac hook_step :=
  cbn beta iota delta [requests random_calls console state fst snd];
  match goal with
  | |- context [date_le ?a ?b] => destruct (date_le a b) eqn:?
  | |- context [negb (truthy ?u) || negb (truthy ?p)] =>
      destruct (negb (truthy u) || negb (truthy p)) eqn:?
  | |- context [network ?u ?b] => destruct (network u b) as [? | ?] eqn:?
  | |- context [ok ?r] => destruct (ok r) eqn:?
  | |- context [(status ?r =? 400)%Z] => destruct (status r =? 400)%Z eqn:?
  | |- context [json ?r] => destruct (json r) as [? | ?] eqn:?
  | |- context [AutoWeather.openMeteoWeather ?n ?d] =>
      destruct (AutoWeather.openMeteoWeather n d) as [? | ?] eqn:?
  end.

(** [getCurrentWeather] catches everything: it resolves, to weather data
    or to [null], and leaves the state of the component alone. *)
Lemma getCurrentWeather_resolves {St : Type} (lat lon : Q)
    (w : World (option string) St) :
  exists r w',
    getCurrentWeather lat lon w = (Normal r, w') /\ state w' = state w.
Proof.
  destruct w as [sent calls log st].
  unfold AutoWeather.getCurrentWeather, AutoWeather.tryMeteomatics.
  unfold_run. repeat hook_step; eexists; eexists; split; reflexivity.
Qed.

(** X1.  Whatever the weather services do, [fetchWeather] ends normally
    with the loading flag cleared; either no error is set, or the error
    is "Failed to fetch weather data" and the weather type is [clear]. *)
Theorem fetchWeather_always_settles (location : Place)
    (w : World (option string) AutoWeather.HookState) :
  exists w',
    fetchWeather location w = (Normal tt, w')
    /\ AutoWeather.isLoading (state w') = false
    /\ (AutoWeather.error (state w') = None
        \/ (AutoWeather.error (state w')
            = Some "Failed to fetch weather data"%string
            /\ AutoWeather.weatherType (state w') = AutoWeather.clear)).
Proof.
  destruct w as [sent calls log st].
  unfold AutoWeather.fetchWeather. unfold_run.
  match goal with
  | |- context [AutoWeather.getCurrentWeather _ _ _ _ _ _ _ ?lat ?lon ?w0] =>
      destruct (getCurrentWeather_resolves lat lon w0)
        as (r & [sent' calls' log' st'] & -> & Hst)
  end.
  cbn in Hst. subst st'.
  destruct r as [weatherData |]; cbn; eexists; split; try reflexivity; cbn;
    split; auto.
Qed.

(** X2.  Once the cutoff of 2025-10-12T23:59:59Z has passed,
    [getCurrentWeather] makes exactly one request: the Open-Meteo forecast,
    without an [Authorization] header.  Meteomatics is not contacted and
    the credentials are not sent. *)
Theorem no_meteomatics_after_cutoff {St : Type} (lat lon : Q)
    (w : World (option string) St) :
  (1760313599000 < now)%Z ->
  requests (snd (getCurrentWeather lat lon w))
  = requests w ++ [(AutoWeather.forecastUrl numberToString lat lon, None)].
Proof.
  intros Hnow.
  destruct w as [sent calls log st].
  unfold AutoWeather.getCurrentWeather.
  assert (Hcut : date_le (DateOf now) AutoWeather.cutoff = false).
  { unfold date_le, AutoWeather.cutoff. cbn [getTime].
    apply Z.leb_gt.
    change (days_from_civil (mkIsoDate 2025 10 12) * msPerDay
            + ((23 * 60 + 59) * 60 + 59) * 1000)%Z with 1760313599000%Z.
    exact Hnow. }
  rewrite Hcut. unfold_run. repeat hook_step; reflexivity.
Qed.

End HookRuns.

Lemma no_meteomatics_after_cutoff_witness :
  (1760313599000 < Scenes.after_cutoff)%Z
  /\ requests
       (snd (AutoWeather.getCurrentWeather Scenes.after_cutoff
               "user" "secret" Examples.wholeToString Scenes.plainText
               Scenes.identity Scenes.no_weather_service
               28.61 77.21 Scenes.fresh_hook))
     = [ (AutoWeather.forecastUrl Examples.wholeToString 28.61 77.21,
          None) ].
Proof.
  split; [reflexivity |].
  apply (no_meteomatics_after_cutoff Scenes.after_cutoff "user" "secret"
           Examples.wholeToString Scenes.plainText Scenes.identity
           Scenes.no_weather_service 28.61 77.21 Scenes.fresh_hook).
  reflexivity.
Defined.

(** *** What the readings are mapped to *)



Lemma Q_gt_false (a b : Q) : a <= b -> Q_gt a b = false.
Proof.
  intros H. unfold Q_gt. apply negb_false_iff. now apply Qle_bool_iff.
Qed.

Lemma Q_lt_false (a b : Q) : b <= a -> Q_lt a b = false.
Proof.
  intros H. unfold Q_lt. apply negb_false_iff. now apply Qle_bool_iff.
Qed.

Import Notions.

Ltac split_ifs :=
  repeat match goal with
         | |- context [if ?b then _ else _] => destruct b
         end.







(** *** The Open-Meteo path *)



(** *** The Meteomatics path *)

Section MeteomaticsRuns.

Variable now : Z.
Variable username password : string.
Variable numberToString : Q -> string.
Variable toISOString : Z -> string.
Variable btoa : string -> string.
Variable network :
  string -> option string -> outcome (Response AutoWeather.WeatherJson).


End MeteomaticsRuns.


(** ** The recommendation cards *)

(** X5.  For the weather types of the hook, the card of the results view
    and the card of the selection view give the same go-out advice,
    except for snow above -5 degrees; the results view passes a fixed
    temperature of 25, so for snowy weather it shows GO OUT where the
    selection view advises against going out. *)
Theorem cards_agree_except_for_snow :
  (forall (weatherType : AutoWeather.WeatherType) (temperature : Q),
      WeatherAnalysis.canGoOut
        (WeatherAnalysis.getWeatherRecommendation
           (IndexCards.text weatherType) temperature)
      = SimpleWeatherAnalysis.canGoOut (IndexCards.quick_card weatherType)
      <-> (weatherType <> AutoWeather.snowy \/ temperature <= -5))
  /\ option_map WeatherAnalysis.badge
       (IndexCards.results_card AutoWeather.snowy) = Some "GO OUT"%string
  /\ SimpleWeatherAnalysis.canGoOut (IndexCards.quick_card AutoWeather.snowy)
     = false.
Proof.
  split; [| split; reflexivity].
  intros weatherType temperature.
  destruct weatherType; cbn;
    try (split; [intros _; left; discriminate | reflexivity]).
  unfold Q_gt. split.
  - intros H. right. apply negb_false_iff in H. now apply Qle_bool_iff.
  - intros [H | H]; [now elim H |].
    apply negb_false_iff. now apply Qle_bool_iff.
Qed.

(** ** The threshold selector and the request *)

(** X7.  The value of a threshold that is switched off, and the humidity
    threshold in any state, never reach the request: moving such a slider
    leaves the body of the request to [/analyze] as it was. *)
Theorem disabled_threshold_not_sent (now : Z) (selectedLocation : Place)
    (eventDate : IsoDate) (thresholds : DateThresholdSelector.Thresholds)
    (type : DateThresholdSelector.Key) (v : Q) :
  Index.enabled (DateThresholdSelector.get thresholds type) = false
  \/ type = DateThresholdSelector.humidity ->
  Index.requestData now selectedLocation eventDate
    (DateThresholdSelector.as_read_by_page
       (DateThresholdSelector.newThresholds thresholds type
          (DateThresholdSelector.value v)))
  = Index.requestData now selectedLocation eventDate
      (DateThresholdSelector.as_read_by_page thresholds).
Proof.
  intros [H | ->].
  - destruct type; cbn in H; unfold Index.requestData; cbn;
      rewrite ?H; reflexivity.
  - reflexivity.
Qed.

Lemma disabled_threshold_not_sent_witness :
  Index.requestData 0 Examples.new_delhi_place (mkIsoDate 2025 7 4)
    (DateThresholdSelector.as_read_by_page
       (DateThresholdSelector.newThresholds
          DateThresholdSelector.initialThresholds
          DateThresholdSelector.wind (DateThresholdSelector.value 28)))
  = Index.requestData 0 Examples.new_delhi_place (mkIsoDate 2025 7 4)
      (DateThresholdSelector.as_read_by_page
         DateThresholdSelector.initialThresholds).
Proof.
  apply (disabled_threshold_not_sent 0 Examples.new_delhi_place
           (mkIsoDate 2025 7 4) DateThresholdSelector.initialThresholds
           DateThresholdSelector.wind 28).
  left. reflexivity.
Defined.

(** ** The labels of the globe *)

Lemma Qle_bool_trans_false (d a b : Q) :
  a <= b -> Qle_bool d b = false -> Qle_bool d a = false.
Proof.
  intros Hab Hb. destruct (Qle_bool d a) eqn:E; [| reflexivity].
  apply Qle_bool_iff in E.
  assert (H : Qle_bool d b = true) by (apply Qle_bool_iff; lra).
  congruence.
Qed.

Lemma filter_hidden (d : Q) (l : list Earth.Location) :
  Forall (fun loc => Qle_bool d (Earth.minZoom loc) = false) l ->
  filter (fun loc => Qle_bool d (Earth.minZoom loc)) l = [].
Proof.
  induction 1 as [| loc l H _ IH]; cbn [filter];
    [reflexivity | rewrite H; exact IH].
Qed.

Ltac hidden group :=
  rewrite (filter_hidden _ group)
    by (unfold group;
        repeat (apply Forall_cons || apply Forall_nil);
        cbn [Earth.minZoom]; assumption).

(** The four guards of [getVisibleLocations] are implied by its filter:
    it shows the labels of the whole table whose [minZoom] the camera
    distance does not exceed. *)
Lemma getVisibleLocations_filter (cameraDistance : Q) :
  Earth.getVisibleLocations cameraDistance
  = filter (fun loc => Qle_bool cameraDistance (Earth.minZoom loc))
           all_locations.
Proof.
  unfold Earth.getVisibleLocations, all_locations. cbv zeta.
  rewrite !filter_app.
  destruct (Qle_bool cameraDistance 8) eqn:E8.
  - destruct (Qle_bool cameraDistance 6) eqn:E6.
    + destruct (Qle_bool cameraDistance 4) eqn:E4.
      * destruct (Qle_bool cameraDistance 3.5) eqn:E35.
        -- cbn [app]. rewrite !filter_app. now rewrite <- !app_assoc.
        -- cbn [app]. rewrite !filter_app. hidden Earth.towns.
           now rewrite <- !app_assoc, app_nil_r.
      * assert (E35 : Qle_bool cameraDistance 3.5 = false)
          by (apply Qle_bool_trans_false with 4; [lra | exact E4]).
        rewrite E35. cbn [app]. rewrite !filter_app.
        hidden Earth.towns. hidden Earth.cities.
        now rewrite !app_nil_r.
    + assert (E5 : Qle_bool cameraDistance 5 = false)
        by (apply Qle_bool_trans_false with 6; [lra | exact E6]).
      assert (E4 : Qle_bool cameraDistance 4 = false)
        by (apply Qle_bool_trans_false with 6; [lra | exact E6]).
      assert (E35 : Qle_bool cameraDistance 3.5 = false)
        by (apply Qle_bool_trans_false with 6; [lra | exact E6]).
      rewrite E4, E35. cbn [app].
      hidden Earth.towns. hidden Earth.cities. hidden Earth.countries.
      now rewrite !app_nil_r.
  - assert (E6 : Qle_bool cameraDistance 6 = false)
      by (apply Qle_bool_trans_false with 8; [lra | exact E8]).
    assert (E5 : Qle_bool cameraDistance 5 = false)
      by (apply Qle_bool_trans_false with 8; [lra | exact E8]).
    assert (E4 : Qle_bool cameraDistance 4 = false)
      by (apply Qle_bool_trans_false with 8; [lra | exact E8]).
    assert (E35 : Qle_bool cameraDistance 3.5 = false)
      by (apply Qle_bool_trans_false with 8; [lra | exact E8]).
    rewrite E6, E4, E35. cbn [app filter].
    hidden Earth.towns. hidden Earth.cities. hidden Earth.countries.
    hidden Earth.continents. reflexivity.
Qed.

(** X8.  Zooming in never hides a label of the globe: a location shown
    at one camera distance is shown at every smaller distance. *)
Theorem zooming_in_keeps_labels (near far : Q) (location : Earth.Location) :
  near <= far ->
  In location (Earth.getVisibleLocations far) ->
  In location (Earth.getVisibleLocations near).
Proof.
  intros Hle. rewrite !getVisibleLocations_filter, !filter_In.
  intros [Hin Hfar]. split; [exact Hin |].
  apply Qle_bool_iff. apply Qle_bool_iff in Hfar. lra.
Qed.

Lemma zooming_in_keeps_labels_witness :
  In (Earth.mkLocation "India" 20.5937 78.9629 6)
     (Earth.getVisibleLocations 3.8).
Proof.
  apply (zooming_in_keeps_labels 3.8 6).
  - discriminate.
  - cbn. repeat (try (left; reflexivity); right).
Defined.

(** ** The controls of the 2D map *)

Lemma handle_keeps_controls_ok (e : Map2DControls.Event)
    (c : Map2DControls.Controls) :
  controls_ok c -> controls_ok (Map2DControls.handle e c).
Proof.
  intros ([Hz1 Hz2] & Hlen & Hdraw).
  destruct c as [mapType zoom drawMode points alerts].
  unfold controls_ok in *.
  cbn [Map2DControls.zoom Map2DControls.polygonPoints
       Map2DControls.drawMode] in Hz1, Hz2, Hlen, Hdraw.
  destruct e;
    cbn [Map2DControls.handle Map2DControls.setZoom Map2DControls.zoom
         Map2DControls.polygonPoints Map2DControls.drawMode
         Map2DControls.mapType Map2DControls.alerts].
  - (* ZoomIn *)
    repeat split; try assumption; unfold Math_min.
    + apply Q.min_glb; lra.
    + apply Qle_trans with 18; [apply Q.le_min_r | lra].
  - (* ZoomOut *)
    repeat split; try assumption; unfold Math_max.
    + apply Qle_trans with 1; [lra | apply Q.le_max_r].
    + apply Q.max_lub; lra.
  - repeat split; try assumption; lra.
  - repeat split; try assumption; lra.
  - repeat split; try assumption; lra.
  - repeat split; assumption.
  - (* ToggleDraw *)
    destruct mapType;
      cbn [Map2DControls.zoom Map2DControls.polygonPoints
           Map2DControls.drawMode];
      repeat split; try assumption.
    + cbn. lia.
    + intros _. left. reflexivity.
  - (* OverlayClick *)
    destruct mapType, drawMode;
      cbn [Map2DControls.zoom Map2DControls.polygonPoints
           Map2DControls.drawMode];
      repeat split; try assumption; try discriminate.
    destruct (2 <=? List.length points)%nat eqn:E; [cbn; lia |].
    apply Nat.leb_gt in E. rewrite length_app. cbn. lia.
  - (* AnalyzeArea *)
    destruct (2 <=? List.length points)%nat eqn:E;
      cbn [Map2DControls.zoom Map2DControls.polygonPoints
           Map2DControls.drawMode];
      repeat split; try assumption.
    intros _. right. apply Nat.leb_le in E. lia.
Qed.

(** X9.  Whatever is clicked on the 2D map, the zoom stays between 1 and
    18, the zoom of the embedded satellite map between 10 and 20, and the
    area being drawn never has more than two points; outside draw mode it
    has none, or the two of an area that was sent to be analysed. *)
Theorem map_controls_stay_in_range (events : list Map2DControls.Event) :
  let c := controls_after events in
  1 <= Map2DControls.zoom c <= 18
  /\ 10 <= Map2DControls.satelliteZoom c <= 20
  /\ (List.length (Map2DControls.polygonPoints c) <= 2)%nat
  /\ (Map2DControls.drawMode c = false ->
      Map2DControls.polygonPoints c = []
      \/ List.length (Map2DControls.polygonPoints c) = 2%nat).
Proof.
  assert (H : forall c0, controls_ok c0 ->
              controls_ok
                (fold_left (fun c e => Map2DControls.handle e c) events c0)).
  { induction events as [| e events IH]; intros c0 H0; [exact H0 |].
    cbn. apply IH. now apply handle_keeps_controls_ok. }
  destruct (H Map2DControls.initial) as (Hzoom & Hlen & Hdraw).
  { unfold controls_ok. cbn. repeat split; try lra; try lia.
    intros _. left. reflexivity. }
  cbv zeta. unfold controls_after. repeat split; try assumption;
    try apply Hzoom; unfold Map2DControls.satelliteZoom, Math_max, Math_min.
  - apply Q.le_max_l.
  - apply Q.max_lub; [lra | apply Q.le_min_r].
Qed.

(** ** The data source banner and the head of the dashboard *)

Lemma filter_length_all {A : Type} (f : A -> bool) (l : list A) :
  List.length (filter f l) = List.length l <-> Forall (fun a => f a = true) l.
Proof.
  induction l as [| a l IH]; cbn.
  - split; [constructor | reflexivity].
  - pose proof (filter_length_le f l) as Hle.
    destruct (f a) eqn:E; cbn.
    + split.
      * intros H. constructor; [exact E |]. apply IH. lia.
      * intros H. inversion H; subst. f_equal. now apply IH.
    + split; [lia |]. intros H. inversion H; congruence.
Qed.

(** X10.  The banner says that all data sources provide real-time
    information exactly when every source in its list has the status
    [real]; so it does for an empty list.  The dashboard always passes
    [APP_DATA_SOURCES], whose four entries are [real]: its banner reads
    4/4 Real whatever analysis, simulated or not, it displays. *)
Theorem banner_all_real_iff :
  (forall dataSources,
      DataSourceIndicator.alert_text
        (DataSourceIndicator.DataSourceIndicator dataSources)
      = "All data sources are providing real-time information"%string
      <-> Forall (fun ds => DataSourceIndicator.status ds
                            = DataSourceIndicator.real) dataSources)
  /\ (forall loaded data analysisData,
         let banner :=
           WeatherDashboardView.banner
             (WeatherDashboardView.WeatherDashboard loaded data
                analysisData) in
         DataSourceIndicator.alert_text banner
         = "All data sources are providing real-time information"%string
         /\ DataSourceIndicator.badge_real banner = 4%nat
         /\ DataSourceIndicator.badge_total banner = 4%nat).
Proof.
  split; [| intros; cbv zeta; repeat split].
  intros dataSources.
  unfold DataSourceIndicator.DataSourceIndicator. cbv zeta.
  cbn [DataSourceIndicator.alert_text].
  assert (Hreal : Forall (fun ds => DataSourceIndicator.status ds
                                    = DataSourceIndicator.real) dataSources
                  <-> Forall (fun ds => DataSourceIndicator.is_real ds = true)
                        dataSources).
  { rewrite !Forall_forall. unfold DataSourceIndicator.is_real.
    split; intros H ds Hin; specialize (H ds Hin);
      destruct (DataSourceIndicator.status ds);
      reflexivity || discriminate. }
  rewrite Hreal, <- filter_length_all.
  destruct (Nat.eqb_spec
              (List.length (filter DataSourceIndicator.is_real dataSources))
              (List.length dataSources)) as [E | E].
  - split; [intros _; exact E | reflexivity].
  - split; [| intros H; now elim E].
    destruct (0 <? _)%nat; discriminate.
Qed.

Lemma severity_of_highest (weatherData : WeatherDashboard.WeatherData) :
  let highest :=
    WeatherDashboardView.Math_max4
      (WeatherDashboard.metric_probability
         (WeatherDashboard.temperature weatherData))
      (WeatherDashboard.metric_probability
         (WeatherDashboard.precipitation weatherData))
      (WeatherDashboard.metric_probability
         (WeatherDashboard.wind weatherData))
      (WeatherDashboard.metric_probability
         (WeatherDashboard.humidity weatherData)) in
  severity (WeatherDashboardView.getWeatherVerdict weatherData)
  = (if Q_lt highest 20 then 0
     else if Q_lt highest 40 then 1
     else if Q_lt highest 60 then 2 else 3)%nat.
Proof.
  cbv zeta. unfold WeatherDashboardView.getWeatherVerdict. cbv zeta.
  split_ifs; reflexivity.
Qed.

Lemma Q_lt_spec (a b : Q) : reflect (a < b) (Q_lt a b).
Proof.
  unfold Q_lt. destruct (Qle_bool b a) eqn:E; cbn; constructor.
  - apply Qle_bool_iff in E. lra.
  - destruct (Qlt_le_dec a b) as [H | H]; [exact H |].
    apply Qle_bool_iff in H. congruence.
Qed.

(** X11.  The verdict of the dashboard is monotone: when none of the four
    probabilities is lowered, the verdict does not get better (from
    "Excellent" over "Good" and "Fair" to "Challenging conditions"). *)
Theorem verdict_is_monotone (better worse : WeatherDashboard.WeatherData) :
  WeatherDashboard.metric_probability (WeatherDashboard.temperature better)
  <= WeatherDashboard.metric_probability
       (WeatherDashboard.temperature worse) ->
  WeatherDashboard.metric_probability
    (WeatherDashboard.precipitation better)
  <= WeatherDashboard.metric_probability
       (WeatherDashboard.precipitation worse) ->
  WeatherDashboard.metric_probability (WeatherDashboard.wind better)
  <= WeatherDashboard.metric_probability (WeatherDashboard.wind worse) ->
  WeatherDashboard.metric_probability (WeatherDashboard.humidity better)
  <= WeatherDashboard.metric_probability
       (WeatherDashboard.humidity worse) ->
  (severity (WeatherDashboardView.getWeatherVerdict better)
   <= severity (WeatherDashboardView.getWeatherVerdict worse))%nat.
Proof.
  intros Ht Hp Hw Hh.
  rewrite !severity_of_highest. cbv zeta.
  set (lower := WeatherDashboardView.Math_max4 _ _ _ _).
  set (higher := WeatherDashboardView.Math_max4 _ _ _ _).
  assert (Hle : lower <= higher).
  { unfold lower, higher, WeatherDashboardView.Math_max4, Math_max.
    repeat apply Q.max_le_compat; assumption. }
  repeat match goal with
         | |- context [Q_lt ?a ?b] => destruct (Q_lt_spec a b)
         end; try lia; exfalso; lra.
Qed.

Lemma verdict_is_monotone_witness :
  (severity (WeatherDashboardView.getWeatherVerdict
               WeatherDashboard.demoData)
   <= severity
        (WeatherDashboardView.getWeatherVerdict
           {| WeatherDashboard.temperature :=
                WeatherDashboard.mkMetric 32 22 0.3;
              WeatherDashboard.precipitation :=
                WeatherDashboard.mkMetric 5 65 0.5;
              WeatherDashboard.wind := WeatherDashboard.mkMetric 15 12 0;
              WeatherDashboard.humidity :=
                WeatherDashboard.mkMetric 70 45 0.2;
              WeatherDashboard.comfortScore := 50;
              WeatherDashboard.alternativeDates := [] |}))%nat.
Proof.
  apply verdict_is_monotone; discriminate.
Defined.

(** X12.  The JSON export of the dashboard takes the comfort index of the
    analysis unless that index is 0: an analysis with comfort index 0 is
    exported with the comfort score of the dashboard's own data (72 for
    the demo data), while its probabilities, alternative dates and
    metadata are exported as they are. *)
Theorem json_export_replaces_zero_comfort (now : Z) (location : Place)
    (t : Z) (data : option WeatherDashboard.WeatherData)
    (analysisData : WeatherAnalysisResponse) :
  comfort_index analysisData == 0 ->
  exists e,
    WeatherDashboardView.handleExportJSON now location (DateOf t) data
      (Some analysisData) = Normal e
    /\ WeatherDashboardView.export_comfort_index e
       = WeatherDashboard.comfortScore
           (match data with
            | Some d => d
            | None => WeatherDashboard.demoData
            end)
    /\ WeatherDashboardView.export_probabilities e
       = probabilities analysisData
    /\ WeatherDashboardView.export_alternative_dates e
       = alternative_dates analysisData
    /\ WeatherDashboardView.export_metadata e = metadata analysisData.
Proof.
  intros Hzero. unfold WeatherDashboardView.handleExportJSON.
  cbn [toISODate]. eexists. split; [reflexivity |].
  cbn [WeatherDashboardView.export_comfort_index
       WeatherDashboardView.export_probabilities
       WeatherDashboardView.export_alternative_dates
       WeatherDashboardView.export_metadata].
  apply Qeq_bool_iff in Hzero. rewrite Hzero. repeat split.
Qed.

Lemma json_export_replaces_zero_comfort_witness :
  exists e,
    WeatherDashboardView.handleExportJSON 0 Examples.new_delhi_place
      Examples.july_4_2025 None (Some Scenes.worst_case) = Normal e
    /\ WeatherDashboardView.export_comfort_index e
       = WeatherDashboard.comfortScore WeatherDashboard.demoData
    /\ WeatherDashboardView.export_probabilities e
       = probabilities Scenes.worst_case
    /\ WeatherDashboardView.export_alternative_dates e
       = alternative_dates Scenes.worst_case
    /\ WeatherDashboardView.export_metadata e = metadata Scenes.worst_case.
Proof.
  apply (json_export_replaces_zero_comfort 0 Examples.new_delhi_place
           (20273 * msPerDay) None Scenes.worst_case).
  reflexivity.
Defined.

(** ** The wind direction of the weather widget *)

(** X13.  For every finite direction of zero degrees or more,
    [getWindDirection] finds one of the sixteen compass points, and on
    whole degrees it has period 360: the direction [d + 360] reads like
    [d].  Between whole degrees the period can fail, for the quotient by
    22.5 is rounded before [Math.round] sees it: 11.249999999999998
    degrees read "N" and, 360 degrees on, "NNE". *)
Theorem wind_direction_defined_and_periodic :
  (forall degrees : Q,
      0 <= degrees -> Spec.finite_double degrees ->
      exists point,
        CurrentWeatherWidget.getWindDirection (Binary64.Finite degrees)
        = Some point
        /\ In point CurrentWeatherWidget.directions)
  /\ (forall d : Z,
        (0 <= d <= 999640)%Z ->
        CurrentWeatherWidget.getWindDirection
          (Binary64.Finite (inject_Z (d + 360)))
        = CurrentWeatherWidget.getWindDirection
            (Binary64.Finite (inject_Z d)))
  /\ (CurrentWeatherWidget.getWindDirection
        (Binary64.literal 11.249999999999998) = Some "N"%string
      /\ CurrentWeatherWidget.getWindDirection
           (Binary64.add (Binary64.literal 11.249999999999998)
                         (Binary64.Finite 360)) = Some "NNE"%string).
Proof.
  split; [exact wind_defined |].
  split; [| split; vm_compute; reflexivity].
  intros d Hd. rewrite !wind_whole by lia.
  do 2 f_equal.
  replace (4 * (d + 360) + 45)%Z with (4 * d + 45 + 16 * 90)%Z by lia.
  rewrite Z.div_add by lia.
  rewrite <- (Z.add_mod_idemp_r _ 16 16) by lia.
  change (16 mod 16)%Z with 0%Z. now rewrite Z.add_0_r.
Qed.

Lemma wind_direction_defined_and_periodic_witness :
  (exists point,
      CurrentWeatherWidget.getWindDirection (Binary64.Finite 225)
      = Some point
      /\ In point CurrentWeatherWidget.directions)
  /\ CurrentWeatherWidget.getWindDirection
       (Binary64.Finite (inject_Z (225 + 360)))
     = CurrentWeatherWidget.getWindDirection
         (Binary64.Finite (inject_Z 225)).
Proof.
  destruct wind_direction_defined_and_periodic as (Hdefined & Hperiod & _).
  split.
  - apply (Hdefined 225); [discriminate | reflexivity].
  - apply (Hperiod 225%Z). lia.
Defined.

(** ** Clicks on the flat globe and on the static map *)

(** X14.  A click inside the element gives coordinates on the Earth: a
    latitude between -90 and 90 and a longitude between -180 and 180,
    with the centre of the element at latitude 0, longitude 0. *)
Theorem click_inside_gives_valid_coordinates (rect : Globe3D.Rect)
    (clientX clientY : Q) :
  0 < Globe3D.width rect -> 0 < Globe3D.height rect ->
  Globe3D.left rect <= clientX <= Globe3D.left rect + Globe3D.width rect ->
  Globe3D.top rect <= clientY <= Globe3D.top rect + Globe3D.height rect ->
  let clicked := Globe3D.handleGlobeClick rect clientX clientY in
  -90 <= lat clicked <= 90 /\ -180 <= lng clicked <= 180
  /\ (let centre :=
        Globe3D.handleGlobeClick rect
          (Globe3D.left rect + Globe3D.width rect / 2)
          (Globe3D.top rect + Globe3D.height rect / 2) in
      lat centre == 0 /\ lng centre == 0).
Proof.
  intros Hw Hh [Hx0 Hx1] [Hy0 Hy1]. cbv zeta.
  unfold Globe3D.handleGlobeClick. cbv zeta. cbn [lat lng].
  assert (Hx : 0 <= (clientX - Globe3D.left rect) / Globe3D.width rect <= 1).
  { split; [apply Qle_shift_div_l | apply Qle_shift_div_r]; lra. }
  assert (Hy : 0 <= (clientY - Globe3D.top rect) / Globe3D.height rect <= 1).
  { split; [apply Qle_shift_div_l | apply Qle_shift_div_r]; lra. }
  repeat split; try lra; field; lra.
Qed.

Lemma click_inside_gives_valid_coordinates_witness :
  let clicked := Globe3D.handleGlobeClick Scenes.globe_element 196 146 in
  -90 <= lat clicked <= 90 /\ -180 <= lng clicked <= 180
  /\ (let centre :=
        Globe3D.handleGlobeClick Scenes.globe_element
          (100 + 384 / 2) (50 + 384 / 2) in
      lat centre == 0 /\ lng centre == 0).
Proof.
  apply (click_inside_gives_valid_coordinates Scenes.globe_element 196 146);
    try reflexivity; split; discriminate.
Defined.

(** ** The local calculation and the comfort index of the globe *)

(** X15.  The local calculation of the globe sees the latitude through
    its absolute value only and never the longitude: a place and its
    mirror image across the equator, at any longitude, get the same
    probabilities for the same date, the seasonal terms included. *)
Theorem local_probabilities_mirror_hemispheres
    (numberToString : Q -> string) (LocalTZA : Z -> Z)
    (latitude longitude longitude' : Q) (date : Date)
    (thresholds : Earth3DGlobe.WeatherThresholds) :
  Earth3DGlobe.calculateWeatherProbabilitiesLocal numberToString LocalTZA
    {| lat := - latitude; lng := longitude' |} date thresholds
  = Earth3DGlobe.calculateWeatherProbabilitiesLocal numberToString LocalTZA
      {| lat := latitude; lng := longitude |} date thresholds.
Proof.
  unfold Earth3DGlobe.calculateWeatherProbabilitiesLocal. cbv zeta.
  cbn [lat lng].
  assert (H : Math_abs (- latitude) = Math_abs latitude).
  { destruct latitude as [n d]. unfold Math_abs, Qabs, Qopp. cbn [Qnum Qden].
    now rewrite Z.abs_opp. }
  rewrite H. reflexivity.
Qed.






(** ** The comfort bar of the panel *)

(** X17.  When the panel renders, the colour of its comfort bar follows
    the mean of the probabilities shown and not the [comfortIndex] passed
    in.  For up to 1024 percentages the bar is green when the mean is at
    most 30.5 and not green when the mean exceeds 30.5; it is red when
    the mean exceeds 60.5 and not red when the mean is at most 60.5: all
    this up to the margin of the arithmetic in doubles, within which
    either side is possible. *)
Theorem panel_bar_follows_mean (now : Z) (p : WeatherProbability)
    (l : list WeatherProbability) (comfortIndex : Q)
    (eventDate : option IsoDate) :
  Forall (fun p => Spec.percent (probability p)) (p :: l) ->
  (List.length (p :: l) <= 1024)%nat ->
  exists view,
    (forall comfortIndex',
        WeatherAnalysisPanel.WeatherAnalysisPanel now (Some (p :: l))
          comfortIndex' true eventDate = Some view)
    /\ let mean := Spec.mean (map probability (p :: l)) in
       let class := WeatherAnalysisPanel.comfort_bar_class view in
       (mean <= 30.5 - Spec.margin -> class = "bg-green-500"%string)
       /\ (30.5 + Spec.margin < mean -> class <> "bg-green-500"%string)
       /\ (60.5 + Spec.margin < mean -> class = "bg-red-500"%string)
       /\ (mean <= 60.5 - Spec.margin -> class <> "bg-red-500"%string).
Proof.
  intros Hps Hlen.
  destruct (panel_comfort_value p l Hps Hlen) as (q & E & Hq).
  eexists. split; [intros comfortIndex'; reflexivity |].
  cbv zeta. cbn [WeatherAnalysisPanel.comfort_bar_class].
  rewrite E.
  destruct (panel_bar_class q) as (G1 & G2 & Y1 & Y2).
  set (mean := Spec.mean (map probability (p :: l))) in *.
  apply Qabs_Qle_condition in Hq. unfold Spec.margin in *.
  split; [| split; [| split]]; intros H.
  - rewrite G1 by lra. reflexivity.
  - rewrite G2 by lra. cbv iota.
    destruct (Binary64.leb (Binary64.Finite 40) _); discriminate.
  - rewrite G2, Y2 by lra. reflexivity.
  - destruct (Binary64.leb (Binary64.Finite 70) _); [discriminate |].
    rewrite Y1 by lra. cbv iota. discriminate.
Qed.

(** Probabilities 20 and 40: the mean is 30 and the bar is green,
    whatever comfort index is passed in. *)
Lemma panel_bar_follows_mean_witness :
  exists view,
    (forall comfortIndex',
        WeatherAnalysisPanel.WeatherAnalysisPanel 0
          (Some Examples.calm_day) comfortIndex' true None = Some view)
    /\ WeatherAnalysisPanel.comfort_bar_class view = "bg-green-500"%string.
Proof.
  destruct (panel_bar_follows_mean 0 (Examples.entry "Heavy Rain" 20)
              [Examples.entry "Strong Wind" 40] 0 None)
    as (view & Hview & Hgreen & _).
  - repeat constructor; cbn; discriminate.
  - cbn. lia.
  - exists view. split; [exact Hview |].
    apply Hgreen. apply Qle_bool_iff. vm_compute. reflexivity.
Defined.

(** Within the margin either side is possible: probabilities 0, 56, 93
    and 93 have the mean 60.5, and the bar is red. *)
Example panel_bar_at_mean_60_5 :
  Spec.mean (map probability Examples.mean_at_tie) == 60.5
  /\ exists view,
       WeatherAnalysisPanel.WeatherAnalysisPanel 0
         (Some Examples.mean_at_tie) 80 true None = Some view
       /\ WeatherAnalysisPanel.comfort_bar_class view = "bg-red-500"%string.
Proof. split; [reflexivity | eexists; split; reflexivity]. Qed.

(** ** Coordinates as text *)

(** *** Digits *)

Lemma digit_char_is_digit (d : Z) :
  (0 <= d <= 9)%Z ->
  Coordinates.is_digit (Coordinates.digit_char d) = true
  /\ Coordinates.digit_value (Coordinates.digit_char d) = d.
Proof.
  intros H.
  assert (E : In d [0; 1; 2; 3; 4; 5; 6; 7; 8; 9]%Z) by (cbn; lia).
  cbn in E.
  repeat (destruct E as [<- | E]; [split; reflexivity |]).
  contradiction.
Qed.

Lemma decimal_value_app (a b : string) (acc : Z) :
  Coordinates.decimal_value acc (a ++ b)
  = Coordinates.decimal_value (Coordinates.decimal_value acc a) b.
Proof.
  revert acc. induction a as [| c a IH]; intros acc; cbn; [reflexivity |].
  apply IH.
Qed.

Lemma all_digits_app (a b : string) :
  all_digits (a ++ b) = all_digits a && all_digits b.
Proof.
  induction a as [| c a IH]; cbn; [reflexivity |].
  now rewrite IH, andb_assoc.
Qed.

Lemma string_length_app (a b : string) :
  String.length (a ++ b) = (String.length a + String.length b)%nat.
Proof. induction a as [| c a IH]; cbn; [reflexivity | now rewrite IH]. Qed.

Lemma decimal_digits_S (fuel : nat) (n : Z) :
  Coordinates.decimal_digits (S fuel) n
  = ((if (n <? 10)%Z then EmptyString
      else Coordinates.decimal_digits fuel (n / 10))
     ++ String (Coordinates.digit_char (n mod 10)) EmptyString)%string.
Proof. reflexivity. Qed.

(** The digits printed for [n] are digits, they denote [n], and there are
    no more of them than [n] needs. *)
Lemma decimal_digits_spec (fuel : nat) (n : Z) :
  (0 <= n < 2 ^ Z.of_nat (S fuel))%Z ->
  let digits := Coordinates.decimal_digits (S fuel) n in
  all_digits digits = true
  /\ Coordinates.decimal_value 0 digits = n
  /\ digits <> EmptyString
  /\ forall k, (n < 10 ^ Z.of_nat (S k))%Z ->
               (String.length digits <= S k)%nat.
Proof.
  revert n. induction fuel as [| fuel IH]; intros n Hn; cbv zeta;
    rewrite decimal_digits_S;
    assert (Hd : (0 <= n mod 10 <= 9)%Z)
      by (pose proof (Z.mod_pos_bound n 10); lia);
    destruct (digit_char_is_digit _ Hd) as [Hdigit Hvalue];
    destruct (n <? 10)%Z eqn:E.
  1, 3: apply Z.ltb_lt in E; cbn [append]; repeat split;
    [ cbn; now rewrite Hdigit
    | cbn; rewrite Hvalue; rewrite Z.mod_small; lia
    | discriminate
    | intros k _; cbn; lia ].
  - apply Z.ltb_ge in E. change (2 ^ Z.of_nat 1)%Z with 2%Z in Hn. lia.
  - apply Z.ltb_ge in E.
    assert (Hq : (0 <= n / 10 < 2 ^ Z.of_nat (S fuel))%Z).
    { rewrite (Nat2Z.inj_succ (S fuel)), Z.pow_succ_r in Hn by lia.
      split; [apply Z.div_pos; lia |].
      apply Z.div_lt_upper_bound; lia. }
    destruct (IH _ Hq) as (Hall & Hval & Hne & Hlen).
    repeat split.
    + rewrite all_digits_app, Hall. cbn. now rewrite Hdigit.
    + rewrite decimal_value_app, Hval. cbn [Coordinates.decimal_value].
      rewrite Hvalue. Z.div_mod_to_equations. lia.
    + destruct (Coordinates.decimal_digits (S fuel) (n / 10));
        [now elim Hne | discriminate].
    + intros k Hk. rewrite string_length_app. cbn [String.length].
      destruct k as [| k].
      { cbn in Hk. lia. }
      specialize (Hlen k).
      assert (n / 10 < 10 ^ Z.of_nat (S k))%Z.
      { apply Z.div_lt_upper_bound; [lia |].
        rewrite (Nat2Z.inj_succ (S k)), Z.pow_succ_r in Hk by lia. lia. }
      lia.
Qed.

Lemma decimal_spec (n : Z) :
  (0 <= n)%Z ->
  all_digits (Coordinates.decimal n) = true
  /\ Coordinates.decimal_value 0 (Coordinates.decimal n) = n
  /\ Coordinates.decimal n <> EmptyString
  /\ forall k, (n < 10 ^ Z.of_nat (S k))%Z ->
               (String.length (Coordinates.decimal n) <= S k)%nat.
Proof.
  intros Hn. unfold Coordinates.decimal.
  apply decimal_digits_spec. split; [exact Hn |].
  rewrite Nat2Z.inj_succ, Z2Nat.id by apply Z.log2_nonneg.
  destruct (Z.eq_dec n 0) as [-> | Hne]; [reflexivity |].
  apply Z.log2_spec. lia.
Qed.

Lemma pad_zeros_spec (width : nat) (s : string) :
  all_digits s = true ->
  (String.length s <= width)%nat ->
  let padded := Coordinates.pad_zeros width s in
  all_digits padded = true
  /\ String.length padded = width
  /\ Coordinates.decimal_value 0 padded = Coordinates.decimal_value 0 s.
Proof.
  revert s. induction width as [| width IH]; intros s Hs Hlen; cbv zeta.
  - assert (String.length s = 0%nat) by lia.
    cbn. repeat split; assumption.
  - cbn [Coordinates.pad_zeros].
    destruct (S width - String.length s)%nat eqn:E.
    + repeat split; [assumption | lia].
    + assert (Hlen' : (String.length s <= width)%nat) by lia.
      destruct (IH s Hs Hlen') as (Hall & Hl & Hv).
      repeat split.
      * cbn. exact Hall.
      * cbn. now rewrite Hl.
      * cbn. exact Hv.
Qed.

(** *** Reading a number back *)

Lemma span_digits_app (digits rest : string) :
  all_digits digits = true -> no_digit_ahead rest ->
  Coordinates.span_digits (digits ++ rest) = (digits, rest).
Proof.
  intros Hd Hrest. induction digits as [| c digits IH].
  - cbn [append]. destruct rest as [| c rest]; [reflexivity |].
    cbn in Hrest. cbn. now rewrite Hrest.
  - cbn in Hd. apply andb_true_iff in Hd as [Hc Hd].
    cbn. rewrite Hc, (IH Hd). reflexivity.
Qed.

Lemma span_digits_all (digits : string) :
  all_digits digits = true ->
  Coordinates.span_digits digits = (digits, EmptyString).
Proof.
  intros H. rewrite <- (span_digits_app digits EmptyString H I).
  f_equal. induction digits as [| c d IH]; cbn; [reflexivity |].
  cbn in H. apply andb_true_iff in H as [_ H]. now rewrite <- IH.
Qed.

Lemma no_digit_ahead_point (s : string) : no_digit_ahead ("." ++ s).
Proof. reflexivity. Qed.

Lemma string_app_assoc (a b c : string) :
  ((a ++ b) ++ c = a ++ (b ++ c))%string.
Proof. induction a as [| x a IH]; cbn; [reflexivity | now rewrite IH]. Qed.

(** The unsigned number group takes a decimal text and leaves what
    follows, when that does not go on with a digit. *)
Lemma number_point_text (signed : bool) (whole fraction rest : string) :
  all_digits whole = true -> whole <> EmptyString ->
  all_digits fraction = true -> no_digit_ahead rest ->
  Coordinates.number signed (point_text whole fraction ++ rest)
  = Some (point_text whole fraction, rest).
Proof.
  intros Hw Hne Hf Hrest. unfold Coordinates.number, point_text.
  assert (Hsign :
            (match signed, (whole ++ "." ++ fraction) ++ rest with
             | true, String "-" rest0 => ("-", rest0)
             | _, _ => ("", (whole ++ "." ++ fraction) ++ rest)
             end)%string
            = (EmptyString, ((whole ++ "." ++ fraction) ++ rest)%string)).
  { destruct signed; [| reflexivity].
    destruct whole as [| c whole]; [now elim Hne |].
    cbn in Hw. apply andb_true_iff in Hw as [Hc _].
    cbn [append].
    destruct c as [[] [] [] [] [] [] [] []]; try reflexivity;
      discriminate Hc. }
  rewrite Hsign.
  rewrite !string_app_assoc.
  rewrite (span_digits_app whole _ Hw (no_digit_ahead_point _)).
  destruct whole as [| c whole]; [now elim Hne |].
  cbn [append].
  rewrite (span_digits_app fraction rest Hf Hrest).
  reflexivity.
Qed.

Lemma parseFloat_point_text (whole fraction : string) :
  all_digits whole = true -> whole <> EmptyString ->
  all_digits fraction = true ->
  Coordinates.parseFloat (point_text whole fraction)
  = inject_Z (Coordinates.decimal_value 0 whole)
    + inject_Z (Coordinates.decimal_value 0 fraction)
      / inject_Z (10 ^ Z.of_nat (String.length fraction)).
Proof.
  intros Hw Hne Hf. unfold Coordinates.parseFloat, point_text.
  assert (Hsign :
            (match (whole ++ "." ++ fraction)%string with
             | String "-" rest => (true, rest)
             | _ => (false, (whole ++ "." ++ fraction)%string)
             end) = (false, (whole ++ "." ++ fraction)%string)).
  { destruct whole as [| c whole]; [now elim Hne |].
    cbn in Hw. apply andb_true_iff in Hw as [Hc _].
    cbn [append].
    destruct c as [[] [] [] [] [] [] [] []]; try reflexivity;
      discriminate Hc. }
  rewrite Hsign.
  rewrite (span_digits_app whole _ Hw (no_digit_ahead_point _)).
  cbn [append]. rewrite (span_digits_all fraction Hf). reflexivity.
Qed.

Lemma after_prefix_app (p s : string) :
  Coordinates.after_prefix p (p ++ s) = Some s.
Proof.
  induction p as [| c p IH]; cbn.
  - now destruct s.
  - now rewrite Ascii.eqb_refl.
Qed.

(** *** Trimming *)

Lemma is_space2_plain (a c : ascii) :
  plain_char c -> Coordinates.is_space2 a c = false.
Proof.
  intros [_ H]. unfold Coordinates.is_space2.
  destruct (Nat.eqb_spec (nat_of_ascii c) 160); [lia |].
  apply andb_false_r.
Qed.

Lemma is_space2_plain_lead (a c : ascii) :
  plain_char a -> Coordinates.is_space2 a c = false.
Proof.
  intros [_ H]. unfold Coordinates.is_space2.
  destruct (Nat.eqb_spec (nat_of_ascii a) 194); [lia | reflexivity].
Qed.

Lemma is_space3_plain (a b c : ascii) :
  plain_char c -> Coordinates.is_space3 a b c = false.
Proof.
  intros [_ H]. unfold Coordinates.is_space3. cbv zeta.
  repeat match goal with
         | |- context [(nat_of_ascii c =? ?k)%nat] =>
             destruct (Nat.eqb_spec (nat_of_ascii c) k); [lia |]
         end.
  destruct (Nat.leb_spec 128 (nat_of_ascii c)); [lia |].
  cbn. now rewrite !andb_false_r.
Qed.

Lemma is_space3_plain_lead (a b c : ascii) :
  plain_char a -> Coordinates.is_space3 a b c = false.
Proof.
  intros [_ H]. unfold Coordinates.is_space3. cbv zeta.
  repeat match goal with
         | |- context [(nat_of_ascii a =? ?k)%nat] =>
             destruct (Nat.eqb_spec (nat_of_ascii a) k); [lia |]
         end.
  reflexivity.
Qed.

(** White space is not skipped at a plain character. *)
Lemma skip_spaces_plain (c : ascii) (s : string) :
  plain_char c ->
  Coordinates.skip_spaces (String c s) = String c s.
Proof.
  intros Hc. cbn [Coordinates.skip_spaces].
  destruct Hc as [Hs Hn]. rewrite Hs.
  destruct s as [| b s]; [reflexivity |].
  rewrite is_space2_plain_lead by (split; assumption).
  destruct s as [| c' s]; [reflexivity |].
  now rewrite is_space3_plain_lead by (split; assumption).
Qed.

(** A text that ends in a plain character is not white space only. *)
Lemma skip_spaces_not_all (n : nat) (s : string) (c : ascii) :
  plain_char c -> (String.length s <= n)%nat ->
  Coordinates.skip_spaces (s ++ String c EmptyString) <> EmptyString.
Proof.
  intros Hc. revert s.
  induction n as [| n IH]; intros s Hlen.
  - destruct s; [| cbn in Hlen; lia].
    cbn [append]. rewrite skip_spaces_plain by exact Hc. discriminate.
  - destruct s as [| a r1].
    { cbn [append]. rewrite skip_spaces_plain by exact Hc. discriminate. }
    cbn [append Coordinates.skip_spaces]. cbn in Hlen.
    destruct (Coordinates.is_space a); [apply IH; lia |].
    destruct r1 as [| b r2].
    { cbn [append]. rewrite is_space2_plain by exact Hc. discriminate. }
    cbn [append]. cbn in Hlen.
    destruct (Coordinates.is_space2 a b); [apply IH; lia |].
    destruct r2 as [| c' r3].
    { cbn [append]. rewrite is_space3_plain by exact Hc. discriminate. }
    cbn [append]. cbn in Hlen.
    destruct (Coordinates.is_space3 a b c'); [apply IH; lia |].
    discriminate.
Qed.

Lemma trimEnd_plain_end (s : string) (c : ascii) :
  plain_char c ->
  Coordinates.trimEnd (s ++ String c EmptyString)
  = (s ++ String c EmptyString)%string.
Proof.
  intros Hc. induction s as [| a s IH].
  - cbn [append Coordinates.trimEnd].
    rewrite skip_spaces_plain by exact Hc. reflexivity.
  - cbn [append]. cbn [Coordinates.trimEnd].
    pose proof (skip_spaces_not_all (S (String.length s)) (String a s) c Hc
                  (le_n _)) as Hne.
    cbn [append] in Hne.
    destruct (Coordinates.skip_spaces (String a (s ++ String c EmptyString)));
      [now elim Hne |].
    now rewrite IH.
Qed.

Lemma digit_is_plain (c : ascii) :
  Coordinates.is_digit c = true -> plain_char c.
Proof.
  unfold Coordinates.is_digit, plain_char, Coordinates.is_space.
  intros H. apply andb_true_iff in H as [H1 H2].
  apply Nat.leb_le in H1. apply Nat.leb_le in H2. cbv zeta.
  split; [| lia].
  destruct (Nat.leb_spec (nat_of_ascii c) 13); [lia |].
  destruct (Nat.eqb_spec (nat_of_ascii c) 32); [lia |].
  now rewrite andb_false_r.
Qed.

(** *** What is printed and what is read *)

(** The text that [toFixed(4)] prints for an absolute value: a decimal
    text whose value is the nearest multiple of 0.0001, the larger one on
    a tie. *)
Lemma toFixed4_text (x : Q) :
  exists whole fraction,
    Coordinates.toFixed 4 (Math_abs x) = point_text whole fraction
    /\ all_digits whole = true /\ whole <> EmptyString
    /\ all_digits fraction = true
    /\ Coordinates.parseFloat (point_text whole fraction)
       == inject_Z (Qfloor (Qabs x * 10000 + (1 # 2))) / 10000.
Proof.
  unfold Coordinates.toFixed, Math_abs. cbv zeta.
  assert (Habs : Qabs (Qabs x) = Qabs x).
  { destruct x as [n d]. unfold Qabs. cbn [Qnum Qden].
    now rewrite Z.abs_idemp. }
  rewrite Habs.
  rewrite (Q_lt_false (Qabs x) 0) by apply Qabs_nonneg.
  change (10 ^ Z.of_nat 4)%Z with 10000%Z.
  change (inject_Z 10000) with 10000.
  set (n := Qfloor (Qabs x * 10000 + (1 # 2))).
  assert (Hn : (0 <= n)%Z).
  { unfold n. rewrite <- (Qfloor_Z 0). apply Qfloor_resp_le.
    change (inject_Z 0) with 0. pose proof (Qabs_nonneg x). lra. }
  assert (Hq : (0 <= n / 10000)%Z) by (apply Z.div_pos; lia).
  assert (Hr : (0 <= n mod 10000 < 10000)%Z)
    by (apply Z.mod_pos_bound; lia).
  destruct (decimal_spec _ Hq) as (Hw & Hwv & Hwne & _).
  destruct (decimal_spec (n mod 10000) ltac:(lia)) as (Hf & Hfv & _ & Hfl).
  specialize (Hfl 3%nat ltac:(change (10 ^ Z.of_nat 4)%Z with 10000%Z; lia)).
  destruct (pad_zeros_spec 4 _ Hf Hfl) as (Hp & Hpl & Hpv).
  exists (Coordinates.decimal (n / 10000)),
         (Coordinates.pad_zeros 4 (Coordinates.decimal (n mod 10000))).
  repeat split; try assumption.
  rewrite parseFloat_point_text by assumption.
  rewrite Hpl, Hpv, Hwv, Hfv.
  change (10 ^ Z.of_nat 4)%Z with 10000%Z.
  change (inject_Z 10000) with 10000.
  rewrite (Z.div_mod n 10000) at 3 by lia.
  rewrite inject_Z_plus, inject_Z_mult.
  change (inject_Z 10000) with 10000. field.
Qed.

Lemma first_digit_plain (whole rest : string) :
  all_digits whole = true -> whole <> EmptyString ->
  exists c tail, (whole ++ rest)%string = String c tail /\ plain_char c.
Proof.
  intros Hw Hne. destruct whole as [| c whole]; [now elim Hne |].
  cbn in Hw. apply andb_true_iff in Hw as [Hc _].
  exists c, (whole ++ rest)%string. split; [reflexivity |].
  now apply digit_is_plain.
Qed.

Lemma no_digit_ahead_degree (degree : string) (letter : ascii)
    (rest : string) :
  plain_degree degree -> Coordinates.is_digit letter = false ->
  no_digit_ahead (degree ++ String letter rest).
Proof.
  intros Hd Hl. destruct degree as [| c degree]; cbn; [exact Hl |].
  apply Hd.
Qed.

Lemma not_comma_ahead (degree : string) (letter : ascii) (rest : string) :
  plain_degree degree -> letter <> ","%char ->
  match (degree ++ String letter rest)%string with
  | String "," _ => False
  | _ => True
  end.
Proof.
  intros Hd Hl. destruct degree as [| c degree]; cbn [append].
  - destruct letter as [[] [] [] [] [] [] [] []]; try exact I.
    now elim Hl.
  - destruct Hd as [_ Hc].
    destruct c as [[] [] [] [] [] [] [] []]; try exact I. now elim Hc.
Qed.

(** A text of the second format is read as such: the first format does
    not match it, and the direction letters give the signs. *)
Lemma parseCoordinates_degrees (degree : string)
    (whole1 fraction1 whole2 fraction2 : string) (south west : bool) :
  plain_degree degree ->
  all_digits whole1 = true -> whole1 <> EmptyString ->
  all_digits fraction1 = true ->
  all_digits whole2 = true -> whole2 <> EmptyString ->
  all_digits fraction2 = true ->
  let ns := if south then "S"%char else "N"%char in
  let ew := if west then "W"%char else "E"%char in
  Coordinates.parseCoordinates degree
    (point_text whole1 fraction1 ++ degree ++ String ns EmptyString ++ ", "
     ++ point_text whole2 fraction2 ++ degree ++ String ew EmptyString)
  = Some {| lat := if south
                   then - Coordinates.parseFloat (point_text whole1 fraction1)
                   else Coordinates.parseFloat (point_text whole1 fraction1);
            lng := if west
                   then - Coordinates.parseFloat (point_text whole2 fraction2)
                   else Coordinates.parseFloat (point_text whole2 fraction2)
         |}.
Proof.
  intros Hdeg Hw1 Hne1 Hf1 Hw2 Hne2 Hf2 ns ew.
  set (text1 := point_text whole1 fraction1).
  set (text2 := point_text whole2 fraction2).
  assert (Hns : Coordinates.is_digit ns = false /\ ns <> ","%char)
    by (unfold ns; destruct south; split; (reflexivity || discriminate)).
  assert (Hew : Coordinates.is_digit ew = false /\ plain_char ew)
    by (unfold ew; destruct west; repeat split; cbn; lia).
  unfold Coordinates.parseCoordinates. cbv zeta.
  (* the text is trimmed already *)
  assert (Htrim :
            Coordinates.trim
              (text1 ++ degree ++ String ns EmptyString ++ ", "
               ++ text2 ++ degree ++ String ew EmptyString)
            = (text1 ++ degree ++ String ns EmptyString ++ ", "
               ++ text2 ++ degree ++ String ew EmptyString)%string).
  { unfold Coordinates.trim.
    destruct (first_digit_plain whole1
                ("." ++ fraction1 ++ degree ++ String ns EmptyString ++ ", "
                 ++ text2 ++ degree ++ String ew EmptyString)
                Hw1 Hne1) as (c & tail & E & Hc).
    assert (Etext :
              (text1 ++ degree ++ String ns EmptyString ++ ", "
               ++ text2 ++ degree ++ String ew EmptyString)%string
              = String c tail).
    { rewrite <- E. unfold text1, point_text.
      now rewrite !string_app_assoc. }
    rewrite Etext, (skip_spaces_plain c tail Hc), <- Etext.
    replace (text1 ++ degree ++ String ns EmptyString ++ ", "
             ++ text2 ++ degree ++ String ew EmptyString)%string
      with ((text1 ++ degree ++ String ns EmptyString ++ ", "
             ++ text2 ++ degree) ++ String ew EmptyString)%string
      by now rewrite !string_app_assoc.
    apply trimEnd_plain_end, Hew. }
  rewrite Htrim.
  (* format 1 *)
  assert (Hbasic :
            Coordinates.basicCoords
              (text1 ++ degree ++ String ns EmptyString ++ ", "
               ++ text2 ++ degree ++ String ew EmptyString) = None).
  { unfold Coordinates.basicCoords, text1.
    rewrite number_point_text; try assumption.
    - pose proof (not_comma_ahead degree ns
                    (", " ++ text2 ++ degree ++ String ew EmptyString)
                    Hdeg (proj2 Hns)) as H.
      cbn [append] in H |- *.
      destruct (degree ++ String ns _)%string as [| c r]; [reflexivity |].
      destruct c as [[] [] [] [] [] [] [] []]; try reflexivity.
      contradiction.
    - apply no_digit_ahead_degree; [exact Hdeg | apply Hns]. }
  rewrite Hbasic.
  (* format 2 *)
  unfold Coordinates.degreesCoords, text1.
  rewrite number_point_text; try assumption;
    [| apply no_digit_ahead_degree; [exact Hdeg | apply Hns]].
  rewrite after_prefix_app.
  assert (Hletter :
            Coordinates.letter_of "NSns"
              (String ns EmptyString ++ ", " ++ text2 ++ degree
               ++ String ew EmptyString)
            = Some (ns, (", " ++ text2 ++ degree
                         ++ String ew EmptyString)%string))
    by (unfold ns; destruct south; reflexivity).
  rewrite Hletter. cbn [append].
  destruct (first_digit_plain whole2
              ("." ++ fraction2 ++ degree ++ String ew EmptyString)
              Hw2 Hne2) as (c & tail & E & Hc).
  assert (Etext : (text2 ++ degree ++ String ew EmptyString)%string
                  = String c tail).
  { rewrite <- E. unfold text2, point_text. now rewrite !string_app_assoc. }
  assert (Hskip :
            Coordinates.skip_spaces
              (String " " (text2 ++ degree ++ String ew EmptyString))
            = (text2 ++ degree ++ String ew EmptyString)%string).
  { cbn [Coordinates.skip_spaces].
    change (Coordinates.is_space " ") with true. cbv iota.
    rewrite Etext. apply skip_spaces_plain, Hc. }
  rewrite Hskip. unfold text2.
  rewrite number_point_text; try assumption;
    [| apply no_digit_ahead_degree; [exact Hdeg | apply Hew]].
  rewrite after_prefix_app.
  assert (Hletter2 :
            Coordinates.letter_of "EWew" (String ew EmptyString)
            = Some (ew, EmptyString))
    by (unfold ew; destruct west; reflexivity).
  rewrite Hletter2.
  f_equal. f_equal.
  - unfold ns. destruct south; reflexivity.
  - unfold ew. destruct west; reflexivity.
Qed.

Lemma plain_degrees :
  plain_degree Coordinates.degree_of_Earth3DGlobe
  /\ plain_degree Coordinates.degree_of_Map2D.
Proof. split; split; (reflexivity || discriminate). Qed.

Lemma rounded4_close (x : Q) : Qabs (rounded4 x - x) <= 1 # 20000.
Proof.
  unfold rounded4. cbv zeta.
  pose proof (Qfloor_le (Qabs x * 10000 + (1 # 2))) as Hl.
  pose proof (Qlt_floor (Qabs x * 10000 + (1 # 2))) as Hu.
  rewrite inject_Z_plus in Hu. change (inject_Z 1) with 1 in Hu.
  set (n := inject_Z (Qfloor (Qabs x * 10000 + (1 # 2)))) in *.
  apply Qabs_Qle_condition. unfold Qdiv.
  change (/ 10000) with (1 # 10000).
  destruct (Qle_bool 0 x) eqn:E.
  - apply Qle_bool_iff in E. rewrite (Qabs_pos x E) in Hl, Hu.
    split; lra.
  - assert (Hneg : x <= 0).
    { destruct (Qlt_le_dec x 0) as [H | H]; [lra |].
      apply Qle_bool_iff in H. congruence. }
    rewrite (Qabs_neg x Hneg) in Hl, Hu. split; lra.
Qed.

Lemma rounded4_range (bound : Z) (x : Q) :
  - inject_Z bound <= x <= inject_Z bound ->
  - inject_Z bound <= rounded4 x <= inject_Z bound.
Proof.
  intros [Hlo Hhi]. unfold rounded4. cbv zeta.
  assert (Habs : Qabs x <= inject_Z bound) by (apply Qabs_Qle_condition; lra).
  change (inject_Z (Qfloor (Qabs x * 10000 + (1 # 2))))
    with (Math_round (Qabs x * 10000)).
  assert (Hn : Math_round (Qabs x * 10000) <= inject_Z bound * 10000).
  { change 10000 with (inject_Z 10000) at 2. rewrite <- inject_Z_mult.
    rewrite <- (Math_round_inject_Z (bound * 10000)).
    apply Math_round_mono. rewrite inject_Z_mult.
    change (inject_Z 10000) with 10000. lra. }
  assert (H0 : 0 <= Math_round (Qabs x * 10000)).
  { change 0 with (inject_Z 0). rewrite <- (Math_round_inject_Z 0).
    apply Math_round_mono. change (inject_Z 0) with 0.
    pose proof (Qabs_nonneg x). lra. }
  set (n := Math_round (Qabs x * 10000)) in *.
  unfold Qdiv. change (/ 10000) with (1 # 10000).
  destruct (Qle_bool 0 x); split; lra.
Qed.

(** X18.  What [formatCoordinates] prints, [parseCoordinates] reads back:
    for a latitude in [-90, 90] and a longitude in [-180, 180] the
    formatted text is read by the second format as the coordinates
    rounded to four decimals, so within 0.00005 of the originals and
    again within the two ranges.  This holds in [Earth3DGlobe.tsx] and,
    with its own degree text, in [Map2D.tsx]. *)
Theorem formatted_coordinates_parse_back (degree : string)
    (latitude longitude : Q) :
  In degree [Coordinates.degree_of_Earth3DGlobe;
             Coordinates.degree_of_Map2D] ->
  -90 <= latitude <= 90 -> -180 <= longitude <= 180 ->
  exists c,
    Coordinates.parseCoordinates degree
      (Coordinates.formatted
         (Coordinates.formatCoordinates degree latitude longitude))
    = Some c
    /\ lat c == rounded4 latitude /\ lng c == rounded4 longitude
    /\ Qabs (lat c - latitude) <= 1 # 20000
    /\ Qabs (lng c - longitude) <= 1 # 20000
    /\ -90 <= lat c <= 90 /\ -180 <= lng c <= 180.
Proof.
  intros Hdegree Hlat Hlng.
  assert (Hplain : plain_degree degree).
  { destruct plain_degrees as [H1 H2].
    destruct Hdegree as [<- | [<- | []]]; assumption. }
  unfold Coordinates.formatCoordinates. cbv zeta.
  cbn [Coordinates.formatted].
  destruct (toFixed4_text latitude)
    as (whole1 & fraction1 & -> & Hw1 & Hne1 & Hf1 & Hv1).
  destruct (toFixed4_text longitude)
    as (whole2 & fraction2 & -> & Hw2 & Hne2 & Hf2 & Hv2).
  pose proof (parseCoordinates_degrees degree whole1 fraction1 whole2
                fraction2 (negb (Qle_bool 0 latitude))
                (negb (Qle_bool 0 longitude))
                Hplain Hw1 Hne1 Hf1 Hw2 Hne2 Hf2) as Hparse.
  cbv zeta in Hparse.
  assert (Hns : (if Qle_bool 0 latitude then "N" else "S")%string
                = String (if negb (Qle_bool 0 latitude)
                          then "S"%char else "N"%char) EmptyString)
    by (destruct (Qle_bool 0 latitude); reflexivity).
  assert (Hew : (if Qle_bool 0 longitude then "E" else "W")%string
                = String (if negb (Qle_bool 0 longitude)
                          then "W"%char else "E"%char) EmptyString)
    by (destruct (Qle_bool 0 longitude); reflexivity).
  rewrite Hns, Hew, Hparse.
  eexists. split; [reflexivity |]. cbn [lat lng].
  assert (Elat : (if negb (Qle_bool 0 latitude)
                  then - Coordinates.parseFloat (point_text whole1 fraction1)
                  else Coordinates.parseFloat (point_text whole1 fraction1))
                 == rounded4 latitude).
  { unfold rounded4. cbv zeta.
    destruct (Qle_bool 0 latitude); cbn [negb]; now rewrite Hv1. }
  assert (Elng : (if negb (Qle_bool 0 longitude)
                  then - Coordinates.parseFloat (point_text whole2 fraction2)
                  else Coordinates.parseFloat (point_text whole2 fraction2))
                 == rounded4 longitude).
  { unfold rounded4. cbv zeta.
    destruct (Qle_bool 0 longitude); cbn [negb]; now rewrite Hv2. }
  rewrite Elat, Elng.
  pose proof (rounded4_range 90 latitude Hlat).
  pose proof (rounded4_range 180 longitude Hlng).
  repeat split; try reflexivity; try apply rounded4_close; tauto.
Qed.

Lemma formatted_coordinates_parse_back_witness :
  exists c,
    Coordinates.parseCoordinates Coordinates.degree_of_Earth3DGlobe
      (Coordinates.formatted
         (Coordinates.formatCoordinates Coordinates.degree_of_Earth3DGlobe
            (-33.86885) 151.2093))
    = Some c
    /\ lat c == rounded4 (-33.86885) /\ lng c == rounded4 151.2093
    /\ Qabs (lat c - -33.86885) <= 1 # 20000
    /\ Qabs (lng c - 151.2093) <= 1 # 20000
    /\ -90 <= lat c <= 90 /\ -180 <= lng c <= 180.
Proof.
  apply (formatted_coordinates_parse_back
           Coordinates.degree_of_Earth3DGlobe (-33.86885) 151.2093).
  - left. reflexivity.
  - split; discriminate.
  - split; discriminate.
Defined.

(** ** The search box of the 2D map *)


Section SearchRuns.

Variable reverseGeocode : Q -> Q -> outcome (option string).


End SearchRuns.


(** ** The decade chart *)

Lemma Math_round_close (y : Q) :
  y - (1 # 2) < Math_round y /\ Math_round y <= y + (1 # 2).
Proof.
  unfold Math_round.
  pose proof (Qfloor_le (y + (1 # 2))) as Hl.
  pose proof (Qlt_floor (y + (1 # 2))) as Hu.
  rewrite inject_Z_plus in Hu. change (inject_Z 1) with 1 in Hu.
  split; lra.
Qed.

Section DecadeRuns.

Variables Req St : Type.
Variable draws : nat -> Q.
Hypothesis Hdraws : Spec.unit_draws draws.

(** One entry of the chart: its probability is the base of the decade
    plus a variation below 5 in size, clamped and rounded to a tenth; the
    direction compares the unrounded probability with the base of the
    decade before, so it cannot be [down] when that base is not higher. *)
Lemma decade_entry_run (decades : list TrendAnalysis.Decade)
    (decade : TrendAnalysis.Decade) (index : nat) (w : World Req St) :
  0 <= TrendAnalysis.baseProb decade <= 100 ->
  exists e w',
    TrendAnalysis.decade_entry draws decades decade index w = (Normal e, w')
    /\ Qabs (TrendAnalysis.probability e - TrendAnalysis.baseProb decade)
       <= 5.05
    /\ 0 <= TrendAnalysis.probability e <= 100
    /\ (index = 0%nat ->
        TrendAnalysis.trend_direction e = TrendAnalysis.stable)
    /\ (match index with
        | O => True
        | S previous =>
            TrendAnalysis.baseProb
              (nth previous decades (TrendAnalysis.mkDecade "" "" 0))
            <= TrendAnalysis.baseProb decade
        end ->
        TrendAnalysis.trend_direction e <> TrendAnalysis.down).
Proof.
  intros Hbase. destruct w as [sent calls log st].
  unfold TrendAnalysis.decade_entry. unfold_run.
  pose proof (Hdraws calls) as Hr.
  set (r := draws calls) in *.
  set (p := Math_max 0
              (Math_min 100 (TrendAnalysis.baseProb decade + (r - 0.5) * 10))).
  assert (Hp : 0 <= p <= 100 /\ Qabs (p - TrendAnalysis.baseProb decade) <= 5).
  { unfold p, Math_max, Math_min.
    destruct (Q.min_spec 100 (TrendAnalysis.baseProb decade + (r - 0.5) * 10))
      as [[Hc E] | [Hc E]];
      destruct (Q.max_spec 0
                  (Qmin 100 (TrendAnalysis.baseProb decade + (r - 0.5) * 10)))
        as [[Hc' E'] | [Hc' E']];
      rewrite E', ?E in *; (split; [lra |]); apply Qabs_Qle_condition; lra. }
  destruct Hp as [Hp Hclose]. apply Qabs_Qle_condition in Hclose.
  assert (Hround : 0 <= Math_round (p * 10) / 10 <= 100
                   /\ Qabs (Math_round (p * 10) / 10
                            - TrendAnalysis.baseProb decade) <= 5.05).
  { pose proof (Math_round_close (p * 10)) as [Hl Hu].
    destruct (Math_round_between 0 1000 (p * 10)) as [H0 H1000].
    { change (inject_Z 0) with 0. change (inject_Z 1000) with 1000. lra. }
    change (inject_Z 0) with 0 in H0.
    change (inject_Z 1000) with 1000 in H1000.
    unfold Qdiv. change (/ 10) with (1 # 10).
    split; [lra |]. apply Qabs_Qle_condition. lra. }
  destruct Hround as [Hrange Hbound].
  assert (Hdir : forall prev : Q,
             prev <= TrendAnalysis.baseProb decade ->
             (if Q_gt (Math_abs (p - prev)) 5
              then if Q_gt (p - prev) 0
                   then TrendAnalysis.up else TrendAnalysis.down
              else TrendAnalysis.stable) <> TrendAnalysis.down).
  { intros prev Hprev. destruct (Q_gt (p - prev) 0) eqn:Ed.
    - destruct (Q_gt (Math_abs (p - prev)) 5); discriminate.
    - unfold Q_gt in Ed. apply negb_false_iff in Ed.
      apply Qle_bool_iff in Ed.
      rewrite Q_gt_false; [discriminate |].
      unfold Math_abs. apply Qabs_Qle_condition. lra. }
  destruct (Q_gt (draws (S calls)) 0.7);
    (eexists; eexists; split; [reflexivity |];
     cbn [TrendAnalysis.probability TrendAnalysis.trend_direction];
     fold r; fold p;
     split; [exact Hbound |]; split; [exact Hrange |]; split;
     [ intros ->; reflexivity
     | destruct index as [| previous];
       [ intros _; discriminate | apply Hdir ] ]).
Qed.

(** X20.  The decade chart is made from the current probability alone:
    for a current probability within [0, 100] it has four entries whose
    probabilities lie within [0, 100] and differ from 0.7, 0.85, 0.95 and
    1 times the current probability by at most 5.05, whatever is drawn;
    the first decade is always marked stable and no decade is ever marked
    as going down. *)
Theorem decade_chart_follows_current_probability
    (probabilities : list WeatherProbability)
    (selectedMetric : TrendAnalysis.Metric) (w : World Req St) :
  let current := TrendAnalysis.currentProb probabilities selectedMetric in
  0 <= current <= 100 ->
  exists d1 d2 d3 d4 w',
    TrendAnalysis.generateDecadeData draws probabilities selectedMetric w
    = (Normal [d1; d2; d3; d4], w')
    /\ Qabs (TrendAnalysis.probability d1 - current * 0.7) <= 5.05
    /\ Qabs (TrendAnalysis.probability d2 - current * 0.85) <= 5.05
    /\ Qabs (TrendAnalysis.probability d3 - current * 0.95) <= 5.05
    /\ Qabs (TrendAnalysis.probability d4 - current) <= 5.05
    /\ Forall (fun d => 0 <= TrendAnalysis.probability d <= 100)
              [d1; d2; d3; d4]
    /\ TrendAnalysis.trend_direction d1 = TrendAnalysis.stable
    /\ Forall (fun d =>
                 TrendAnalysis.trend_direction d <> TrendAnalysis.down)
              [d1; d2; d3; d4].
Proof.
  intros current Hcurrent.
  unfold TrendAnalysis.generateDecadeData. cbv zeta. fold current.
  unfold TrendAnalysis.decades.
  cbn [TrendAnalysis.map_with_index]. unfold bind, ret.
  destruct (decade_entry_run
              (TrendAnalysis.decades current)
              (TrendAnalysis.mkDecade "1990s" "1990-1999" (current * 0.7))
              0 w) as (d1 & w1 & E1 & B1 & R1 & S1 & T1).
  { cbn [TrendAnalysis.baseProb]. lra. }
  unfold TrendAnalysis.decades in E1. rewrite E1. cbv beta iota.
  destruct (decade_entry_run
              (TrendAnalysis.decades current)
              (TrendAnalysis.mkDecade "2000s" "2000-2009" (current * 0.85))
              1 w1) as (d2 & w2 & E2 & B2 & R2 & _ & T2).
  { cbn [TrendAnalysis.baseProb]. lra. }
  unfold TrendAnalysis.decades in E2. rewrite E2. cbv beta iota.
  destruct (decade_entry_run
              (TrendAnalysis.decades current)
              (TrendAnalysis.mkDecade "2010s" "2010-2019" (current * 0.95))
              2 w2) as (d3 & w3 & E3 & B3 & R3 & _ & T3).
  { cbn [TrendAnalysis.baseProb]. lra. }
  unfold TrendAnalysis.decades in E3. rewrite E3. cbv beta iota.
  destruct (decade_entry_run
              (TrendAnalysis.decades current)
              (TrendAnalysis.mkDecade "2020s" "2020-2024" current)
              3 w3) as (d4 & w4 & E4 & B4 & R4 & _ & T4).
  { cbn [TrendAnalysis.baseProb]. lra. }
  unfold TrendAnalysis.decades in E4. rewrite E4. cbv beta iota.
  exists d1, d2, d3, d4, w4.
  cbn [TrendAnalysis.baseProb] in B1, B2, B3, B4.
  cbn [TrendAnalysis.decades nth TrendAnalysis.baseProb] in T1, T2, T3, T4.
  split; [reflexivity |].
  repeat (split; [assumption |]).
  split; [repeat (apply Forall_cons || apply Forall_nil); assumption |].
  split; [now apply S1 |].
  repeat (apply Forall_cons || apply Forall_nil).
  - apply T1. exact I.
  - apply T2. lra.
  - apply T3. lra.
  - apply T4. lra.
Qed.

End DecadeRuns.

Lemma decade_chart_follows_current_probability_witness :
  exists d1 d2 d3 d4 w',
    TrendAnalysis.generateDecadeData Examples.draws_half
      (probabilities Scenes.worst_case) TrendAnalysis.temperature
      Examples.fresh_globe
    = (Normal [d1; d2; d3; d4], w')
    /\ Qabs (TrendAnalysis.probability d1 - 100 * 0.7) <= 5.05
    /\ Qabs (TrendAnalysis.probability d2 - 100 * 0.85) <= 5.05
    /\ Qabs (TrendAnalysis.probability d3 - 100 * 0.95) <= 5.05
    /\ Qabs (TrendAnalysis.probability d4 - 100) <= 5.05
    /\ Forall (fun d => 0 <= TrendAnalysis.probability d <= 100)
              [d1; d2; d3; d4]
    /\ TrendAnalysis.trend_direction d1 = TrendAnalysis.stable
    /\ Forall (fun d =>
                 TrendAnalysis.trend_direction d <> TrendAnalysis.down)
              [d1; d2; d3; d4].
Proof.
  apply (decade_chart_follows_current_probability AnalyzeRequest unit
           Examples.draws_half).
  - intros n. split; [discriminate | reflexivity].
  - split; discriminate.
Defined.
